(** * speech_ex/svm.cpp: loading, training and evaluating the spoken-letter SVM

    A shallow embedding of [read_data_from_csv] and [main] of
    [src/speech_ex/svm.cpp], and the properties of the pipeline that the
    specification states about them.

    - [float] values are IEEE binary32 and [double] values IEEE binary64,
      both taken from the Standard Library's [SpecFloat] (precision and
      maximal exponent written out at every operation);
    - C [int]s are integers of [Z] with the overflow of [++] and of the
      float-to-int cast made explicit ([None] stands for undefined
      behaviour);
    - a [cv::Mat] of floats is a list of rows; [Mat::at] outside the
      allocated shape is undefined behaviour ([None]);
    - a [FILE*] opened for reading is the sequence of items that successive
      [%f] conversions meet;
    - OpenCV's [CvSVM] is reached through the interface [SvmBackend]. *)

From Stdlib Require Import ZArith QArith Qabs Qround Lia.
From Stdlib Require Import Floats.SpecFloat.
From stdpp Require Import base option numbers list strings gmap.

Local Open Scope Z_scope.

(** ** Machine numbers *)

Definition INT_MAX : Z := 2147483647.
Definition INT_MIN : Z := -2147483648.

(** [x++] on an [int]: signed overflow is undefined. *)
Definition int_incr (x : Z) : option Z :=
  if x <? INT_MAX then Some (x + 1) else None.

(** binary32 ([float]) *)
Definition flt_prec : Z := 24.
Definition flt_emax : Z := 128.
(** binary64 ([double]) *)
Definition dbl_prec : Z := 53.
Definition dbl_emax : Z := 1024.

(** Conversion of an [int] to [float] and to [double] (round to nearest
    even; exact for a [double] and for a [float] below 2^24). *)
Definition float_of_int (n : Z) : spec_float :=
  binary_normalize flt_prec flt_emax n 0 false.
Definition double_of_int (n : Z) : spec_float :=
  binary_normalize dbl_prec dbl_emax n 0 false.

Definition float_sub (x y : spec_float) : spec_float := SFsub flt_prec flt_emax x y.
Definition double_mul (x y : spec_float) : spec_float := SFmul dbl_prec dbl_emax x y.
Definition double_div (x y : spec_float) : spec_float := SFdiv dbl_prec dbl_emax x y.

Global Instance spec_float_eq_dec : EqDecision spec_float.
Proof. solve_decision. Defined.

(** [FLT_EPSILON] = 2^-23, in canonical binary32 form. *)
Definition FLT_EPSILON : spec_float := S754_finite false 8388608 (-46).

(** The integer part of a finite float, rounded towards zero. *)
Definition float_trunc (x : spec_float) : option Z :=
  match x with
  | S754_zero _ => Some 0
  | S754_finite s m e =>
      let mag := Z.shiftl (Z.pos m) e in
      Some (if s then - mag else mag)
  | S754_infinity _ | S754_nan => None
  end.

(** [(int) x] for a [float] x: the value is truncated; the cast is undefined
    when the truncated value does not fit an [int]. *)
Definition float_to_int (x : spec_float) : option Z :=
  t ← float_trunc x;
  if (INT_MIN <=? t) && (t <=? INT_MAX) then Some t else None.

(** The value of a floating-point number as a rational. *)
Definition SF2Q (x : spec_float) : option Q :=
  match x with
  | S754_zero _ => Some 0%Q
  | S754_finite s m e =>
      let mag := match e with
                 | Z0 => inject_Z (Z.pos m)
                 | Z.pos p => inject_Z (Z.pos m * 2 ^ Z.pos p)
                 | Z.neg p => Qmake (Z.pos m) (2 ^ p)
                 end in
      Some (if s then Qopp mag else mag)
  | S754_infinity _ | S754_nan => None
  end.

(** ** Counted loops

    [for (int i = lo; i < hi; i++) body], where the body may hit undefined
    behaviour. The trip count is known when the loop starts. *)

Fixpoint for_iter {St : Type} (trips : nat) (i : Z)
    (body : Z → St → option St) (s : St) : option St :=
  match trips with
  | O => Some s
  | S k => s' ← body i s; for_iter k (i + 1) body s'
  end.

Definition for_loop {St : Type} (lo hi : Z)
    (body : Z → St → option St) (s : St) : option St :=
  for_iter (Z.to_nat (hi - lo)) lo body s.

(** ** Matrices of floats *)

Abbreviation Mat := (list (list spec_float)).

(** [Mat(rows, cols, CV_32FC1)]: the cells are not initialised; [fill] is
    the value the allocated memory happens to hold. *)
Definition Mat_create (rows cols : Z) (fill : spec_float) : Mat :=
  replicate (Z.to_nat rows) (replicate (Z.to_nat cols) fill).

(** [m.at<float>(i, j)], read. *)
Definition Mat_at (m : Mat) (i j : Z) : option spec_float :=
  if (0 <=? i) && (0 <=? j)
  then row ← m !! Z.to_nat i; row !! Z.to_nat j
  else None.

(** [m.at<float>(i, j) = v]. *)
Definition Mat_set (m : Mat) (i j : Z) (v : spec_float) : option Mat :=
  if (0 <=? i) && (0 <=? j)
  then row ← m !! Z.to_nat i;
       if (Z.to_nat j <? length row)%nat
       then Some (<[Z.to_nat i := <[Z.to_nat j := v]> row]> m)
       else None
  else None.

(** [m.row(i)] *)
Definition Mat_row (m : Mat) (i : Z) : option (list spec_float) :=
  if 0 <=? i then m !! Z.to_nat i else None.

(** ** Files *)

(** The text of a file is taken as the C library reads it: [fscanf] skips
    white space, takes the longest run of characters that is a decimal
    number or the beginning of one, converts it to the nearest [float] when
    it is a number, and then steps over a comma that follows. An item is what
    one [%f] conversion finds at the read position: a number (given by its
    [float] value); the beginning of a number that is not one (a lone sign,
    a lone point), which the conversion has read and does not put back; or a
    character that cannot begin a number, which stays in the stream. At the
    end of the file there is no item left. *)
Inductive item :=
  | Num (v : spec_float)
  | Partial
  | Junk.

(** [fscanf(f, "%f,", &tmp)]: on a number, [tmp] receives it and the stream
    moves past it (and past the comma that follows); on the beginning of a
    number that is not one, the conversion fails after it has consumed these
    characters, and [tmp] keeps its value; on a character that cannot begin
    a number, and at the end of the file, nothing is consumed and [tmp] keeps
    its value. The source ignores the returned count. *)
Definition fscanf_f (f : list item) (tmp : spec_float) : list item * spec_float :=
  match f with
  | Num v :: rest => (rest, v)
  | Partial :: rest => (rest, tmp)
  | _ => (f, tmp)
  end.

(** ** The classifier interface

    [CvSVMParams] as the source fills it in. *)

Inductive svm_type := C_SVC | NU_SVC | ONE_CLASS | EPS_SVR | NU_SVR.
Inductive kernel_type := LINEAR | POLY | RBF | SIGMOID.

Record CvTermCriteria := {
  crit_type : Z;
  max_iter : Z;
  epsilon : spec_float
}.

Record CvSVMParams := {
  p_svm_type : svm_type;
  p_kernel_type : kernel_type;
  p_degree : spec_float;
  p_gamma : spec_float;
  p_coef0 : spec_float;
  p_C : spec_float;
  p_nu : spec_float;
  p_p : spec_float;
  p_class_weights : option Mat;
  p_term_crit : CvTermCriteria
}.

Definition CV_TERMCRIT_ITER : Z := 1.
Definition CV_TERMCRIT_EPS : Z := 2.

(** The operations of [CvSVM] that [main] calls. [predict] is a [const]
    member function: it reads the trained model and returns a label. *)
Class SvmBackend := {
  CvSVM : Type;
  train : Mat → Mat → CvSVMParams → CvSVM;
  train_auto : Mat → Mat → CvSVMParams → Z → CvSVM;
  get_params : CvSVM → CvSVMParams;
  get_support_vector_count : CvSVM → Z;
  predict : CvSVM → list spec_float → spec_float
}.

(** ** Observable events *)

Inductive event :=
  | Fopen (path : string) (ok : bool)
  | Fclose (path : string)
  | CannotRead (path : string)
  | TrainAuto (data classes : Mat) (params : CvSVMParams) (k_fold : Z)
  | Train (data classes : Mat) (params : CvSVMParams).

Fixpoint close_handle (p : string) (open : list string) : list string :=
  match open with
  | [] => []
  | q :: qs => if decide (p = q) then qs else q :: close_handle p qs
  end.

Definition track_handle (open : list string) (e : event) : list string :=
  match e with
  | Fopen p true => p :: open
  | Fclose p => close_handle p open
  | _ => open
  end.

(** Handles opened and not closed again along a trace. *)
Definition open_handles (tr : list event) : list string :=
  foldl track_handle [] tr.

(** ** Constants of the source *)

Definition USE_OPENCV_GRID_SEARCH_AUTOTRAIN : Z := 1.
Definition NUMBER_OF_TRAINING_SAMPLES : Z := 6238.
Definition ATTRIBUTES_PER_SAMPLE : Z := 617.
Definition NUMBER_OF_TESTING_SAMPLES : Z := 1559.
Definition NUMBER_OF_CLASSES : Z := 26.

(** ** read_data_from_csv *)

(** The variables the two loops of [read_data_from_csv] work on: the stream
    [f], the scratch variable [tmp] and the two matrices. A [Mat] passed by
    value shares its buffer with the caller's, so the matrices are threaded
    through and handed back. *)
Record reader := {
  rd_f : list item;
  rd_tmp : spec_float;
  rd_data : Mat;
  rd_classes : Mat
}.

(** Body of the inner loop. *)
Definition read_attribute (line attribute : Z) (st : reader) : option reader :=
  if attribute <? ATTRIBUTES_PER_SAMPLE then
    let '(f', tmp') := fscanf_f (rd_f st) (rd_tmp st) in
    data' ← Mat_set (rd_data st) line attribute tmp';
    Some {| rd_f := f'; rd_tmp := tmp'; rd_data := data'; rd_classes := rd_classes st |}
  else if attribute =? ATTRIBUTES_PER_SAMPLE then
    let '(f', tmp') := fscanf_f (rd_f st) (rd_tmp st) in
    classes' ← Mat_set (rd_classes st) line 0 tmp';
    Some {| rd_f := f'; rd_tmp := tmp'; rd_data := rd_data st; rd_classes := classes' |}
  else Some st.

(** Body of the outer loop. *)
Definition read_line (line : Z) (st : reader) : option reader :=
  for_loop 0 (ATTRIBUTES_PER_SAMPLE + 1) (read_attribute line) st.

(** What a call of [read_data_from_csv] leaves behind: the events, and the
    returned [int] with the two matrices as the caller sees them afterwards
    ([None]: the call wrote outside a matrix). *)
Definition read_data_from_csv (fs : gmap string (list item)) (filename : string)
    (data classes : Mat) (n_samples : Z) (tmp0 : spec_float)
    : list event * option (Z * Mat * Mat) :=
  match fs !! filename with
  | None => ([Fopen filename false; CannotRead filename], Some (0, data, classes))
  | Some content =>
      match for_loop 0 n_samples read_line
              {| rd_f := content; rd_tmp := tmp0; rd_data := data; rd_classes := classes |} with
      | Some st => ([Fopen filename true; Fclose filename], Some (1, rd_data st, rd_classes st))
      | None => ([Fopen filename true], None)
      end
  end.

(** ** The evaluation loop of main *)

Record accumulator := {
  correct_class : Z;
  wrong_class : Z;
  false_positives : list Z
}.

(** [a[i] = v] on a C array. *)
Definition array_set {A : Type} (a : list A) (i : Z) (v : A) : option (list A) :=
  if (0 <=? i) && (Z.to_nat i <? length a)%nat
  then Some (<[Z.to_nat i := v]> a) else None.

(** [a[i]++] on a C array of [int]. *)
Definition array_incr (a : list Z) (i : Z) : option (list Z) :=
  if 0 <=? i
  then x ← a !! Z.to_nat i; x' ← int_incr x; Some (<[Z.to_nat i := x']> a)
  else None.

(** [fabs(result - label) >= FLT_EPSILON] *)
Definition mismatch (result label : spec_float) : bool :=
  SFleb FLT_EPSILON (SFabs (float_sub result label)).

(** [(int) (label - 1)] *)
Definition false_positive_index (label : spec_float) : option Z :=
  float_to_int (float_sub label (float_of_int 1)).

(** The [if] of the loop body, given the prediction and the true label. *)
Definition tally (result label : spec_float) (acc : accumulator) : option accumulator :=
  if mismatch result label then
    w ← int_incr (wrong_class acc);
    i ← false_positive_index label;
    fp ← array_incr (false_positives acc) i;
    Some {| correct_class := correct_class acc; wrong_class := w; false_positives := fp |}
  else
    c ← int_incr (correct_class acc);
    Some {| correct_class := c; wrong_class := wrong_class acc;
            false_positives := false_positives acc |}.

(** Body of the loop over the test samples. *)
Definition test_one `{SvmBackend} (svm : CvSVM) (testing_data testing_classifications : Mat)
    (tsample : Z) (acc : accumulator) : option accumulator :=
  test_sample ← Mat_row testing_data tsample;
  let result := predict svm test_sample in
  label ← Mat_at testing_classifications tsample 0;
  tally result label acc.

(** The loop that zeroes the counters and fills the class letters. *)
Definition init_counters (i : Z) (st : list Z * list Z) : option (list Z * list Z) :=
  fp ← array_set st.1 i 0;
  cl ← array_set st.2 i (65 + i);
  Some (fp, cl).

(** [(double) count*100/NUMBER_OF_TESTING_SAMPLES] *)
Definition percentage (count : Z) : spec_float :=
  double_div (double_mul (double_of_int count) (double_of_int 100))
             (double_of_int NUMBER_OF_TESTING_SAMPLES).

(** The same quotient over the rationals. *)
Definition percentage_Q (count : Z) : Q :=
  (inject_Z count * 100 / inject_Z NUMBER_OF_TESTING_SAMPLES)%Q.

(** ** main *)

(** Values that the source reads or overwrites without having initialised
    them: the cells of a fresh [Mat], [tmp] at the start of each call of
    [read_data_from_csv], and the two local arrays before they are filled. *)
Record indeterminate := {
  ind_cell : spec_float;
  ind_tmp_training : spec_float;
  ind_tmp_testing : spec_float;
  ind_int : Z;
  ind_char : Z
}.

(** One line of the per-class part of the printed summary. *)
Record class_line := {
  cl_label : Z;
  cl_false_positives : Z;
  cl_percentage : spec_float
}.

(** The quantities that [main] prints after training and testing. *)
Record report := {
  rep_params : option CvSVMParams;
  rep_support_vectors : Z;
  rep_correct : Z;
  rep_correct_pct : spec_float;
  rep_wrong : Z;
  rep_wrong_pct : spec_float;
  rep_classes : list class_line
}.

(** A run of the program: what it did, the value [main] returned ([None]
    when the run met undefined behaviour) and what it reported. *)
Record run := {
  run_events : list event;
  run_exit : option Z;
  run_report : option report
}.

Definition initial_params : CvSVMParams :=
  {| p_svm_type := C_SVC;
     p_kernel_type := LINEAR;
     p_degree := double_of_int 0;
     p_gamma := double_of_int 0;
     p_coef0 := double_of_int 0;
     p_C := double_of_int 10;
     p_nu := double_of_int 0;
     p_p := double_of_int 0;
     p_class_weights := None;
     p_term_crit :=
       {| crit_type := CV_TERMCRIT_ITER + CV_TERMCRIT_EPS;
          max_iter := 1000;
          epsilon := double_div (double_of_int 1) (double_of_int 1000000) |} |}.

(** Training, lines 117 to 171: the events, the trained classifier and the
    parameters printed as optimal (grid search only). *)
Definition train_stage `{SvmBackend} (training_data training_classifications : Mat)
    : list event * CvSVM * option CvSVMParams :=
  let params := initial_params in
  if USE_OPENCV_GRID_SEARCH_AUTOTRAIN =? 0 then
    let svm := train training_data training_classifications params in
    ([Train training_data training_classifications params], svm, None)
  else
    let svm := train_auto training_data training_classifications params 10 in
    let params := get_params svm in
    ([TrainAuto training_data training_classifications initial_params 10], svm, Some params).

(** Testing, lines 175 to 225: the counters after the loop over the test
    samples, and the class letters. *)
Definition evaluate `{SvmBackend} (svm : CvSVM) (testing_data testing_classifications : Mat)
    (ind : indeterminate) : option (accumulator * list Z) :=
  '(fp, class_labels) ←
    for_loop 0 NUMBER_OF_CLASSES init_counters
      (replicate (Z.to_nat NUMBER_OF_CLASSES) (ind_int ind),
       replicate (Z.to_nat NUMBER_OF_CLASSES) (ind_char ind));
  acc ← for_loop 0 NUMBER_OF_TESTING_SAMPLES
          (test_one svm testing_data testing_classifications)
          {| correct_class := 0; wrong_class := 0; false_positives := fp |};
  Some (acc, class_labels).

(** Body of the loop that prints one line per class. *)
Definition print_class (class_labels false_positives : list Z) (i : Z)
    (out : list class_line) : option (list class_line) :=
  c ← class_labels !! Z.to_nat i;
  n ← false_positives !! Z.to_nat i;
  Some (out ++ [ {| cl_label := c; cl_false_positives := n; cl_percentage := percentage n |} ]).

(** Reporting, lines 227 to 239. *)
Definition summarize (params : option CvSVMParams) (support_vectors : Z)
    (acc : accumulator) (class_labels : list Z) : option report :=
  lines ← for_loop 0 NUMBER_OF_CLASSES
             (print_class class_labels (false_positives acc)) [];
  Some {| rep_params := params;
          rep_support_vectors := support_vectors;
          rep_correct := correct_class acc;
          rep_correct_pct := percentage (correct_class acc);
          rep_wrong := wrong_class acc;
          rep_wrong_pct := percentage (wrong_class acc);
          rep_classes := lines |}.

Definition undefined_run (events : list event) : run :=
  {| run_events := events; run_exit := None; run_report := None |}.

Definition main `{SvmBackend} (fs : gmap string (list item)) (ind : indeterminate)
    (argv1 argv2 : string) : run :=
  let training_data :=
    Mat_create NUMBER_OF_TRAINING_SAMPLES ATTRIBUTES_PER_SAMPLE (ind_cell ind) in
  let training_classifications :=
    Mat_create NUMBER_OF_TRAINING_SAMPLES 1 (ind_cell ind) in
  let testing_data :=
    Mat_create NUMBER_OF_TESTING_SAMPLES ATTRIBUTES_PER_SAMPLE (ind_cell ind) in
  let testing_classifications :=
    Mat_create NUMBER_OF_TESTING_SAMPLES 1 (ind_cell ind) in
  let '(ev1, r1) :=
    read_data_from_csv fs argv1 training_data training_classifications
      NUMBER_OF_TRAINING_SAMPLES (ind_tmp_training ind) in
  match r1 with
  | None => undefined_run ev1
  | Some (ok1, training_data, training_classifications) =>
      if ok1 =? 0 then
        {| run_events := ev1; run_exit := Some (-1); run_report := None |}
      else
        let '(ev2, r2) :=
          read_data_from_csv fs argv2 testing_data testing_classifications
            NUMBER_OF_TESTING_SAMPLES (ind_tmp_testing ind) in
        match r2 with
        | None => undefined_run (ev1 ++ ev2)
        | Some (ok2, testing_data, testing_classifications) =>
            if ok2 =? 0 then
              {| run_events := ev1 ++ ev2; run_exit := Some (-1); run_report := None |}
            else
              let '(ev3, svm, params) :=
                train_stage training_data training_classifications in
              let support_vectors := get_support_vector_count svm in
              match evaluate svm testing_data testing_classifications ind
                      ≫= λ '(acc, class_labels),
                          summarize params support_vectors acc class_labels with
              | None => undefined_run (ev1 ++ ev2 ++ ev3)
              | Some rep =>
                  {| run_events := ev1 ++ ev2 ++ ev3;
                     run_exit := Some 0;
                     run_report := Some rep |}
              end
        end
  end.

(** ** The trainer behind the interface *)

(** Modelled from the spec: the TrainedModel of section 3. The class
    [CvSVM] belongs to OpenCV, which the source links against; its code is
    not part of the repository. A trained model keeps the configuration it
    was fitted with, its support vectors (training samples) and its decision
    function. *)
Record TrainedModel := {
  tm_config : CvSVMParams;
  tm_support_vectors : list (list spec_float);
  tm_decide : list spec_float → spec_float
}.

(** Modelled from the spec: a grid point, the configuration with another
    value of C and everything else held fixed (4.2). *)
Definition with_C (config : CvSVMParams) (c : spec_float) : CvSVMParams :=
  {| p_svm_type := p_svm_type config;
     p_kernel_type := p_kernel_type config;
     p_degree := p_degree config;
     p_gamma := p_gamma config;
     p_coef0 := p_coef0 config;
     p_C := c;
     p_nu := p_nu config;
     p_p := p_p config;
     p_class_weights := p_class_weights config;
     p_term_crit := p_term_crit config |}.

(** Modelled from the spec: the samples of a fold, or of the other folds
    (4.2): the elements of [l] whose position (counted from [i]) satisfies
    [keep]. *)
Fixpoint pick {A : Type} (keep : nat → bool) (i : nat) (l : list A) : list A :=
  match l with
  | [] => []
  | x :: l' => if keep i then x :: pick keep (S i) l' else pick keep (S i) l'
  end.

Section ClassifierTrainer.
(** Modelled from the spec: [train(features, labels, config) -> model] of
    section 6, the margin optimiser, which yields the support vectors and the
    decision function. *)
Variable optimize :
  Mat → Mat → CvSVMParams → list (list spec_float) * (list spec_float → spec_float).
(** Modelled from the spec: the predefined grid of values of C (4.2). *)
Variable C_grid : list spec_float.

(** Modelled from the spec: fixed mode of ClassifierTrainer.train (4.2),
    one call of the optimiser with the supplied configuration. *)
Definition fit (features labels : Mat) (config : CvSVMParams) : TrainedModel :=
  let '(sv, decide) := optimize features labels config in
  {| tm_config := config; tm_support_vectors := sv; tm_decide := decide |}.

(** Modelled from the spec: the partition into [k] folds (4.2). The spec
    leaves the assignment open; here sample [i] belongs to fold [i mod k]. *)
Definition in_fold (k j i : nat) : bool := (i mod k =? j)%nat.

(** Modelled from the spec: the misclassification rate on fold [j] of a
    model trained on the other folds (4.2). *)
Definition fold_error (k : nat) (features labels : Mat) (config : CvSVMParams)
    (j : nat) : Q :=
  let held_out i := in_fold k j i in
  let kept i := negb (in_fold k j i) in
  let model := fit (pick kept 0 features) (pick kept 0 labels) config in
  let tests := zip (pick held_out 0 features) (pick held_out 0 labels) in
  let wrong :=
    filter (λ t, Is_true (mismatch (tm_decide model t.1) (default S754_nan (head t.2))))
           tests in
  (inject_Z (Z.of_nat (length wrong)) / inject_Z (Z.of_nat (length tests)))%Q.

(** Modelled from the spec: the error of a grid point, averaged over the
    [k] folds (4.2). *)
Definition cv_error (k : nat) (features labels : Mat) (config : CvSVMParams) : Q :=
  (foldr Qplus 0%Q (fold_error k features labels config <$> seq 0 k)
   / inject_Z (Z.of_nat k))%Q.

(** Modelled from the spec: the choice of the grid point with the lowest
    error (4.2); the first one wins a tie. *)
Definition better (score : spec_float → Q) (best c : spec_float) : spec_float :=
  if Qlt_le_dec (score c) (score best) then c else best.

(** Modelled from the spec: grid-search mode of ClassifierTrainer.train
    (4.2). Only C is searched; the model is fitted once more on the whole
    training set with the winning value. *)
Definition grid_search (features labels : Mat) (config : CvSVMParams) (k : nat)
    : TrainedModel :=
  match C_grid with
  | [] => fit features labels config
  | c0 :: cs =>
      let score c := cv_error k features labels (with_C config c) in
      fit features labels (with_C config (foldl (better score) c0 cs))
  end.

(** Modelled from the spec: the four operations of the optimisation
    capability (section 6) as the interface that [main] calls. *)
Definition spec_backend : SvmBackend :=
  {| CvSVM := TrainedModel;
     train := fit;
     train_auto := λ features labels config k_fold,
                     grid_search features labels config (Z.to_nat k_fold);
     get_params := tm_config;
     get_support_vector_count := λ m, Z.of_nat (length (tm_support_vectors m));
     predict := tm_decide |}.
End ClassifierTrainer.

(** ** Reference functions used in the statements *)

Definition sum_Z (l : list Z) : Z := foldr Z.add 0 l.

(** [k] successive scans: the values [tmp] takes, and the stream and [tmp]
    afterwards. *)
Fixpoint scan_values (k : nat) (f : list item) (tmp : spec_float)
    : list spec_float * (list item * spec_float) :=
  match k with
  | O => ([], (f, tmp))
  | S k' =>
      let '(f', tmp') := fscanf_f f tmp in
      let '(vs, st) := scan_values k' f' tmp' in
      (tmp' :: vs, st)
  end.

(** One line: the attributes, then the label. *)
Definition scan_line (f : list item) (tmp : spec_float)
    : (list spec_float * spec_float) * (list item * spec_float) :=
  let '(vs, (f1, t1)) := scan_values (Z.to_nat ATTRIBUTES_PER_SAMPLE) f tmp in
  let '(f2, t2) := fscanf_f f1 t1 in
  ((vs, t2), (f2, t2)).

Fixpoint scan_lines (n : nat) (f : list item) (tmp : spec_float)
    : list (list spec_float * spec_float) * (list item * spec_float) :=
  match n with
  | O => ([], (f, tmp))
  | S n' =>
      let '(row, (f', tmp')) := scan_line f tmp in
      let '(rows, st) := scan_lines n' f' tmp' in
      (row :: rows, st)
  end.

(** The stream of a file whose lines hold the given samples. *)
Definition encode_row (r : list spec_float * spec_float) : list item :=
  (Num <$> r.1) ++ [Num r.2].

Definition encode (rows : list (list spec_float * spec_float)) : list item :=
  concat (encode_row <$> rows).

(** A sample of the dataset format: [ATTRIBUTES_PER_SAMPLE] features and an
    integer label between 1 and [NUMBER_OF_CLASSES]. *)
Definition sample_ok (r : list spec_float * spec_float) : Prop :=
  length r.1 = Z.to_nat ATTRIBUTES_PER_SAMPLE ∧
  ∃ n, 1 ≤ n ≤ NUMBER_OF_CLASSES ∧ r.2 = float_of_int n.

(** A matrix of [rows] rows and [cols] columns. *)
Definition Mat_shape (m : Mat) (rows cols : nat) : Prop :=
  length m = rows ∧ Forall (λ r, length r = cols) m.

(** The column matrix of the given labels. *)
Definition column (labels : list spec_float) : Mat := (λ l, [l]) <$> labels.

(** The cells of the two matrices in the order in which they are written. *)
Definition cells (rows : list (list spec_float * spec_float)) : list spec_float :=
  concat ((λ r, r.1 ++ [r.2]) <$> rows).

(** The samples that [n] lines of scanning take from a stream. *)
Definition loaded (content : list item) (n : Z) (tmp : spec_float)
    : list (list spec_float * spec_float) :=
  (scan_lines (Z.to_nat n) content tmp).1.

Global Arguments loaded : simpl never.

(** The stream is at the end of the file or at a character that cannot
    begin a number: every further scan fails and leaves the stream where it
    is. *)
Definition dry (f : list item) : Prop :=
  match f with
  | [] | Junk :: _ => True
  | _ => False
  end.

(** The values that successive scans leave in [tmp] for as long as the
    stream moves: each number in turn, and once more the value [tmp] holds
    for each beginning of a number that a failed conversion consumes. *)
Fixpoint scanned (f : list item) (tmp : spec_float) : list spec_float :=
  match f with
  | Num v :: f' => v :: scanned f' v
  | Partial :: f' => tmp :: scanned f' tmp
  | _ => []
  end.

(** The invariant of the loop over the test samples, after [k] samples. *)
Definition counts_inv (k : Z) (acc : accumulator) : Prop :=
  correct_class acc + wrong_class acc = k ∧
  0 ≤ correct_class acc ∧ 0 ≤ wrong_class acc ∧
  sum_Z (false_positives acc) = wrong_class acc ∧
  length (false_positives acc) = Z.to_nat NUMBER_OF_CLASSES ∧
  Forall (λ v, 0 ≤ v) (false_positives acc).

(** The mantissa of the binary32 number of value [p]: [p] shifted to 24
    binary digits. *)
Definition mantissa24 (p : positive) : positive :=
  match (24 - Z.pos (digits2_pos p))%Z with
  | Z.pos k => Pos.iter xO p k
  | _ => p
  end.

(** The counts a run reports. *)
Definition counts (r : run) : option (Z * Z * list Z) :=
  rep ← run_report r;
  Some (rep_correct rep, rep_wrong rep, cl_false_positives <$> rep_classes rep).

Definition is_training (e : event) : bool :=
  match e with
  | TrainAuto _ _ _ _ | Train _ _ _ => true
  | _ => false
  end.

(** A classifier that answers the same label for every sample; it serves in
    the examples. *)
Definition constant_backend (answer : spec_float) : SvmBackend :=
  {| CvSVM := CvSVMParams;
     train := λ _ _ params, params;
     train_auto := λ _ _ params _, params;
     get_params := λ svm, svm;
     get_support_vector_count := λ _, 0;
     predict := λ _ _, answer |}.

(** The checks made on the two percentages of a test set with [c] correct
    and NUMBER_OF_TESTING_SAMPLES - [c] wrong samples: both are numbers
    within 2^-47 of the exact quotients, their exact sum is within 2^-47 of
    100, and their sum in double arithmetic is 100. *)
Definition percentage_check (c : Z) : bool :=
  let w := NUMBER_OF_TESTING_SAMPLES - c in
  match SF2Q (percentage c), SF2Q (percentage w) with
  | Some pc, Some pw =>
      Qle_bool (Qabs (pc - percentage_Q c)) (1 # 2 ^ 47)
      && Qle_bool (Qabs (pw - percentage_Q w)) (1 # 2 ^ 47)
      && Qle_bool (Qabs (pc + pw - 100)) (1 # 2 ^ 47)
      && bool_decide (SFadd dbl_prec dbl_emax (percentage c) (percentage w)
                      = double_of_int 100)
  | _, _ => false
  end.

(** The file at [path] cannot be opened, or it begins with a number. *)
Definition opens_on_number (fs : gmap string (list item)) (path : string) : Prop :=
  match fs !! path with
  | Some (Num _ :: _) => True
  | Some _ => False
  | None => True
  end.

(** ** What the evaluation loop computes *)

(** The outcome of [fabs(result - label) >= FLT_EPSILON] for a test sample:
    the prediction on its features misses its label. *)
Definition missed `{SvmBackend} (svm : CvSVM) (s : list spec_float * spec_float) : bool :=
  mismatch (predict svm s.1) s.2.

(** The sample keeps the loop inside the array of counters: it is a match,
    or [(int) (label - 1)] is defined and between 0 and
    NUMBER_OF_CLASSES - 1. *)
Definition countable `{SvmBackend} (svm : CvSVM) (s : list spec_float * spec_float) : bool :=
  negb (missed svm s)
  || match false_positive_index s.2 with
     | Some i => (0 <=? i) && (i <? NUMBER_OF_CLASSES)
     | None => false
     end.

(** How many of the samples are missed and counted at index [i]. *)
Definition misses_at `{SvmBackend} (svm : CvSVM)
    (samples : list (list spec_float * spec_float)) (i : Z) : Z :=
  Z.of_nat (length (filter (λ s, missed svm s = true ∧ false_positive_index s.2 = Some i)
                           samples)).

(** The counts of matches, of misses, and of misses per counter. *)
Definition tallies `{SvmBackend} (svm : CvSVM)
    (samples : list (list spec_float * spec_float)) : accumulator :=
  {| correct_class := Z.of_nat (length (filter (λ s, missed svm s = false) samples));
     wrong_class := Z.of_nat (length (filter (λ s, missed svm s = true) samples));
     false_positives := misses_at svm samples <$> seqZ 0 NUMBER_OF_CLASSES |}.

(** The summary of a run in which [svm] was trained and the test samples
    [testing] were read: the counts of [tallies] with their percentages, one
    line per class letter. *)
Definition report_of `{SvmBackend} (svm : CvSVM)
    (testing : list (list spec_float * spec_float)) : report :=
  {| rep_params := Some (get_params svm);
     rep_support_vectors := get_support_vector_count svm;
     rep_correct := correct_class (tallies svm testing);
     rep_correct_pct := percentage (correct_class (tallies svm testing));
     rep_wrong := wrong_class (tallies svm testing);
     rep_wrong_pct := percentage (wrong_class (tallies svm testing));
     rep_classes :=
       (λ i, {| cl_label := 65 + i;
                cl_false_positives := misses_at svm testing i;
                cl_percentage := percentage (misses_at svm testing i) |})
       <$> seqZ 0 NUMBER_OF_CLASSES |}.

(** One step of the comparison of the percentages of [c] and of [c + 1]:
    both are numbers, the second is the larger one, and they lie between 0
    and 100. *)
Definition percentage_step_check (c : Z) : bool :=
  match SF2Q (percentage c), SF2Q (percentage (c + 1)) with
  | Some p, Some q => negb (Qle_bool q p) && Qle_bool 0 p && Qle_bool q 100
  | _, _ => false
  end.

(** ** Example inputs *)

(** A sample with all features zero. *)
Definition example_row (label : Z) : list spec_float * spec_float :=
  (replicate (Z.to_nat ATTRIBUTES_PER_SAMPLE) (S754_zero false), float_of_int label).

(** What the uninitialised memory holds in an example run. *)
Definition example_ind (tmp : spec_float) : indeterminate :=
  {| ind_cell := S754_nan; ind_tmp_training := tmp; ind_tmp_testing := tmp;
     ind_int := 7; ind_char := 0 |}.

(** A file of two lines. *)
Definition two_lines : gmap string (list item) :=
  {[ "two.csv"%string := encode [example_row 1; example_row 26] ]}.

(** A training file and a testing file that end after their first line. *)
Definition truncated_files : gmap string (list item) :=
  {[ "train.csv"%string := encode [example_row 3];
     "test.csv"%string := encode [example_row 3] ]}.

(** A training file and a testing file without any content. *)
Definition empty_files : gmap string (list item) :=
  {[ "train.csv"%string := []; "test.csv"%string := [] ]}.

(** Only the testing file exists. *)
Definition testing_file_only : gmap string (list item) :=
  {[ "test.csv"%string := encode [example_row 3] ]}.

(** * Properties *)

(** ** The definitions at work on small inputs *)

Example float_of_int_26 : float_of_int 26 = S754_finite false 13631488 (-19).
Proof. reflexivity. Qed.

Example fscanf_f_number :
  fscanf_f [Num (float_of_int 4); Junk] S754_nan = ([Junk], float_of_int 4).
Proof. reflexivity. Qed.

Example fscanf_f_stuck :
  fscanf_f [Junk; Num (float_of_int 4)] (float_of_int 9)
  = ([Junk; Num (float_of_int 4)], float_of_int 9)
  ∧ fscanf_f [] (float_of_int 9) = ([], float_of_int 9).
Proof. split; reflexivity. Qed.

(** A lone sign is read and lost, and the scan goes on behind it: the text
    [1,+-5,6,] fills five cells with 1, 1, -5, 6, 6. *)
Example scan_values_sign :
  (scan_values 5 [Num (float_of_int 1); Partial; Num (float_of_int (-5));
                  Num (float_of_int 6)] S754_nan).1
  = float_of_int <$> [1; 1; -5; 6; 6].
Proof. reflexivity. Qed.

Example read_two_lines :
  read_data_from_csv two_lines "two.csv"
    (Mat_create 2 ATTRIBUTES_PER_SAMPLE S754_nan) (Mat_create 2 1 S754_nan) 2 S754_nan
  = ([Fopen "two.csv" true; Fclose "two.csv"],
     Some (1, replicate 2 (replicate 617 (S754_zero false)),
              [[float_of_int 1]; [float_of_int 26]])).
Proof. vm_compute. reflexivity. Qed.

Example read_missing_file :
  read_data_from_csv two_lines "none.csv" [] [] 2 S754_nan
  = ([Fopen "none.csv" false; CannotRead "none.csv"], Some (0, [], [])).
Proof. vm_compute. reflexivity. Qed.

Example read_outside_the_matrix :
  (read_data_from_csv two_lines "two.csv"
     (Mat_create 1 ATTRIBUTES_PER_SAMPLE S754_nan) (Mat_create 1 1 S754_nan) 2 S754_nan).2
  = None.
Proof. vm_compute. reflexivity. Qed.

Example false_positive_index_26 :
  false_positive_index (float_of_int 26) = Some 25.
Proof. reflexivity. Qed.

(** A label that is not an integer is truncated: 0.5 is counted under the
    first class. *)
Example false_positive_index_half :
  false_positive_index (S754_finite false 8388608 (-24)) = Some 0.
Proof. reflexivity. Qed.

Example tally_wrong :
  tally (float_of_int 2) (float_of_int 3)
    {| correct_class := 0; wrong_class := 0; false_positives := [0; 0; 0] |}
  = Some {| correct_class := 0; wrong_class := 1; false_positives := [0; 0; 1] |}.
Proof. reflexivity. Qed.

Example tally_outside_the_array :
  tally (float_of_int 2) (float_of_int 4)
    {| correct_class := 0; wrong_class := 0; false_positives := [0; 0; 0] |}
  = None.
Proof. reflexivity. Qed.

Example percentage_of_all : percentage 1559 = double_of_int 100.
Proof. vm_compute. reflexivity. Qed.


(** ** Counted loops *)

Lemma for_iter_app {St : Type} (body : Z → St → option St) (n m : nat) :
  ∀ i s, for_iter (n + m) i body s
         = for_iter n i body s ≫= for_iter m (i + Z.of_nat n) body.
Proof.
  induction n as [|n IH]; intros i s; simpl.
  - by rewrite Z.add_0_r.
  - destruct (body i s) as [s'|]; simpl; [|done].
    rewrite IH. by replace (i + 1 + Z.of_nat n) with (i + Z.pos (Pos.of_succ_nat n)) by lia.
Qed.

Lemma for_loop_empty {St : Type} (body : Z → St → option St) lo hi s :
  hi ≤ lo → for_loop lo hi body s = Some s.
Proof. intros. unfold for_loop. by replace (Z.to_nat (hi - lo)) with O by lia. Qed.

Lemma for_loop_snoc {St : Type} (body : Z → St → option St) lo hi s :
  lo ≤ hi → for_loop lo (hi + 1) body s = for_loop lo hi body s ≫= body hi.
Proof.
  intros. unfold for_loop.
  replace (Z.to_nat (hi + 1 - lo)) with (Z.to_nat (hi - lo) + 1)%nat by lia.
  rewrite for_iter_app. replace (lo + Z.of_nat (Z.to_nat (hi - lo))) with hi by lia.
  destruct (for_iter _ lo body s) as [s'|]; simpl; [|done].
  by destruct (body hi s').
Qed.

(** The loop rule: an invariant kept by every trip holds at the exit, and
    the loop does reach its exit. *)
Lemma for_loop_inv {St : Type} (Inv : Z → St → Prop) (body : Z → St → option St) lo hi s :
  lo ≤ hi → Inv lo s →
  (∀ j t, lo ≤ j < hi → Inv j t → ∃ t', body j t = Some t' ∧ Inv (j + 1) t') →
  ∃ s', for_loop lo hi body s = Some s' ∧ Inv hi s'.
Proof.
  intros Hle H0 Hstep. unfold for_loop.
  assert (Hgen : ∀ n i t, lo ≤ i → i + Z.of_nat n ≤ hi → Inv i t →
            ∃ s', for_iter n i body t = Some s' ∧ Inv (i + Z.of_nat n) s').
  { induction n as [|n IH]; intros i t Hi Hn Ht; simpl.
    - exists t. by rewrite Z.add_0_r.
    - destruct (Hstep i t) as (t' & -> & Ht'); [lia|done|]. simpl.
      destruct (IH (i + 1) t') as (s' & -> & Hs'); [lia|lia|done|].
      exists s'. split; [done|]. by replace (i + Z.of_nat (S n)) with (i + 1 + Z.of_nat n) by lia. }
  destruct (Hgen (Z.to_nat (hi - lo)) lo s) as (s' & ? & Hs'); [lia|lia|done|].
  exists s'. split; [done|]. by replace hi with (lo + Z.of_nat (Z.to_nat (hi - lo))) by lia.
Qed.

(** ** Matrices *)

Lemma Mat_set_Some (m : Mat) i j v row :
  0 ≤ i → 0 ≤ j → m !! Z.to_nat i = Some row → (Z.to_nat j < length row)%nat →
  Mat_set m i j v = Some (<[Z.to_nat i := <[Z.to_nat j := v]> row]> m).
Proof.
  intros Hi Hj Hrow Hlen. unfold Mat_set.
  destruct (Z.leb_spec 0 i); [|lia]. destruct (Z.leb_spec 0 j); [|lia]. simpl.
  rewrite Hrow. simpl. destruct (Nat.ltb_spec (Z.to_nat j) (length row)); [done|lia].
Qed.

Lemma Mat_create_shape rows cols fill :
  Mat_shape (Mat_create rows cols fill) (Z.to_nat rows) (Z.to_nat cols).
Proof.
  split; [apply length_replicate|].
  apply Forall_replicate, length_replicate.
Qed.

Lemma Mat_shape_lookup (m : Mat) rows cols i :
  Mat_shape m rows cols → (i < rows)%nat →
  ∃ row, m !! i = Some row ∧ length row = cols.
Proof.
  intros [Hlen Hall] Hi. destruct (lookup_lt_is_Some_2 m i) as [row Hrow]; [lia|].
  exists row. split; [done|]. by apply (Forall_lookup_1 _ _ _ _ Hall Hrow).
Qed.

(** ** The loops of read_data_from_csv against [scan_lines] *)

Lemma scan_values_length k : ∀ f t vs st,
  scan_values k f t = (vs, st) → length vs = k.
Proof.
  induction k as [|k IH]; simpl; intros f t vs st H.
  - by inversion H.
  - destruct (fscanf_f f t) as [f1 t1]. destruct (scan_values k f1 t1) as [vs1 st1] eqn:E.
    inversion H; subst. simpl. f_equal. eauto.
Qed.

Lemma read_attribute_feature line a st row f1 t1 :
  0 ≤ line → 0 ≤ a < ATTRIBUTES_PER_SAMPLE →
  rd_data st !! Z.to_nat line = Some row →
  (Z.to_nat a < length row)%nat →
  fscanf_f (rd_f st) (rd_tmp st) = (f1, t1) →
  read_attribute line a st =
    Some {| rd_f := f1; rd_tmp := t1;
            rd_data := <[Z.to_nat line := <[Z.to_nat a := t1]> row]> (rd_data st);
            rd_classes := rd_classes st |}.
Proof.
  intros Hline Ha Hrow Hlen Ef. unfold read_attribute.
  destruct (Z.ltb_spec a ATTRIBUTES_PER_SAMPLE); [|lia].
  rewrite Ef. by rewrite (Mat_set_Some _ _ _ _ row) by (done || lia).
Qed.

Lemma read_attribute_label line st crow f1 t1 :
  0 ≤ line →
  rd_classes st !! Z.to_nat line = Some crow →
  (0 < length crow)%nat →
  fscanf_f (rd_f st) (rd_tmp st) = (f1, t1) →
  read_attribute line ATTRIBUTES_PER_SAMPLE st =
    Some {| rd_f := f1; rd_tmp := t1; rd_data := rd_data st;
            rd_classes := <[Z.to_nat line := <[0%nat := t1]> crow]> (rd_classes st) |}.
Proof.
  intros Hline Hrow Hlen Ef. unfold read_attribute.
  rewrite Z.ltb_irrefl, Z.eqb_refl, Ef.
  by rewrite (Mat_set_Some _ _ _ _ crow) by (done || lia).
Qed.

Lemma read_attributes_scan line k : ∀ a st row vs f' t',
  0 ≤ line → 0 ≤ a → a + Z.of_nat k ≤ ATTRIBUTES_PER_SAMPLE →
  rd_data st !! Z.to_nat line = Some row →
  length row = Z.to_nat ATTRIBUTES_PER_SAMPLE →
  scan_values k (rd_f st) (rd_tmp st) = (vs, (f', t')) →
  for_iter k a (read_attribute line) st =
    Some {| rd_f := f'; rd_tmp := t';
            rd_data := <[Z.to_nat line :=
                           take (Z.to_nat a) row ++ vs ++ drop (Z.to_nat a + k) row]> (rd_data st);
            rd_classes := rd_classes st |}.
Proof.
  induction k as [|k IH]; intros a st row vs f' t' Hline Ha Hk Hrow Hlen Hscan; simpl in *.
  - inversion Hscan; subst. rewrite Nat.add_0_r, app_nil_l, take_drop, list_insert_id by done.
    by destruct st.
  - destruct (fscanf_f (rd_f st) (rd_tmp st)) as [f1 t1] eqn:Ef.
    destruct (scan_values k f1 t1) as [vs1 [f2 t2]] eqn:Es.
    inversion Hscan; subst.
    rewrite (read_attribute_feature line a st row f1 t1) by (done || lia). simpl.
    assert (Hrl : (Z.to_nat line < length (rd_data st))%nat) by by eapply lookup_lt_Some.
    rewrite (IH (a + 1) _ (<[Z.to_nat a := t1]> row) vs1 f' t'); simpl;
      [ | done | lia | lia | by apply list_lookup_insert_eq
        | by rewrite length_insert | done ].
    rewrite list_insert_insert_eq. do 3 f_equal.
    rewrite (insert_take_drop row (Z.to_nat a) t1) by lia.
    replace (Z.to_nat (a + 1)) with (S (Z.to_nat a)) by lia.
    assert (Hta : length (take (Z.to_nat a) row) = Z.to_nat a) by (rewrite length_take; lia).
    rewrite (take_app_ge _ _ (S (Z.to_nat a))) by lia.
    rewrite Hta. replace (S (Z.to_nat a) - Z.to_nat a)%nat with 1%nat by lia. simpl.
    rewrite take_0. rewrite <- app_assoc. simpl. do 3 f_equal.
    rewrite (drop_app_ge _ _ (S (Z.to_nat a) + k)) by lia.
    rewrite Hta. replace (S (Z.to_nat a) + k - Z.to_nat a)%nat with (S k) by lia. simpl.
    rewrite drop_drop. f_equal. lia.
Qed.

Lemma insert_segment {A : Type} (l : list A) (i n : nat) (x : A) (xs : list A) :
  (i < length l)%nat →
  take (S i) (<[i := x]> l) ++ xs ++ drop (S i + n) (<[i := x]> l)
  = take i l ++ (x :: xs) ++ drop (i + S n) l.
Proof.
  intros Hi. rewrite (insert_take_drop l i x) by done.
  assert (Hti : length (take i l) = i) by (rewrite length_take; lia).
  rewrite (take_app_ge _ _ (S i)), (drop_app_ge _ _ (S i + n)) by lia.
  rewrite Hti. replace (S i - i)%nat with 1%nat by lia.
  replace (S i + n - i)%nat with (S n) by lia. simpl.
  rewrite take_0, drop_drop, <- app_assoc. simpl. do 4 f_equal. lia.
Qed.

Lemma ATTRIBUTES_PER_SAMPLE_nonneg : 0 ≤ ATTRIBUTES_PER_SAMPLE.
Proof. done. Qed.

Lemma read_line_scan line st row crow vs lbl f' t' :
  0 ≤ line →
  rd_data st !! Z.to_nat line = Some row →
  length row = Z.to_nat ATTRIBUTES_PER_SAMPLE →
  rd_classes st !! Z.to_nat line = Some crow →
  length crow = 1%nat →
  scan_line (rd_f st) (rd_tmp st) = ((vs, lbl), (f', t')) →
  read_line line st =
    Some {| rd_f := f'; rd_tmp := t';
            rd_data := <[Z.to_nat line := vs]> (rd_data st);
            rd_classes := <[Z.to_nat line := [lbl]]> (rd_classes st) |}.
Proof.
  intros Hline Hrow Hlen Hcrow Hclen Hscan.
  pose proof ATTRIBUTES_PER_SAMPLE_nonneg as HA.
  unfold scan_line in Hscan.
  destruct (scan_values _ _ _) as [vs1 [f1 t1]] eqn:Es.
  destruct (fscanf_f f1 t1) as [f2 t2] eqn:Ef. inversion Hscan; subst.
  unfold read_line, for_loop.
  replace (Z.to_nat (ATTRIBUTES_PER_SAMPLE + 1 - 0))
    with (Z.to_nat ATTRIBUTES_PER_SAMPLE + 1)%nat by lia.
  rewrite for_iter_app.
  rewrite (read_attributes_scan line _ 0 st row vs f1 t1) by (done || lia).
  simpl. rewrite Z2Nat.id by done.
  rewrite (read_attribute_label line _ crow f' t') by (done || simpl; lia).
  simpl. do 3 f_equal.
  - rewrite drop_ge by lia. by rewrite app_nil_r.
  - f_equal. destruct crow as [|c [|??]]; simpl in *; done || lia.
Qed.

Lemma scan_line_length f t vs lbl st :
  scan_line f t = ((vs, lbl), st) → length vs = Z.to_nat ATTRIBUTES_PER_SAMPLE.
Proof.
  unfold scan_line. destruct (scan_values _ _ _) as [vs1 [f1 t1]] eqn:Es.
  destruct (fscanf_f f1 t1). intros H; inversion H; subst.
  by eapply scan_values_length.
Qed.

Lemma read_lines_scan n : ∀ i st rows f' t',
  0 ≤ i →
  (Z.to_nat i + n ≤ length (rd_data st))%nat →
  (Z.to_nat i + n ≤ length (rd_classes st))%nat →
  Forall (λ r, length r = Z.to_nat ATTRIBUTES_PER_SAMPLE) (rd_data st) →
  Forall (λ r, length r = 1%nat) (rd_classes st) →
  scan_lines n (rd_f st) (rd_tmp st) = (rows, (f', t')) →
  for_iter n i read_line st =
    Some {| rd_f := f'; rd_tmp := t';
            rd_data := take (Z.to_nat i) (rd_data st) ++ (fst <$> rows)
                         ++ drop (Z.to_nat i + n) (rd_data st);
            rd_classes := take (Z.to_nat i) (rd_classes st) ++ ((λ r, [r.2]) <$> rows)
                            ++ drop (Z.to_nat i + n) (rd_classes st) |}.
Proof.
  induction n as [|n IH]; intros i st rows f' t' Hi Hd Hc Hda Hca Hscan; simpl in *.
  - inversion Hscan; subst. rewrite Nat.add_0_r, !app_nil_l, !take_drop. by destruct st.
  - destruct (scan_line (rd_f st) (rd_tmp st)) as [[vs lbl] [f1 t1]] eqn:El.
    destruct (scan_lines n f1 t1) as [rows1 [f2 t2]] eqn:Es. inversion Hscan; subst.
    destruct (lookup_lt_is_Some_2 (rd_data st) (Z.to_nat i)) as [row Hrow]; [lia|].
    destruct (lookup_lt_is_Some_2 (rd_classes st) (Z.to_nat i)) as [crow Hcrow]; [lia|].
    rewrite (read_line_scan i st row crow vs lbl f1 t1);
      [ | done | done | by apply (Forall_lookup_1 _ _ _ _ Hda Hrow)
        | done | by apply (Forall_lookup_1 _ _ _ _ Hca Hcrow) | done ].
    simpl.
    rewrite (IH (i + 1) _ rows1 f' t'); simpl;
      [ | lia | rewrite length_insert; lia | rewrite length_insert; lia
        | apply Forall_insert; [done|by eapply scan_line_length]
        | by apply Forall_insert | done ].
    replace (Z.to_nat (i + 1)) with (S (Z.to_nat i)) by lia.
    rewrite !insert_segment by lia. done.
Qed.

Lemma read_data_from_csv_missing fs filename data classes n tmp0 :
  fs !! filename = None →
  read_data_from_csv fs filename data classes n tmp0
  = ([Fopen filename false; CannotRead filename], Some (0, data, classes)).
Proof. intros Hfs. unfold read_data_from_csv. by rewrite Hfs. Qed.

Lemma read_data_from_csv_open fs filename content data classes n tmp0 :
  fs !! filename = Some content →
  Mat_shape data (Z.to_nat n) (Z.to_nat ATTRIBUTES_PER_SAMPLE) →
  Mat_shape classes (Z.to_nat n) 1 →
  read_data_from_csv fs filename data classes n tmp0
  = ([Fopen filename true; Fclose filename],
     Some (1, fst <$> loaded content n tmp0, column (snd <$> loaded content n tmp0))).
Proof.
  intros Hfs [Hdl Hda] [Hcl Hca]. unfold read_data_from_csv, for_loop, loaded.
  rewrite Hfs.
  destruct (scan_lines (Z.to_nat n) content tmp0) as [rows [f' t']] eqn:Es.
  rewrite Z.sub_0_r.
  rewrite (read_lines_scan _ 0 _ rows f' t') by (simpl; done || lia).
  simpl. rewrite !drop_ge, !app_nil_r by lia.
  unfold column. by rewrite <- list_fmap_compose.
Qed.

(** ** Scanning a well-formed stream *)

Lemma scan_values_Num vs : ∀ f t,
  ∃ t', scan_values (length vs) ((Num <$> vs) ++ f) t = (vs, (f, t')).
Proof.
  induction vs as [|v vs IH]; intros f t; simpl.
  - by exists t.
  - destruct (IH f v) as [t' Ht']. exists t'. unfold fmap in Ht'. by rewrite Ht'.
Qed.

Lemma scan_line_encode r f t :
  length r.1 = Z.to_nat ATTRIBUTES_PER_SAMPLE →
  scan_line (encode_row r ++ f) t = (r, (f, r.2)).
Proof.
  intros Hlen. unfold scan_line, encode_row. rewrite <- Hlen, <- app_assoc.
  destruct (scan_values_Num r.1 ([Num r.2] ++ f) t) as [t' ->]. simpl.
  by destruct r.
Qed.

(** ** Scanning a stream that has run dry *)

Lemma fscanf_f_dry f t : dry f → fscanf_f f t = (f, t).
Proof. by destruct f as [|[]]. Qed.

Lemma scan_values_dry k f t :
  dry f → scan_values k f t = (replicate k t, (f, t)).
Proof.
  intros Hf. induction k as [|k IH]; simpl; [done|].
  by rewrite fscanf_f_dry, IH.
Qed.

Lemma scan_line_dry f t :
  dry f →
  scan_line f t = ((replicate (Z.to_nat ATTRIBUTES_PER_SAMPLE) t, t), (f, t)).
Proof. intros Hf. unfold scan_line. by rewrite scan_values_dry, fscanf_f_dry. Qed.

Lemma scan_lines_dry n f t :
  dry f →
  scan_lines n f t
  = (replicate n (replicate (Z.to_nat ATTRIBUTES_PER_SAMPLE) t, t), (f, t)).
Proof.
  intros Hf. induction n as [|n IH]; simpl; [done|].
  by rewrite scan_line_dry, IH.
Qed.

(** ** Scanning does not depend on [tmp] once a number has been read *)

Lemma scan_line_tmp v f t0 t1 :
  scan_line (Num v :: f) t0 = scan_line (Num v :: f) t1.
Proof.
  unfold scan_line. destruct (Z.to_nat ATTRIBUTES_PER_SAMPLE) as [|k]; simpl; done.
Qed.

Lemma scan_lines_tmp n v f t0 t1 :
  (scan_lines n (Num v :: f) t0).1 = (scan_lines n (Num v :: f) t1).1.
Proof.
  destruct n as [|n]; simpl; [done|].
  by rewrite (scan_line_tmp v f t0 t1).
Qed.

Lemma scan_lines_length n : ∀ f t, length (scan_lines n f t).1 = n.
Proof.
  induction n as [|n IH]; intros f t; simpl; [done|].
  destruct (scan_line f t) as [row [f' t']]. specialize (IH f' t').
  destruct (scan_lines n f' t') as [rows st]. simpl in *. by f_equal.
Qed.

(** ** Integers as binary32 numbers *)

Lemma iter_pos_iter {A : Type} (f : A → A) (p : positive) :
  ∀ x, SpecFloat.iter_pos f p x = Pos.iter f x p.
Proof.
  induction p as [p IH|p IH|]; intros x; simpl; [|by rewrite !IH|done].
  by rewrite !IH, <- !Pos.iter_swap.
Qed.

Lemma digits2_pos_shift (p k : positive) :
  digits2_pos (Pos.iter xO p k) = (digits2_pos p + k)%positive.
Proof.
  induction k as [|k IH] using Pos.peano_ind.
  - simpl. lia.
  - rewrite Pos.iter_succ. simpl. rewrite IH. lia.
Qed.

Lemma Zpos_shift (p k : positive) :
  Z.pos (Pos.iter xO p k) = Z.pos p * 2 ^ Z.pos k.
Proof.
  induction k as [|k IH] using Pos.peano_ind.
  - simpl. lia.
  - rewrite Pos.iter_succ, Pos2Z.inj_succ, Z.pow_succ_r by lia.
    rewrite Pos2Z.inj_xO, IH. lia.
Qed.

Lemma shr_exact (k q : positive) :
  SpecFloat.iter_pos shr_1 k (Build_shr_record (Z.pos (Pos.iter xO q k)) false false)
  = Build_shr_record (Z.pos q) false false.
Proof.
  rewrite iter_pos_iter. revert q.
  induction k as [|k IH] using Pos.peano_ind; intros q.
  - done.
  - rewrite Pos.iter_succ_r, Pos.iter_succ. simpl. apply IH.
Qed.

Lemma shr_fexp_normal m e :
  Z.pos (digits2_pos m) = 24 → -149 ≤ e →
  shr_fexp flt_prec flt_emax (Z.pos m) e loc_Exact
  = (Build_shr_record (Z.pos m) false false, e).
Proof.
  intros Hd He. unfold shr_fexp, fexp, emin, flt_prec, flt_emax, Zdigits2.
  rewrite Hd. by replace (Z.max (24 + e - 24) (3 - 128 - 24) - e) with 0 by lia.
Qed.

Lemma binary_round_aux_normal s m e :
  Z.pos (digits2_pos m) = 24 → -149 ≤ e ≤ 104 →
  binary_round_aux flt_prec flt_emax s (Z.pos m) e loc_Exact = S754_finite s m e.
Proof.
  intros Hd He. unfold binary_round_aux.
  rewrite shr_fexp_normal by (done || lia). simpl.
  rewrite shr_fexp_normal by (done || lia). simpl.
  unfold flt_emax, flt_prec. by destruct (Z.leb_spec e (128 - 24)); [|lia].
Qed.

Lemma binary_round_aux_shift s q m k e :
  q = Pos.iter xO m k → Z.pos (digits2_pos m) = 24 → -149 ≤ e + Z.pos k ≤ 104 →
  binary_round_aux flt_prec flt_emax s (Z.pos q) e loc_Exact
  = S754_finite s m (e + Z.pos k).
Proof.
  intros -> Hd He. unfold binary_round_aux.
  assert (Hshr : shr_fexp flt_prec flt_emax (Z.pos (Pos.iter xO m k)) e loc_Exact
                 = (Build_shr_record (Z.pos m) false false, e + Z.pos k)).
  { unfold shr_fexp, fexp, emin, flt_prec, flt_emax, Zdigits2.
    rewrite digits2_pos_shift, Pos2Z.inj_add, Hd.
    replace (Z.max (24 + Z.pos k + e - 24) (3 - 128 - 24) - e) with (Z.pos k) by lia.
    simpl. by rewrite shr_exact. }
  rewrite Hshr. simpl.
  rewrite shr_fexp_normal by (done || lia). simpl.
  unfold flt_emax, flt_prec. by destruct (Z.leb_spec (e + Z.pos k) (128 - 24)); [|lia].
Qed.

Lemma mantissa24_digits p :
  Z.pos (digits2_pos p) ≤ 24 → Z.pos (digits2_pos (mantissa24 p)) = 24.
Proof.
  intros Hd. unfold mantissa24.
  destruct (24 - Z.pos (digits2_pos p)) as [|k|k] eqn:E; [lia| |lia].
  rewrite digits2_pos_shift. lia.
Qed.

Lemma mantissa24_value p :
  Z.pos (digits2_pos p) ≤ 24 →
  Z.pos (mantissa24 p) = Z.pos p * 2 ^ (24 - Z.pos (digits2_pos p)).
Proof.
  intros Hd. unfold mantissa24.
  destruct (24 - Z.pos (digits2_pos p)) as [|k|k] eqn:E; [|by rewrite Zpos_shift|lia].
  rewrite Z.pow_0_r. lia.
Qed.

(** A value [q * 2^e] that is [p] times a power of two, with [p] below
    2^24, rounds to the number of mantissa [mantissa24 p]. *)
Lemma binary_round_exact s q e p :
  Z.pos (digits2_pos p) ≤ 24 →
  (q = p ∨ ∃ j, q = Pos.iter xO p j) →
  -149 ≤ e + Z.pos (digits2_pos q) - 24 ≤ 104 →
  binary_round flt_prec flt_emax s q e
  = S754_finite s (mantissa24 p) (e + Z.pos (digits2_pos q) - 24).
Proof.
  intros Hp Hq He. unfold binary_round, shl_align.
  set (E := fexp flt_prec flt_emax (Z.pos (digits2_pos q) + e)).
  assert (HE : E = e + Z.pos (digits2_pos q) - 24).
  { unfold E, fexp, emin, flt_prec, flt_emax. lia. }
  destruct (E - e) as [|k|k] eqn:Ek.
  - (* already 24 digits *)
    assert (Hq24 : Z.pos (digits2_pos q) = 24) by lia.
    assert (q = mantissa24 p) as ->.
    { destruct Hq as [->|[j ->]].
      - unfold mantissa24. by replace (24 - Z.pos (digits2_pos p)) with 0 by lia.
      - rewrite digits2_pos_shift, Pos2Z.inj_add in Hq24. unfold mantissa24.
        replace (24 - Z.pos (digits2_pos p)) with (Z.pos j) by lia. done. }
    rewrite binary_round_aux_normal by (done || lia). f_equal. lia.
  - (* more than 24 digits: the low digits are zero *)
    assert (q = Pos.iter xO (mantissa24 p) k) as Hqk.
    { destruct Hq as [->|[j ->]]; [lia|].
      rewrite digits2_pos_shift, Pos2Z.inj_add in HE. unfold mantissa24.
      destruct (24 - Z.pos (digits2_pos p)) as [|i|i] eqn:Ei; [|
        rewrite <- Pos.iter_add; f_equal; lia | lia].
      f_equal. lia. }
    rewrite (binary_round_aux_shift s q (mantissa24 p) k e Hqk)
      by (by apply mantissa24_digits || lia).
    f_equal. lia.
  - (* fewer than 24 digits *)
    assert (Pos.iter xO q k = mantissa24 p) as ->.
    { destruct Hq as [->|[j ->]].
      - unfold mantissa24. by replace (24 - Z.pos (digits2_pos p)) with (Z.pos k) by lia.
      - rewrite digits2_pos_shift, Pos2Z.inj_add in HE. unfold mantissa24.
        replace (24 - Z.pos (digits2_pos p)) with (Z.pos (j + k)) by lia.
        rewrite Pos.add_comm. by rewrite Pos.iter_add. }
    rewrite binary_round_aux_normal by (by apply mantissa24_digits || lia).
    f_equal. lia.
Qed.

Lemma digits2_pos_bounds p :
  2 ^ (Z.pos (digits2_pos p) - 1) ≤ Z.pos p < 2 ^ Z.pos (digits2_pos p).
Proof.
  induction p as [p IH|p IH|]; simpl; [| |done];
    rewrite Pos2Z.inj_succ, Z.pow_succ_r by lia;
    replace (Z.succ (Z.pos (digits2_pos p)) - 1) with (Z.succ (Z.pos (digits2_pos p) - 1)) by lia;
    rewrite Z.pow_succ_r by lia; lia.
Qed.

Lemma digits2_pos_le_24 p : Z.pos p < 16777216 → Z.pos (digits2_pos p) ≤ 24.
Proof.
  intros Hp. destruct (Z.le_gt_cases (Z.pos (digits2_pos p)) 24) as [|Hgt]; [done|].
  pose proof (digits2_pos_bounds p) as [Hlo _].
  assert (2 ^ 24 ≤ 2 ^ (Z.pos (digits2_pos p) - 1)) by (apply Z.pow_le_mono_r; lia).
  change (2 ^ 24) with 16777216 in *. lia.
Qed.

Lemma float_of_int_pos p :
  Z.pos p < 16777216 →
  float_of_int (Z.pos p)
  = S754_finite false (mantissa24 p) (Z.pos (digits2_pos p) - 24).
Proof.
  intros Hp. apply digits2_pos_le_24 in Hp. unfold float_of_int, binary_normalize.
  rewrite (binary_round_exact false p 0 p) by (done || (by left) || lia). done.
Qed.

Lemma float_of_int_neg p :
  Z.pos p < 16777216 →
  float_of_int (Z.neg p)
  = S754_finite true (mantissa24 p) (Z.pos (digits2_pos p) - 24).
Proof.
  intros Hp. apply digits2_pos_le_24 in Hp. unfold float_of_int, binary_normalize.
  rewrite (binary_round_exact true p 0 p) by (done || (by left) || lia). done.
Qed.

(** The number [z * 2^23 * 2^-23] is the float of value [z]. *)
Lemma binary_normalize_scaled z :
  Z.abs z < 16777216 →
  binary_normalize flt_prec flt_emax (z * 8388608) (-23) false = float_of_int z.
Proof.
  intros Hz. destruct z as [|p|p]; [done| |].
  - rewrite float_of_int_pos by lia.
    assert (Hd : Z.pos (digits2_pos p) ≤ 24) by (apply digits2_pos_le_24; lia).
    replace (Z.pos p * 8388608) with (Z.pos (Pos.iter xO p 23))
      by (rewrite Zpos_shift; lia).
    unfold binary_normalize.
    rewrite (binary_round_exact false _ (-23) p);
      [ | done | right; by exists 23%positive | rewrite digits2_pos_shift; lia ].
    f_equal. rewrite digits2_pos_shift. lia.
  - rewrite float_of_int_neg by lia.
    assert (Hd : Z.pos (digits2_pos p) ≤ 24) by (apply digits2_pos_le_24; lia).
    replace (Z.neg p * 8388608) with (Z.neg (Pos.iter xO p 23))
      by (rewrite <- !Pos2Z.opp_pos, Zpos_shift; lia).
    unfold binary_normalize.
    rewrite (binary_round_exact true _ (-23) p);
      [ | done | right; by exists 23%positive | rewrite digits2_pos_shift; lia ].
    f_equal. rewrite digits2_pos_shift. lia.
Qed.

Lemma shl_align_mantissa24 p :
  Z.pos (digits2_pos p) ≤ 24 →
  fst (shl_align (mantissa24 p) (Z.pos (digits2_pos p) - 24) (-23)) = Pos.iter xO p 23.
Proof.
  intros Hd. unfold shl_align, mantissa24.
  destruct (-23 - (Z.pos (digits2_pos p) - 24)) as [|k|k] eqn:Ek; [|lia|]; cbn [fst].
  - by replace (24 - Z.pos (digits2_pos p)) with 23 by lia.
  - destruct (24 - Z.pos (digits2_pos p)) as [|i|i] eqn:Ei; [| | lia ].
    + f_equal. lia.
    + rewrite <- Pos.iter_add. f_equal. lia.
Qed.

Lemma float_sub_one n :
  Z.abs n < 16777216 → Z.abs (n - 1) < 16777216 →
  float_sub (float_of_int n) (float_of_int 1) = float_of_int (n - 1).
Proof.
  intros Hn Hn1. destruct n as [|p|p]; [done| |].
  - rewrite float_of_int_pos by lia.
    assert (Hd : Z.pos (digits2_pos p) ≤ 24) by (apply digits2_pos_le_24; lia).
    change (float_of_int 1) with (S754_finite false 8388608 (-23)).
    unfold float_sub, SFsub.
    replace (Z.min (Z.pos (digits2_pos p) - 24) (-23)) with (-23) by lia.
    rewrite shl_align_mantissa24 by done.
    change (fst (shl_align 8388608 (-23) (-23))) with 8388608%positive.
    unfold cond_Zopp. rewrite Zpos_shift.
    replace (Z.pos p * 2 ^ 23 - 8388608) with ((Z.pos p - 1) * 8388608) by lia.
    by apply binary_normalize_scaled.
  - rewrite float_of_int_neg by lia.
    assert (Hd : Z.pos (digits2_pos p) ≤ 24) by (apply digits2_pos_le_24; lia).
    change (float_of_int 1) with (S754_finite false 8388608 (-23)).
    unfold float_sub, SFsub.
    replace (Z.min (Z.pos (digits2_pos p) - 24) (-23)) with (-23) by lia.
    rewrite shl_align_mantissa24 by done.
    change (fst (shl_align 8388608 (-23) (-23))) with 8388608%positive.
    unfold cond_Zopp. rewrite Zpos_shift.
    replace (- (Z.pos p * 2 ^ 23) - 8388608) with ((Z.neg p - 1) * 8388608) by lia.
    by apply binary_normalize_scaled.
Qed.

Lemma float_trunc_of_int n :
  Z.abs n < 16777216 → float_trunc (float_of_int n) = Some n.
Proof.
  intros Hn.
  assert (Hshift : ∀ p, Z.pos p < 16777216 →
            Z.shiftl (Z.pos (mantissa24 p)) (Z.pos (digits2_pos p) - 24) = Z.pos p).
  { intros p Hp. apply digits2_pos_le_24 in Hp.
    rewrite mantissa24_value, Z.shiftl_div_pow2 by lia.
    replace (- (Z.pos (digits2_pos p) - 24)) with (24 - Z.pos (digits2_pos p)) by lia.
    apply Z.div_mul. apply Z.pow_nonzero; lia. }
  destruct n as [|p|p]; [done| |].
  - rewrite float_of_int_pos by lia. simpl. by rewrite Hshift by lia.
  - rewrite float_of_int_neg by lia. simpl. by rewrite Hshift by lia.
Qed.

(** [(int) (label - 1)] for an integer label: the computation is exact. *)
Lemma false_positive_index_int n :
  Z.abs n < 16777216 → Z.abs (n - 1) < 16777216 →
  false_positive_index (float_of_int n) = Some (n - 1).
Proof.
  intros Hn Hn1. unfold false_positive_index, float_to_int.
  rewrite float_sub_one, float_trunc_of_int by done. simpl.
  unfold INT_MIN, INT_MAX.
  destruct (Z.leb_spec (-2147483648) (n - 1)); [|lia].
  by destruct (Z.leb_spec (n - 1) 2147483647); [|lia].
Qed.

(** ** Checking a range of integers by evaluation *)

Lemma forallb_seqZ (f : Z → bool) lo len :
  forallb f (seqZ lo len) = true → ∀ z, lo ≤ z < lo + len → f z = true.
Proof.
  intros Hall z Hz. rewrite forallb_forall in Hall. apply Hall.
  apply list_elem_of_In, elem_of_seqZ. lia.
Qed.

(** ** Labels and the index of their counter *)

Lemma false_positive_index_label n :
  1 ≤ n ≤ NUMBER_OF_CLASSES →
  false_positive_index (float_of_int n) = Some (n - 1).
Proof.
  unfold NUMBER_OF_CLASSES. intros Hn. apply false_positive_index_int; lia.
Qed.

(** ** Arrays of counters *)

Lemma sum_Z_insert (l : list Z) i x y :
  l !! i = Some x → sum_Z (<[i := y]> l) = sum_Z l - x + y.
Proof.
  revert i. induction l as [|a l IH]; intros [|i] Hi; simpl in *; try done.
  - inversion Hi; subst. lia.
  - rewrite (IH i Hi). lia.
Qed.

Lemma sum_Z_lookup_le (l : list Z) i x :
  Forall (λ v, 0 ≤ v) l → l !! i = Some x → 0 ≤ x ≤ sum_Z l.
Proof.
  revert i. induction l as [|a l IH]; intros [|i] Hall Hi; simpl in *; try done;
    apply Forall_cons in Hall as [Ha Hall].
  - inversion Hi; subst.
    assert (0 ≤ sum_Z l) by (clear -Hall; induction Hall; simpl; lia). lia.
  - specialize (IH i Hall Hi). lia.
Qed.

Lemma int_incr_Some x : x < INT_MAX → int_incr x = Some (x + 1).
Proof. intros. unfold int_incr. by destruct (Z.ltb_spec x INT_MAX); [|lia]. Qed.

Lemma array_incr_Some (a : list Z) i x :
  0 ≤ i → a !! Z.to_nat i = Some x → x < INT_MAX →
  array_incr a i = Some (<[Z.to_nat i := x + 1]> a).
Proof.
  intros Hi Hx Hmax. unfold array_incr. destruct (Z.leb_spec 0 i); [|lia].
  rewrite Hx. simpl. by rewrite int_incr_Some.
Qed.

Lemma array_incr_None (a : list Z) i :
  i < 0 ∨ Z.of_nat (length a) ≤ i → array_incr a i = None.
Proof.
  intros Hi. unfold array_incr. destruct (Z.leb_spec 0 i); [|done].
  rewrite lookup_ge_None_2; [done|lia].
Qed.

Lemma init_counters_loop x y :
  for_loop 0 NUMBER_OF_CLASSES init_counters
    (replicate (Z.to_nat NUMBER_OF_CLASSES) x, replicate (Z.to_nat NUMBER_OF_CLASSES) y)
  = Some (replicate (Z.to_nat NUMBER_OF_CLASSES) 0, seqZ 65 NUMBER_OF_CLASSES).
Proof. reflexivity. Qed.

Lemma Mat_at_column labels i :
  0 ≤ i → Mat_at (column labels) i 0 = labels !! Z.to_nat i.
Proof.
  intros Hi. unfold Mat_at, column. destruct (Z.leb_spec 0 i); [|lia]. simpl.
  rewrite list_lookup_fmap. by destruct (labels !! Z.to_nat i).
Qed.

(** ** One test sample *)

Lemma tally_match r l acc :
  mismatch r l = false → correct_class acc < INT_MAX →
  tally r l acc =
    Some {| correct_class := correct_class acc + 1; wrong_class := wrong_class acc;
            false_positives := false_positives acc |}.
Proof. intros Hm Hc. unfold tally. by rewrite Hm, int_incr_Some. Qed.

Lemma tally_mismatch r n acc x :
  mismatch r (float_of_int n) = true → 1 ≤ n ≤ NUMBER_OF_CLASSES →
  wrong_class acc < INT_MAX →
  false_positives acc !! Z.to_nat (n - 1) = Some x → x < INT_MAX →
  tally r (float_of_int n) acc =
    Some {| correct_class := correct_class acc; wrong_class := wrong_class acc + 1;
            false_positives := <[Z.to_nat (n - 1) := x + 1]> (false_positives acc) |}.
Proof.
  intros Hm Hn Hw Hx Hmax. unfold tally.
  rewrite Hm, int_incr_Some, false_positive_index_label by done. simpl.
  by rewrite (array_incr_Some _ _ x) by (done || lia).
Qed.

Lemma tally_inv r n acc k :
  1 ≤ n ≤ NUMBER_OF_CLASSES → 0 ≤ k < INT_MAX → counts_inv k acc →
  ∃ acc', tally r (float_of_int n) acc = Some acc' ∧ counts_inv (k + 1) acc'.
Proof.
  intros Hn Hk (Hsum & Hc & Hw & Hfp & Hlen & Hpos).
  destruct (mismatch r (float_of_int n)) eqn:Hm.
  - destruct (lookup_lt_is_Some_2 (false_positives acc) (Z.to_nat (n - 1))) as [x Hx].
    { rewrite Hlen. unfold NUMBER_OF_CLASSES in *. lia. }
    pose proof (sum_Z_lookup_le _ _ _ Hpos Hx) as Hxle.
    rewrite (tally_mismatch r n acc x) by (done || lia).
    eexists. split; [done|]. unfold counts_inv. simpl.
    rewrite (sum_Z_insert _ _ x) by done. rewrite length_insert.
    repeat split; try lia. apply Forall_insert; [done|lia].
  - rewrite tally_match by (done || lia).
    eexists. split; [done|]. unfold counts_inv. simpl. repeat split; done || lia.
Qed.

Section Evaluation.
Context `{SvmBackend}.
Variable svm : CvSVM.
Variable testing_data : Mat.
Variable labels : list Z.
Hypothesis data_rows : length testing_data = Z.to_nat NUMBER_OF_TESTING_SAMPLES.
Hypothesis label_rows : length labels = Z.to_nat NUMBER_OF_TESTING_SAMPLES.
Hypothesis label_range : Forall (λ n, 1 ≤ n ≤ NUMBER_OF_CLASSES) labels.

Lemma test_one_inv j acc :
  0 ≤ j < NUMBER_OF_TESTING_SAMPLES → counts_inv j acc →
  ∃ acc', test_one svm testing_data (column (float_of_int <$> labels)) j acc = Some acc'
          ∧ counts_inv (j + 1) acc'.
Proof.
  intros Hj Hinv. unfold test_one, Mat_row.
  destruct (Z.leb_spec 0 j); [|lia].
  destruct (lookup_lt_is_Some_2 testing_data (Z.to_nat j)) as [row ->]; [lia|].
  destruct (lookup_lt_is_Some_2 labels (Z.to_nat j)) as [n Hn]; [lia|].
  simpl. rewrite Mat_at_column, list_lookup_fmap, Hn by lia. simpl.
  apply tally_inv; [|unfold NUMBER_OF_TESTING_SAMPLES, INT_MAX in *; lia|done].
  by apply (Forall_lookup_1 _ _ _ _ label_range Hn).
Qed.

Lemma test_loop_inv k fp :
  0 ≤ k ≤ NUMBER_OF_TESTING_SAMPLES →
  fp = replicate (Z.to_nat NUMBER_OF_CLASSES) 0 →
  ∃ acc, for_loop 0 k (test_one svm testing_data (column (float_of_int <$> labels)))
           {| correct_class := 0; wrong_class := 0; false_positives := fp |} = Some acc
         ∧ counts_inv k acc.
Proof.
  intros Hk ->. apply (for_loop_inv counts_inv); [lia| |].
  - unfold counts_inv. cbn [correct_class wrong_class false_positives].
    repeat split; try done. by apply Forall_replicate.
  - intros j t Hj Ht. apply test_one_inv; [lia|done].
Qed.
End Evaluation.

(** ** main, by the files it finds *)

Lemma main_training_missing `{SvmBackend} fs ind argv1 argv2 :
  fs !! argv1 = None →
  main fs ind argv1 argv2
  = {| run_events := [Fopen argv1 false; CannotRead argv1];
       run_exit := Some (-1); run_report := None |}.
Proof.
  intros Hfs. unfold main. by rewrite read_data_from_csv_missing.
Qed.

Lemma main_testing_missing `{SvmBackend} fs ind argv1 argv2 content :
  fs !! argv1 = Some content → fs !! argv2 = None →
  main fs ind argv1 argv2
  = {| run_events := [Fopen argv1 true; Fclose argv1; Fopen argv2 false; CannotRead argv2];
       run_exit := Some (-1); run_report := None |}.
Proof.
  intros Hfs1 Hfs2. unfold main.
  rewrite (read_data_from_csv_open _ _ content)
    by (done || apply Mat_create_shape).
  cbv beta iota zeta. rewrite read_data_from_csv_missing by done.
  reflexivity.
Qed.

Lemma main_loaded `{SvmBackend} fs ind argv1 argv2 content1 content2 :
  fs !! argv1 = Some content1 → fs !! argv2 = Some content2 →
  main fs ind argv1 argv2 =
    let training := loaded content1 NUMBER_OF_TRAINING_SAMPLES (ind_tmp_training ind) in
    let testing := loaded content2 NUMBER_OF_TESTING_SAMPLES (ind_tmp_testing ind) in
    let files := [Fopen argv1 true; Fclose argv1; Fopen argv2 true; Fclose argv2] in
    let '(ev3, svm, params) :=
      train_stage (fst <$> training) (column (snd <$> training)) in
    match evaluate svm (fst <$> testing) (column (snd <$> testing)) ind
            ≫= λ '(acc, class_labels),
                summarize params (get_support_vector_count svm) acc class_labels with
    | None => undefined_run (files ++ ev3)
    | Some rep =>
        {| run_events := files ++ ev3; run_exit := Some 0; run_report := Some rep |}
    end.
Proof.
  intros Hfs1 Hfs2. unfold main.
  rewrite (read_data_from_csv_open _ _ content1)
    by (done || apply Mat_create_shape).
  cbv beta iota zeta.
  rewrite (read_data_from_csv_open _ _ content2)
    by (done || apply Mat_create_shape).
  reflexivity.
Qed.

Lemma for_loop_split {St : Type} (body : Z → St → option St) lo mid hi s :
  lo ≤ mid ≤ hi →
  for_loop lo hi body s = for_loop lo mid body s ≫= for_loop mid hi body.
Proof.
  intros Hm. unfold for_loop.
  replace (Z.to_nat (hi - lo)) with (Z.to_nat (mid - lo) + Z.to_nat (hi - mid))%nat by lia.
  rewrite for_iter_app. by replace (lo + Z.of_nat (Z.to_nat (mid - lo))) with mid by lia.
Qed.

Lemma evaluate_loops `{SvmBackend} svm testing_data testing_classifications ind :
  evaluate svm testing_data testing_classifications ind
  = for_loop 0 NUMBER_OF_TESTING_SAMPLES
      (test_one svm testing_data testing_classifications)
      {| correct_class := 0; wrong_class := 0;
         false_positives := replicate (Z.to_nat NUMBER_OF_CLASSES) 0 |}
    ≫= λ acc, Some (acc, seqZ 65 NUMBER_OF_CLASSES).
Proof. unfold evaluate. by rewrite init_counters_loop. Qed.

(** ** The tolerance test as a comparison of values *)

Lemma valid_binary32_mantissa s m e :
  valid_binary flt_prec flt_emax (S754_finite s m e) = true →
  Z.pos m < 16777216 ∧ -149 ≤ e ∧ (-149 < e → 8388608 ≤ Z.pos m).
Proof.
  unfold valid_binary, bounded, canonical_mantissa, fexp, emin, flt_prec, flt_emax.
  intros Hv. apply andb_prop in Hv as [Hc _]. apply Z.eqb_eq in Hc.
  pose proof (digits2_pos_bounds m) as [Hlo Hhi].
  assert (Hd : Z.pos (digits2_pos m) ≤ 24) by lia.
  split; [|split; [lia|]].
  - assert (2 ^ Z.pos (digits2_pos m) ≤ 2 ^ 24) by (apply Z.pow_le_mono_r; lia).
    change (2 ^ 24) with 16777216 in *. lia.
  - intros He. replace (Z.pos (digits2_pos m)) with 24 in Hlo by lia.
    change (2 ^ (24 - 1)) with 8388608 in Hlo. done.
Qed.

Lemma Qabs_signed (s : bool) (n : Z) (d : positive) :
  0 ≤ n → Qabs (if s then (- (n # d))%Q else (n # d)) = (n # d).
Proof.
  intros Hn. destruct s; unfold Qabs, Qopp; cbn [Qnum Qden].
  - by rewrite Z.abs_opp, Z.abs_eq.
  - by rewrite Z.abs_eq.
Qed.

Lemma SFleb_epsilon_value d v :
  valid_binary flt_prec flt_emax d = true →
  SF2Q d = Some v →
  SFleb FLT_EPSILON (SFabs d) = true ↔ (1 # 2 ^ 23 <= Qabs v)%Q.
Proof.
  intros Hvalid Hv. destruct d as [s|s| |s m e]; try done.
  - injection Hv as <-. split; [done|]. intros Hle. by vm_compute in Hle.
  - apply valid_binary32_mantissa in Hvalid as (Hm & He & Hnorm).
    simpl in Hv. injection Hv as <-.
    unfold SFleb, SFabs, FLT_EPSILON, SFcompare.
    destruct e as [|p|p].
    + change (inject_Z (Z.pos m)) with (Z.pos m # 1). rewrite Qabs_signed by done.
      cbn [Z.compare]. split; [|done]. intros _. unfold Qle. simpl. lia.
    + change (inject_Z (Z.pos m * 2 ^ Z.pos p)) with (Z.pos m * 2 ^ Z.pos p # 1).
      rewrite Qabs_signed by lia.
      cbn [Z.compare]. split; [|done]. intros _. unfold Qle. cbn [Qnum Qden].
      assert (0 < 2 ^ Z.pos p) by (apply Z.pow_pos_nonneg; lia). nia.
    + rewrite Qabs_signed by done.
      unfold Qle. cbn [Qnum Qden]. rewrite Pos2Z.inj_pow.
      change (Z.pos (2 ^ 23)) with 8388608. rewrite Z.mul_1_l.
      destruct (Z.compare_spec (-46) (Z.neg p)) as [Heq|Hlt|Hgt].
      * injection Heq as <-. change (2 ^ Z.pos 46) with (8388608 * 8388608).
        rewrite Pos.compare_cont_spec. simpl.
        destruct (Pos.compare_spec 8388608 m) as [Heq|Hl|Hg].
        -- split; [intros _; lia|reflexivity].
        -- split; [intros _; lia|reflexivity].
        -- split; [discriminate|]. intros _. clear -Hg Hnorm.
           assert (-149 < -46) as Hsub by reflexivity. specialize (Hnorm Hsub).
           apply Pos2Z.pos_lt_pos in Hg. apply Z.lt_nge in Hg. by destruct Hg.
      * split; [intros _|done].
        assert (2 ^ Z.pos p ≤ 2 ^ 45) by (apply Z.pow_le_mono_r; lia).
        change (2 ^ 45) with 35184372088832 in *. specialize (Hnorm ltac:(lia)). nia.
      * split; [done|]. intros Hle.
        assert (2 ^ 47 ≤ 2 ^ Z.pos p) by (apply Z.pow_le_mono_r; lia).
        change (2 ^ 47) with 140737488355328 in *. nia.
Qed.

(** ** Rounding to 24 binary digits *)

Lemma shr_1_nonneg m r s :
  0 ≤ m →
  shr_1 {| shr_m := m; shr_r := r; shr_s := s |}
  = {| shr_m := m / 2; shr_r := Z.odd m; shr_s := r || s |}.
Proof.
  intros Hm. rewrite <- Z.div2_div.
  destruct m as [|[p|p|]|]; try lia; reflexivity.
Qed.

Lemma shr_iter (N : Z) (k : positive) :
  0 ≤ N →
  SpecFloat.iter_pos shr_1 k {| shr_m := N; shr_r := false; shr_s := false |}
  = {| shr_m := N / 2 ^ Z.pos k;
       shr_r := Z.odd (N / 2 ^ (Z.pos k - 1));
       shr_s := negb (N mod 2 ^ (Z.pos k - 1) =? 0) |}.
Proof.
  intros HN. rewrite iter_pos_iter.
  induction k as [|k IH] using Pos.peano_ind.
  - cbn [Pos.iter]. rewrite shr_1_nonneg by done.
    change (Z.pos 1 - 1) with 0. rewrite Z.pow_1_r, Z.pow_0_r, Z.div_1_r, Z.mod_1_r.
    reflexivity.
  - rewrite Pos.iter_succ, IH, shr_1_nonneg by (apply Z.div_pos; lia).
    rewrite Pos2Z.inj_succ.
    replace (Z.succ (Z.pos k) - 1) with (Z.pos k) by lia.
    assert (Hpow : 2 ^ Z.pos k = 2 ^ (Z.pos k - 1) * 2).
    { replace (Z.pos k) with (Z.succ (Z.pos k - 1)) at 1 by lia.
      rewrite Z.pow_succ_r by lia. lia. }
    assert (Ha : 0 < 2 ^ (Z.pos k - 1)) by (apply Z.pow_pos_nonneg; lia).
    f_equal.
    + rewrite Z.pow_succ_r by lia. rewrite Z.div_div by lia. f_equal. lia.
    + rewrite Hpow. rewrite Z.rem_mul_r by lia. rewrite Zmod_odd.
      pose proof (Z.mod_pos_bound N (2 ^ (Z.pos k - 1)) Ha) as Hm.
      destruct (Z.odd (N / 2 ^ (Z.pos k - 1))); cbn [orb].
      * symmetry. apply negb_true_iff, Z.eqb_neq. lia.
      * by rewrite Z.mul_0_r, Z.add_0_r.
Qed.

Lemma round_nearest_even_shr q r s :
  round_nearest_even q (loc_of_shr_record {| shr_m := q; shr_r := r; shr_s := s |})
  = if r && (s || Z.odd q) then q + 1 else q.
Proof.
  destruct r, s; cbn [loc_of_shr_record round_nearest_even andb orb]; try done.
  rewrite <- Z.negb_even. by destruct (Z.even q).
Qed.

Lemma digits2_pos_unique p k :
  2 ^ (k - 1) ≤ Z.pos p < 2 ^ k → Z.pos (digits2_pos p) = k.
Proof.
  intros [Hlo Hhi]. pose proof (digits2_pos_bounds p) as [Hlo' Hhi'].
  destruct (Z.lt_trichotomy (Z.pos (digits2_pos p)) k) as [Hlt|[Heq|Hgt]]; [|done|].
  - assert (2 ^ Z.pos (digits2_pos p) ≤ 2 ^ (k - 1)) by (apply Z.pow_le_mono_r; lia). lia.
  - assert (0 ≤ k).
    { destruct (Z.le_gt_cases 0 k); [done|]. rewrite Z.pow_neg_r in Hhi by lia. lia. }
    assert (2 ^ k ≤ 2 ^ (Z.pos (digits2_pos p) - 1)) by (apply Z.pow_le_mono_r; lia). lia.
Qed.

(** A mantissa of more than 24 digits is shifted down to 24 digits and
    rounded to nearest, ties to even. *)
Lemma binary_round_long s n E :
  24 < Z.pos (digits2_pos n) →
  -149 ≤ E + (Z.pos (digits2_pos n) - 24) →
  let p := Z.pos (digits2_pos n) - 24 in
  let q := Z.pos n / 2 ^ p in
  ∃ q',
    (q' = q ∨ q' = q + 1)
    ∧ (q' = q + 1 ↔
       Z.odd (Z.pos n / 2 ^ (p - 1))
       && (negb (Z.pos n mod 2 ^ (p - 1) =? 0) || Z.odd q) = true)
    ∧ 2 ^ 23 ≤ q < 2 ^ 24
    ∧ binary_round flt_prec flt_emax s n E
      = if q' =? 2 ^ 24
        then if E + p + 1 <=? 104 then S754_finite s 8388608 (E + p + 1)
             else S754_infinity s
        else if E + p <=? 104 then S754_finite s (Z.to_pos q') (E + p)
             else S754_infinity s.
Proof.
  intros Hd HE p q.
  pose proof (digits2_pos_bounds n) as [Hlo Hhi].
  assert (Hp : 0 < p) by (unfold p; lia).
  assert (H2p : 0 < 2 ^ p) by (apply Z.pow_pos_nonneg; lia).
  assert (Hq : 2 ^ 23 ≤ q < 2 ^ 24).
  { unfold q. split.
    - apply Z.div_le_lower_bound; [done|]. rewrite Z.mul_comm, <- Z.pow_add_r by lia.
      replace (23 + p) with (Z.pos (digits2_pos n) - 1) by (unfold p; lia). done.
    - apply Z.div_lt_upper_bound; [done|]. rewrite <- Z.pow_add_r by lia.
      replace (p + 24) with (Z.pos (digits2_pos n)) by (unfold p; lia). done. }
  set (up := Z.odd (Z.pos n / 2 ^ (p - 1))
             && (negb (Z.pos n mod 2 ^ (p - 1) =? 0) || Z.odd q)).
  exists (if up then q + 1 else q).
  split; [destruct up; auto|]. split; [destruct up; split; (done || lia)|].
  split; [done|].
  unfold binary_round, shl_align, fexp, emin, flt_prec, flt_emax.
  replace (Z.max (Z.pos (digits2_pos n) + E - 24) (3 - 128 - 24) - E) with p
    by (unfold p; lia).
  destruct p as [|pp|pp] eqn:Ep; [lia| |lia].
  unfold binary_round_aux.
  assert (Hshr1 : shr_fexp 24 128 (Z.pos n) E loc_Exact
            = ({| shr_m := q; shr_r := Z.odd (Z.pos n / 2 ^ (Z.pos pp - 1));
                  shr_s := negb (Z.pos n mod 2 ^ (Z.pos pp - 1) =? 0) |}, E + Z.pos pp)).
  { unfold shr_fexp, fexp, emin, Zdigits2, shr_record_of_loc, shr.
    replace (Z.max (Z.pos (digits2_pos n) + E - 24) (3 - 128 - 24) - E) with (Z.pos pp)
      by lia.
    by rewrite shr_iter. }
  rewrite Hshr1. rewrite round_nearest_even_shr. fold up.
  set (q' := if up then q + 1 else q).
  assert (Hq' : 2 ^ 23 ≤ q' ≤ 2 ^ 24) by (unfold q'; destruct up; lia).
  destruct (Z.eqb_spec q' (2 ^ 24)) as [->|Hne].
  - change (2 ^ 24) with (Z.pos 16777216).
    assert (Hshr2 : shr_fexp 24 128 (Z.pos 16777216) (E + Z.pos pp) loc_Exact
              = ({| shr_m := 8388608; shr_r := false; shr_s := false |},
                 E + Z.pos pp + 1)).
    { unfold shr_fexp, fexp, emin, Zdigits2, shr_record_of_loc, shr.
      change (Z.pos (digits2_pos 16777216)) with 25.
      replace (Z.max (25 + (E + Z.pos pp) - 24) (3 - 128 - 24) - (E + Z.pos pp))
        with 1 by lia.
      reflexivity. }
    rewrite Hshr2. cbn [shr_m]. reflexivity.
  - destruct q' as [|m'|m'] eqn:Em; [lia| |lia].
    pose proof (shr_fexp_normal m' (E + Z.pos pp)) as Hshr2.
    unfold flt_prec, flt_emax in Hshr2.
    rewrite Hshr2; [|apply digits2_pos_unique; lia|lia].
    cbn [shr_m]. reflexivity.
Qed.

(** ** The integer part of a rounded number *)

Lemma shiftl_mono a b e : 0 ≤ a ≤ b → Z.shiftl a e ≤ Z.shiftl b e.
Proof.
  intros Hab. destruct (Z.le_gt_cases 0 e).
  - rewrite !Z.shiftl_mul_pow2 by done.
    apply Z.mul_le_mono_nonneg_r; [apply Z.pow_nonneg|]; lia.
  - rewrite !Z.shiftl_div_pow2 by lia.
    apply Z.div_le_mono; [apply Z.pow_pos_nonneg; lia|lia].
Qed.

Lemma shiftl_pow2 a e : 0 ≤ a → 0 ≤ a + e → Z.shiftl (2 ^ a) e = 2 ^ (a + e).
Proof.
  intros Ha Hae. destruct (Z.le_gt_cases 0 e).
  - by rewrite Z.shiftl_mul_pow2, Z.pow_add_r by done.
  - rewrite Z.shiftl_div_pow2 by lia.
    replace (a + e) with (a - - e) by lia. rewrite Z.pow_sub_r by lia. done.
Qed.

(** A number of more than 24 digits: the integer part of the rounded number
    is not below the power of two under it. *)
Lemma binary_round_long_trunc s n E t :
  24 < Z.pos (digits2_pos n) →
  -23 ≤ E + (Z.pos (digits2_pos n) - 24) →
  float_trunc (binary_round flt_prec flt_emax s n E) = Some t →
  2 ^ (E + Z.pos (digits2_pos n) - 1) ≤ (if s then - t else t).
Proof.
  intros Hd HE.
  destruct (binary_round_long s n E Hd ltac:(lia)) as (q' & Hq' & _ & Hq & ->).
  set (d := Z.pos (digits2_pos n)) in *.
  assert (Hmag : ∀ m e, (m = 8388608%positive ∧ e = E + (d - 24) + 1
                          ∨ 2 ^ 23 ≤ Z.pos m ∧ e = E + (d - 24)) →
            2 ^ (E + d - 1) ≤ Z.shiftl (Z.pos m) e).
  { intros m e [[-> ->]|[Hm ->]].
    - change (Z.pos 8388608) with (2 ^ 23). rewrite shiftl_pow2 by lia.
      apply Z.pow_le_mono_r; lia.
    - etransitivity; [|apply (shiftl_mono (2 ^ 23)); lia].
      rewrite shiftl_pow2 by lia. apply Z.pow_le_mono_r; lia. }
  assert (Hfin : ∀ m e, (m = 8388608%positive ∧ e = E + (d - 24) + 1
                          ∨ 2 ^ 23 ≤ Z.pos m ∧ e = E + (d - 24)) →
            float_trunc (S754_finite s m e) = Some t →
            2 ^ (E + d - 1) ≤ (if s then - t else t)).
  { intros m e Hme. cbn [float_trunc]. intros [= <-].
    specialize (Hmag m e Hme). destruct s; lia. }
  destruct (Z.eqb_spec q' (2 ^ 24)) as [Heq|Hne].
  - destruct (E + (d - 24) + 1 <=? 104); [|done]. apply Hfin. by left.
  - destruct (E + (d - 24) <=? 104); [|done]. apply Hfin. right.
    split; [|done]. rewrite Z2Pos.id by lia. lia.
Qed.

(** A number that fits 24 digits is not changed by the rounding. *)
Lemma float_trunc_round_exact s n E P j :
  Z.pos n = Z.pos P * 2 ^ j → 0 ≤ j →
  Z.pos (digits2_pos P) ≤ 24 →
  -149 ≤ E + Z.pos (digits2_pos n) - 24 ≤ 104 →
  float_trunc (binary_round flt_prec flt_emax s n E)
  = Some (if s then - Z.shiftl (Z.pos n) E else Z.shiftl (Z.pos n) E).
Proof.
  intros Hn Hj HP HE.
  assert (Hshape : n = P ∧ j = 0 ∨ ∃ k, n = Pos.iter xO P k ∧ j = Z.pos k).
  { destruct j as [|k|k]; [left|right|lia].
    - rewrite Z.pow_0_r, Z.mul_1_r in Hn. by injection Hn as ->.
    - exists k. split; [|done]. rewrite <- Zpos_shift in Hn. by injection Hn. }
  assert (Hdn : Z.pos (digits2_pos n) = Z.pos (digits2_pos P) + j).
  { destruct Hshape as [[-> ->]|(k & -> & ->)]; [lia|].
    rewrite digits2_pos_shift. lia. }
  rewrite (binary_round_exact s n E P); [|done| |done].
  2: { destruct Hshape as [[-> _]|(k & -> & _)]; [by left|right; by exists k]. }
  cbn [float_trunc]. rewrite mantissa24_value by done.
  rewrite <- (Z.shiftl_mul_pow2 (Z.pos P)) by lia.
  rewrite Z.shiftl_shiftl by lia.
  rewrite Hn, <- (Z.shiftl_mul_pow2 (Z.pos P)) by done.
  rewrite (Z.shiftl_shiftl (Z.pos P) j E) by done.
  replace (24 - Z.pos (digits2_pos P) + (E + Z.pos (digits2_pos n) - 24))
    with (j + E) by lia.
  reflexivity.
Qed.

(** ** [label - 1] in binary32 *)

Lemma shl_align_fst m e ez :
  ez ≤ e → Z.pos (fst (shl_align m e ez)) = Z.pos m * 2 ^ (e - ez).
Proof.
  intros He. unfold shl_align.
  destruct (ez - e) as [|k|k] eqn:Ek; cbn [fst]; [|lia|].
  - replace (e - ez) with 0 by lia. lia.
  - rewrite Zpos_shift. f_equal. f_equal. lia.
Qed.

Lemma float_sub_one_finite s m e :
  float_sub (S754_finite s m e) (float_of_int 1)
  = binary_normalize flt_prec flt_emax
      ((if s then - (Z.pos m * 2 ^ (e - Z.min e (-23)))
        else Z.pos m * 2 ^ (e - Z.min e (-23)))
       - 2 ^ (- Z.min e (-23)))
      (Z.min e (-23)) false.
Proof.
  change (float_of_int 1) with (S754_finite false 8388608 (-23)).
  unfold float_sub, SFsub. cbv zeta. f_equal.
  rewrite !shl_align_fst by lia. unfold cond_Zopp.
  change (Z.pos 8388608) with (2 ^ 23). rewrite <- Z.pow_add_r by lia.
  replace (23 + (-23 - Z.min e (-23))) with (- Z.min e (-23)) by lia.
  by destruct s.
Qed.

Lemma digits2_pos_le p k : 0 ≤ k → Z.pos p < 2 ^ k → Z.pos (digits2_pos p) ≤ k.
Proof.
  intros Hk Hp. destruct (Z.le_gt_cases (Z.pos (digits2_pos p)) k) as [|Hgt]; [done|].
  pose proof (digits2_pos_bounds p) as [Hlo _].
  assert (2 ^ k ≤ 2 ^ (Z.pos (digits2_pos p) - 1)) by (apply Z.pow_le_mono_r; lia).
  lia.
Qed.

Lemma digits2_pos_gt p k : 2 ^ k ≤ Z.pos p → k < Z.pos (digits2_pos p).
Proof.
  intros Hp. destruct (Z.lt_ge_cases k (Z.pos (digits2_pos p))) as [|Hge]; [done|].
  pose proof (digits2_pos_bounds p) as [_ Hhi].
  assert (2 ^ Z.pos (digits2_pos p) ≤ 2 ^ k) by (apply Z.pow_le_mono_r; lia).
  lia.
Qed.

Lemma float_to_int_trunc x t :
  float_trunc x = Some t → INT_MIN ≤ t ≤ INT_MAX → float_to_int x = Some t.
Proof.
  intros Hx Ht. unfold float_to_int. rewrite Hx. cbn [mbind option_bind].
  destruct (Z.leb_spec INT_MIN t); [|lia]. by destruct (Z.leb_spec t INT_MAX); [|lia].
Qed.

Lemma float_to_int_Some x i :
  float_to_int x = Some i → float_trunc x = Some i.
Proof.
  unfold float_to_int. destruct (float_trunc x) as [t|]; [|done].
  cbn [mbind option_bind]. by destruct (_ && _); [intros [= ->]|].
Qed.

(** A label between 1 and 2^24: the subtraction is exact and the index is
    the integer part of the label, less one. *)
Lemma false_positive_index_ge_1 m e :
  -23 ≤ e ≤ 0 → 2 ^ 23 ≤ Z.pos m < 2 ^ 24 →
  false_positive_index (S754_finite false m e) = Some (Z.pos m / 2 ^ (- e) - 1).
Proof.
  intros He Hm. unfold false_positive_index. rewrite float_sub_one_finite.
  replace (Z.min e (-23)) with (-23) by lia.
  replace (e - -23) with (e + 23) by lia. change (- -23) with 23.
  assert (Hpe : 0 < 2 ^ (- e)) by (apply Z.pow_pos_nonneg; lia).
  assert (Hpe' : 2 ^ (- e) ≤ 2 ^ 23) by (apply Z.pow_le_mono_r; lia).
  assert (Hsplit : 2 ^ 23 = 2 ^ (- e) * 2 ^ (e + 23)).
  { rewrite <- Z.pow_add_r by lia. f_equal. lia. }
  assert (Hpj : 0 < 2 ^ (e + 23)) by (apply Z.pow_pos_nonneg; lia).
  assert (HD : Z.pos m * 2 ^ (e + 23) - 2 ^ 23
               = (Z.pos m - 2 ^ (- e)) * 2 ^ (e + 23)).
  { rewrite Hsplit. lia. }
  assert (Hidx : (Z.pos m - 2 ^ (- e)) / 2 ^ (- e) = Z.pos m / 2 ^ (- e) - 1).
  { replace (Z.pos m - 2 ^ (- e)) with (Z.pos m + (-1) * 2 ^ (- e)) by lia.
    rewrite Z.div_add by lia. lia. }
  assert (Hq : 1 ≤ Z.pos m / 2 ^ (- e) < 2 ^ 24).
  { split.
    - apply Z.div_le_lower_bound; lia.
    - apply Z.div_lt_upper_bound; [lia|]. nia. }
  rewrite HD.
  destruct (Z.pos m - 2 ^ (- e)) as [|P|P] eqn:EP; [| |lia].
  - rewrite <- Hidx. cbn. reflexivity.
  - assert (HP : Z.pos P < 2 ^ 24) by lia.
    destruct (Z.pos P * 2 ^ (e + 23)) as [|n|n] eqn:En; [lia| |lia].
    cbn [binary_normalize].
    apply float_to_int_trunc.
    + rewrite (float_trunc_round_exact false n (-23) P (e + 23));
        [|lia|lia|by apply digits2_pos_le|].
      * f_equal. rewrite <- Hidx, Z.shiftl_div_pow2 by lia. change (- -23) with 23.
        rewrite <- En, Hsplit. rewrite Z.div_mul_cancel_r by lia. done.
      * pose proof (digits2_pos_le n 47 ltac:(lia)) as Hdn.
        assert (Z.pos n < 2 ^ 47).
        { rewrite <- En. change (2 ^ 47) with (2 ^ 24 * 2 ^ 23).
          assert (2 ^ (e + 23) ≤ 2 ^ 23) by (apply Z.pow_le_mono_r; lia). nia. }
        lia.
    + unfold INT_MIN, INT_MAX. change (2 ^ 24) with 16777216 in Hq. lia.
Qed.

(** A label between 1/2 and 1. *)
Lemma false_positive_index_half_1 m :
  Z.pos m < 2 ^ 24 →
  false_positive_index (S754_finite false m (-24)) = Some 0.
Proof.
  intros Hm. unfold false_positive_index. rewrite float_sub_one_finite.
  change (Z.min (-24) (-23)) with (-24). change (-24 - -24) with 0.
  change (- -24) with 24. rewrite Z.pow_0_r, Z.mul_1_r.
  destruct (Z.pos m - 2 ^ 24) as [|n|n] eqn:En; [lia|lia|].
  cbn [binary_normalize].
  assert (Hn : Z.pos n < 2 ^ 24) by lia.
  apply float_to_int_trunc; [|done].
  rewrite (float_trunc_round_exact true n (-24) n 0);
    [|lia|lia|by apply digits2_pos_le|].
  - rewrite Z.shiftl_div_pow2 by lia. change (- -24) with 24.
    by rewrite Z.div_small by lia.
  - pose proof (digits2_pos_le n 24 ltac:(lia) Hn). lia.
Qed.

(** A positive label below 1/2: the difference is rounded, and it is
    rounded to -1 when the label is at most 2^-25. *)
Lemma false_positive_index_lt_half m e :
  e ≤ -25 → Z.pos m < 2 ^ 24 →
  false_positive_index (S754_finite false m e)
  = Some (if 2 ^ (- e) <? Z.pos m * 2 ^ 25 then 0 else -1).
Proof.
  intros He Hm. unfold false_positive_index. rewrite float_sub_one_finite.
  replace (Z.min e (-23)) with e by lia. rewrite Z.sub_diag, Z.pow_0_r, Z.mul_1_r.
  set (p := - e - 24). assert (Hp : 1 ≤ p) by (unfold p; lia).
  set (a := 2 ^ (p - 1)).
  assert (Ha : 0 < a) by (apply Z.pow_pos_nonneg; lia).
  assert (Hpow : 2 ^ (- e) = 33554432 * a).
  { unfold a. change 33554432 with (2 ^ 25). rewrite <- Z.pow_add_r by lia.
    f_equal. unfold p. lia. }
  assert (Hp2 : 2 ^ p = a * 2).
  { unfold a. replace p with (Z.succ (p - 1)) at 1 by lia.
    rewrite Z.pow_succ_r by lia. lia. }
  rewrite Hpow. change (2 ^ 24) with 16777216 in Hm. change (2 ^ 25) with 33554432.
  destruct (Z.pos m - 33554432 * a) as [|n|n] eqn:En; [lia|lia|].
  assert (HN : Z.pos n = 33554432 * a - Z.pos m) by lia.
  cbn [binary_normalize].
  assert (Hd : Z.pos (digits2_pos n) = - e).
  { apply digits2_pos_unique. rewrite Hpow.
    replace (- e - 1) with (24 + (p - 1)) by (unfold p; lia).
    rewrite Z.pow_add_r by lia. fold a. change (2 ^ 24) with 16777216. lia. }
  destruct (binary_round_long true n e) as (q' & Hq' & Hup & Hq & ->); [lia|lia|].
  rewrite Hd in *. fold p in Hq', Hup, Hq |- *. fold a in Hup. rewrite Hp2 in *.
  replace (e + p) with (-24) by (unfold p; lia).
  change (-24 + 1 <=? 104) with true. change (-24 <=? 104) with true. cbv iota.
  change (2 ^ 24) with 16777216 in *. change (2 ^ 23) with 8388608 in *.
  assert (Hhq : Z.pos n / (a * 2) = Z.pos n / a / 2) by (by rewrite Z.div_div by lia).
  destruct (Z.ltb_spec (33554432 * a) (Z.pos m * 33554432)) as [Hin|Hout].
  - (* above 2^-25: the rounded mantissa stays below 2^24 *)
    assert (Hne : q' ≠ 16777216).
    { intros ->. assert (Hq1 : 16777216 = Z.pos n / (a * 2) + 1) by lia.
      apply Hup in Hq1. apply andb_prop in Hq1 as [Hodd _].
      pose proof (Z.div_mod (Z.pos n / a) 2 ltac:(lia)) as Hdm.
      rewrite Zmod_odd, Hodd, <- Hhq in Hdm.
      pose proof (Z.mul_div_le (Z.pos n) a Ha). lia. }
    destruct (Z.eqb_spec q' 16777216); [done|].
    apply float_to_int_trunc; [|done]. cbn [float_trunc].
    rewrite Z2Pos.id by lia. rewrite Z.shiftl_div_pow2 by lia.
    change (- -24) with 24. rewrite Z.div_small; [done|].
    change (2 ^ 24) with 16777216. lia.
  - (* at most 2^-25: the rounded mantissa is 2^24 *)
    assert (Hma : Z.pos m ≤ a) by lia.
    assert (Hh : Z.pos n / a = 33554431).
    { symmetry. apply (Z.div_unique _ _ _ (a - Z.pos m)); lia. }
    assert (Hqv : Z.pos n / (a * 2) = 16777215).
    { rewrite Hhq, Hh. reflexivity. }
    assert (Heq : q' = 16777216).
    { replace 16777216 with (Z.pos n / (a * 2) + 1) by lia. apply Hup.
      rewrite Hh, Hqv. apply andb_true_intro. split; [reflexivity|].
      apply orb_true_intro. right. reflexivity. }
    rewrite Heq. cbn. reflexivity.
Qed.

(** A label of 2^24 or more. *)
Lemma false_positive_index_huge m e i :
  1 ≤ e → 2 ^ 23 ≤ Z.pos m →
  false_positive_index (S754_finite false m e) = Some i → 2 ^ 23 ≤ i.
Proof.
  intros He Hm. unfold false_positive_index. rewrite float_sub_one_finite.
  replace (Z.min e (-23)) with (-23) by lia.
  replace (e - -23) with (e + 23) by lia. change (- -23) with 23.
  assert (2 ^ 24 ≤ 2 ^ (e + 23)) by (apply Z.pow_le_mono_r; lia).
  destruct (Z.pos m * 2 ^ (e + 23) - 2 ^ 23) as [|n|n] eqn:En; [nia| |nia].
  cbn [binary_normalize]. intros Hi. apply float_to_int_Some in Hi.
  assert (Hd : 46 < Z.pos (digits2_pos n)).
  { apply digits2_pos_gt. change (2 ^ 46) with (2 ^ 23 * 2 ^ 24 - 2 ^ 46).
    change (2 ^ 23) with 8388608 in *. change (2 ^ 24) with 16777216 in *.
    change (2 ^ 46) with 70368744177664. nia. }
  apply binary_round_long_trunc in Hi; [|lia|lia].
  etransitivity; [|exact Hi]. apply Z.pow_le_mono_r; lia.
Qed.

(** A negative label. *)
Lemma false_positive_index_negative m e i :
  valid_binary flt_prec flt_emax (S754_finite true m e) = true →
  false_positive_index (S754_finite true m e) = Some i → i ≤ -1.
Proof.
  intros Hv. apply valid_binary32_mantissa in Hv as (Hm & He & Hnorm).
  unfold false_positive_index. rewrite float_sub_one_finite.
  set (ez := Z.min e (-23)).
  assert (Hez : 0 < 2 ^ (- ez)) by (apply Z.pow_pos_nonneg; unfold ez; lia).
  assert (Hee : 0 < 2 ^ (e - ez)) by (apply Z.pow_pos_nonneg; unfold ez; lia).
  destruct (- (Z.pos m * 2 ^ (e - ez)) - 2 ^ (- ez)) as [|n|n] eqn:En; [nia|nia|].
  assert (HN : Z.pos n = Z.pos m * 2 ^ (e - ez) + 2 ^ (- ez)) by lia.
  cbn [binary_normalize]. intros Hi. apply float_to_int_Some in Hi.
  assert (Hd : - ez < Z.pos (digits2_pos n)) by (apply digits2_pos_gt; nia).
  assert (Hd24 : 24 < Z.pos (digits2_pos n)).
  { apply digits2_pos_gt. destruct (Z.le_gt_cases (-23) e) as [Hge|Hlt].
    - replace ez with (-23) in HN by (unfold ez; lia). change (- -23) with 23 in HN.
      specialize (Hnorm ltac:(lia)).
      assert (1 ≤ 2 ^ (e - -23)).
      { change 1 with (2 ^ 0). apply Z.pow_le_mono_r; lia. }
      change (2 ^ 24) with 16777216. change (2 ^ 23) with 8388608 in HN. nia.
    - replace ez with e in HN by (unfold ez; lia).
      assert (2 ^ 24 ≤ 2 ^ (- e)) by (apply Z.pow_le_mono_r; lia). lia. }
  apply binary_round_long_trunc in Hi; [|done|lia].
  assert (1 ≤ 2 ^ (ez + Z.pos (digits2_pos n) - 1)).
  { change 1 with (2 ^ 0). apply Z.pow_le_mono_r; lia. }
  lia.
Qed.

(** ** The labels whose counter lies inside the array *)

Lemma Qlt_binary32 m (pe : positive) :
  ((1 # 2 ^ 25 < Z.pos m # 2 ^ pe)%Q ↔ 2 ^ Z.pos pe < Z.pos m * 2 ^ 25)
  ∧ ((Z.pos m # 2 ^ pe < 27)%Q ↔ Z.pos m < 27 * 2 ^ Z.pos pe).
Proof.
  unfold Qlt. cbn [Qnum Qden]. rewrite !Pos2Z.inj_pow. split; split; lia.
Qed.

Lemma array_incr_is_Some (counters : list Z) (i : Z) :
  length counters = Z.to_nat NUMBER_OF_CLASSES →
  Forall (λ v, v < INT_MAX) counters →
  is_Some (array_incr counters i) ↔ 0 ≤ i ≤ NUMBER_OF_CLASSES - 1.
Proof.
  intros Hlen Hmax. unfold NUMBER_OF_CLASSES in *. split.
  - intros Hsome. destruct (decide (0 ≤ i ≤ 26 - 1)) as [|Hout]; [done|].
    rewrite array_incr_None in Hsome by lia. by destruct Hsome.
  - intros Hi.
    destruct (lookup_lt_is_Some_2 counters (Z.to_nat i)) as [x Hx]; [lia|].
    rewrite (array_incr_Some _ _ x); [done|lia|done|].
    by apply (Forall_lookup_1 _ _ _ _ Hmax Hx).
Qed.

(** The index of the counter, for every binary32 label: it is inside the
    array exactly for the labels above 2^-25 and below 27. *)
Lemma false_positive_index_range (label : spec_float) :
  valid_binary flt_prec flt_emax label = true →
  ((∃ i, false_positive_index label = Some i ∧ 0 ≤ i ≤ NUMBER_OF_CLASSES - 1)
   ↔ ∃ q, SF2Q label = Some q ∧ (1 # 2 ^ 25 < q)%Q ∧ (q < 27)%Q)
  ∧ ∀ q, SF2Q label = Some q → (1 # 2 ^ 25 < q)%Q → (q < 27)%Q →
      false_positive_index label = Some (Z.max 0 (Qfloor q - 1)).
Proof.
  intros Hv. unfold NUMBER_OF_CLASSES. destruct label as [s|s| |s m e].
  - (* zero *)
    split; [split|].
    + intros (i & Hi & Hr). destruct s; vm_compute in Hi; injection Hi as <-; lia.
    + intros (q & [= <-] & Hq & _). by vm_compute in Hq.
    + intros q [= <-] Hq _. by vm_compute in Hq.
  - (* infinity *)
    split; [split|].
    + intros (i & Hi & _). by destruct s.
    + by intros (q & Hq & _).
    + by intros q Hq.
  - (* not a number *)
    split; [split|].
    + by intros (i & Hi & _).
    + by intros (q & Hq & _).
    + by intros q Hq.
  - destruct s.
    + (* negative *)
      assert (Hneg : ∀ q, SF2Q (S754_finite true m e) = Some q → ¬ (1 # 2 ^ 25 < q)%Q).
      { intros q [= <-]. unfold Qlt. destruct e as [|pe|pe]; cbn [Qnum Qden Qopp inject_Z].
        - lia.
        - assert (0 < 2 ^ Z.pos pe) by (apply Z.pow_pos_nonneg; lia). nia.
        - lia. }
      split; [split|].
      * intros (i & Hi & Hr). apply false_positive_index_negative in Hi; [lia|done].
      * intros (q & Hq & Hlo & _). by apply Hneg in Hq.
      * intros q Hq Hlo. by apply Hneg in Hq.
    + (* positive *)
      apply valid_binary32_mantissa in Hv as (Hm & He & Hnorm).
      change 16777216 with (2 ^ 24) in Hm. change 8388608 with (2 ^ 23) in Hnorm.
      destruct e as [|pe|pe].
      * (* the label is an integer of 24 digits *)
        specialize (Hnorm ltac:(lia)).
        pose proof (false_positive_index_ge_1 m 0 ltac:(lia) ltac:(lia)) as Hidx.
        change (2 ^ (- 0)) with 1 in Hidx. rewrite Z.div_1_r in Hidx.
        change (2 ^ 23) with 8388608 in Hnorm.
        assert (Hq : ¬ (inject_Z (Z.pos m) < 27)%Q).
        { unfold Qlt. cbn [Qnum Qden inject_Z]. lia. }
        split; [split|].
        -- intros (i & Hi & Hr). rewrite Hidx in Hi. injection Hi as <-. lia.
        -- by intros (q & [= <-] & _ & Hhi).
        -- by intros q [= <-] _ Hhi.
      * (* the label is 2^24 or more *)
        specialize (Hnorm ltac:(lia)).
        assert (Hq : ¬ (inject_Z (Z.pos m * 2 ^ Z.pos pe) < 27)%Q).
        { unfold Qlt. cbn [Qnum Qden inject_Z].
          assert (1 ≤ 2 ^ Z.pos pe).
          { change 1 with (2 ^ 0). apply Z.pow_le_mono_r; lia. }
          change (2 ^ 23) with 8388608 in Hnorm. nia. }
        split; [split|].
        -- intros (i & Hi & Hr).
           apply false_positive_index_huge in Hi; [|lia|done].
           change (2 ^ 23) with 8388608 in Hi. lia.
        -- by intros (q & [= <-] & _ & Hhi).
        -- by intros q [= <-] _ Hhi.
      * (* the label has a fractional part *)
        destruct (Qlt_binary32 m pe) as [Hlo Hhi].
        assert (Hpe : 0 < 2 ^ Z.pos pe) by (apply Z.pow_pos_nonneg; lia).
        assert (Hfloor : Qfloor (Z.pos m # 2 ^ pe) = Z.pos m / 2 ^ Z.pos pe).
        { unfold Qfloor. by rewrite Pos2Z.inj_pow. }
        assert (Hidx : ∃ i, false_positive_index (S754_finite false m (Z.neg pe)) = Some i
                  ∧ (0 ≤ i ≤ 26 - 1 ↔ 2 ^ Z.pos pe < Z.pos m * 2 ^ 25
                                       ∧ Z.pos m < 27 * 2 ^ Z.pos pe)
                  ∧ (0 ≤ i → i = Z.max 0 (Z.pos m / 2 ^ Z.pos pe - 1))).
        { destruct (Z.le_gt_cases (Z.pos pe) 23) as [Hle|Hgt].
          - (* 1 <= label *)
            specialize (Hnorm ltac:(lia)).
            eexists. split; [apply false_positive_index_ge_1; lia|].
            change (- Z.neg pe) with (Z.pos pe).
            assert (2 ^ Z.pos pe ≤ 2 ^ 23) by (apply Z.pow_le_mono_r; lia).
            assert (1 ≤ Z.pos m / 2 ^ Z.pos pe) by (apply Z.div_le_lower_bound; lia).
            split; [|lia]. split.
            + intros Hr. split; [nia|].
              assert (Hd : Z.pos m / 2 ^ Z.pos pe < 27) by lia.
              destruct (Z.lt_ge_cases (Z.pos m) (27 * 2 ^ Z.pos pe)) as [|Hge]; [done|].
              assert (27 ≤ Z.pos m / 2 ^ Z.pos pe) by (apply Z.div_le_lower_bound; lia).
              lia.
            + intros [_ Hlt]. split; [lia|].
              assert (Z.pos m / 2 ^ Z.pos pe < 27); [|lia].
              apply Z.div_lt_upper_bound; lia.
          - assert (Hsmall : Z.pos m / 2 ^ Z.pos pe = 0).
            { apply Z.div_small. split; [lia|].
              assert (2 ^ 24 ≤ 2 ^ Z.pos pe) by (apply Z.pow_le_mono_r; lia). lia. }
            assert (Hup : Z.pos m < 27 * 2 ^ Z.pos pe).
            { assert (2 ^ 24 ≤ 2 ^ Z.pos pe) by (apply Z.pow_le_mono_r; lia). lia. }
            destruct (Z.eq_dec (Z.pos pe) 24) as [H24|Hne].
            + (* 1/2 <= label < 1 *)
              exists 0. injection H24 as ->.
              split; [by apply false_positive_index_half_1|].
              split; [|by rewrite Hsmall]. split; [|lia]. intros _. split; [|done].
              change (2 ^ Z.pos 24) with (2 ^ 24). change (2 ^ 25) with (2 * 2 ^ 24).
              change (2 ^ 24) with 16777216. lia.
            + (* label < 1/2 *)
              eexists. split; [apply false_positive_index_lt_half; lia|].
              change (- Z.neg pe) with (Z.pos pe). rewrite Hsmall.
              destruct (Z.ltb_spec (2 ^ Z.pos pe) (Z.pos m * 2 ^ 25)); split; lia. }
        destruct Hidx as (i & Hi & Hr & Hval).
        split; [split|].
        -- intros (i' & Hi' & Hr'). rewrite Hi in Hi'. injection Hi' as <-.
           exists (Z.pos m # 2 ^ pe). split; [reflexivity|].
           apply Hr in Hr' as [Hr1 Hr2]. split; [by apply Hlo|by apply Hhi].
        -- intros (q & [= <-] & Hq1 & Hq2). exists i. split; [done|].
           apply Hr. apply Hlo in Hq1. apply Hhi in Hq2. done.
        -- intros q [= <-] Hq1 Hq2. rewrite Hi, Hfloor. f_equal. apply Hval.
           apply Hr. apply Hlo in Hq1. apply Hhi in Hq2. done.
Qed.

(** * The claims *)

(** C1. For a test set of NUMBER_OF_TESTING_SAMPLES samples whose true labels
    are integers between 1 and NUMBER_OF_CLASSES, and for any classifier:
    after each sample the loop has processed (k of them, the state from
    which the rest of the loop continues), correct_class + wrong_class = k
    and the false-positive counters sum to wrong_class; the evaluation runs
    to its end, where correct_class + wrong_class is the number of test
    samples and the counters sum to wrong_class. *)
Theorem evaluation_counts `{SvmBackend} (svm : CvSVM) (testing_data : Mat)
    (labels : list Z) (ind : indeterminate) (k : Z) :
  length testing_data = Z.to_nat NUMBER_OF_TESTING_SAMPLES →
  length labels = Z.to_nat NUMBER_OF_TESTING_SAMPLES →
  Forall (λ n, 1 ≤ n ≤ NUMBER_OF_CLASSES) labels →
  0 ≤ k ≤ NUMBER_OF_TESTING_SAMPLES →
  let testing_classifications := column (float_of_int <$> labels) in
  let body := test_one svm testing_data testing_classifications in
  let start := {| correct_class := 0; wrong_class := 0;
                  false_positives := replicate (Z.to_nat NUMBER_OF_CLASSES) 0 |} in
  (∃ acc, for_loop 0 k body start = Some acc
          ∧ for_loop 0 NUMBER_OF_TESTING_SAMPLES body start
            = for_loop k NUMBER_OF_TESTING_SAMPLES body acc
          ∧ correct_class acc + wrong_class acc = k
          ∧ sum_Z (false_positives acc) = wrong_class acc)
  ∧ (∃ acc class_labels,
       evaluate svm testing_data testing_classifications ind = Some (acc, class_labels)
       ∧ correct_class acc + wrong_class acc = NUMBER_OF_TESTING_SAMPLES
       ∧ sum_Z (false_positives acc) = wrong_class acc).
Proof.
  intros Hdata Hlabels Hrange Hk tc body start. split.
  - destruct (test_loop_inv svm testing_data labels Hdata Hlabels Hrange k _ Hk eq_refl)
      as (acc & Hacc & Hsum & _ & _ & Hfp & _).
    exists acc. repeat split; try done.
    unfold body, start, tc. by rewrite (for_loop_split _ 0 k), Hacc by done.
  - destruct (test_loop_inv svm testing_data labels Hdata Hlabels Hrange
                NUMBER_OF_TESTING_SAMPLES _ ltac:(done) eq_refl)
      as (acc & Hacc & Hsum & _ & _ & Hfp & _).
    exists acc, (seqZ 65 NUMBER_OF_CLASSES). repeat split; try done.
    unfold tc. by rewrite evaluate_loops, Hacc.
Qed.

Lemma evaluation_counts_witness :
  let H := constant_backend (float_of_int 1) in
  let testing_data : Mat := replicate 1559 [] in
  let labels := replicate 1559 3 in
  let ind := {| ind_cell := S754_nan; ind_tmp_training := S754_nan;
                ind_tmp_testing := S754_nan; ind_int := 7; ind_char := 0 |} in
  ∃ acc class_labels,
    evaluate initial_params testing_data (column (float_of_int <$> labels)) ind
    = Some (acc, class_labels)
    ∧ correct_class acc + wrong_class acc = NUMBER_OF_TESTING_SAMPLES
    ∧ sum_Z (false_positives acc) = wrong_class acc.
Proof.
  intros H testing_data labels ind.
  refine (proj2 (evaluation_counts initial_params testing_data labels ind 100 _ _ _ _)).
  - reflexivity.
  - reflexivity.
  - apply Forall_replicate. unfold NUMBER_OF_CLASSES. lia.
  - unfold NUMBER_OF_TESTING_SAMPLES. lia.
Defined.

(** Predictions that are class labels: the tolerance test is the test for a
    different label. *)
Lemma mismatch_labels m n :
  1 ≤ m ≤ NUMBER_OF_CLASSES → 1 ≤ n ≤ NUMBER_OF_CLASSES →
  mismatch (float_of_int m) (float_of_int n) = bool_decide (m ≠ n).
Proof.
  unfold NUMBER_OF_CLASSES. intros Hm Hn.
  pose proof (forallb_seqZ (λ a, forallb (λ b,
    bool_decide (mismatch (float_of_int a) (float_of_int b) = bool_decide (a ≠ b)))
    (seqZ 1 26)) 1 26 ltac:(by vm_compute) m ltac:(lia)) as Hrow.
  cbv beta in Hrow.
  pose proof (forallb_seqZ _ 1 26 Hrow n ltac:(lia)) as Hcell.
  by apply bool_decide_eq_true_1 in Hcell.
Qed.

(** The comparison is a tolerance, not an equality: a prediction that
    differs from the label by less than FLT_EPSILON counts as correct, and so
    does a prediction that is not a number. *)
Example mismatch_tolerance :
  let half := S754_finite false 8388608 (-24) in
  let above_half := S754_finite false 8388609 (-24) in
  mismatch above_half half = false ∧ mismatch S754_nan (float_of_int 1) = false.
Proof. by vm_compute. Qed.

(** C2. For a test sample with features [row] and an integer true label [n]
    between 1 and NUMBER_OF_CLASSES, the body of the evaluation loop takes
    the mismatch branch exactly when
    fabs(predicted - label) >= FLT_EPSILON holds in float arithmetic, that
    is, when the float difference has a value [v], exactly when
    |v| >= 2^-23: a tolerance, not an equality. On a mismatch wrong_class is
    incremented and so is the false-positive counter of the true class
    (index [n - 1], whatever was predicted); on a match correct_class is
    incremented; everything else is left as it was. The counters are
    assumed below INT_MAX. *)
Theorem test_one_tally `{SvmBackend} (svm : CvSVM)
    (testing_data testing_classifications : Mat) (tsample n x : Z)
    (row : list spec_float) (acc : accumulator) :
  0 ≤ tsample →
  testing_data !! Z.to_nat tsample = Some row →
  Mat_at testing_classifications tsample 0 = Some (float_of_int n) →
  1 ≤ n ≤ NUMBER_OF_CLASSES →
  false_positives acc !! Z.to_nat (n - 1) = Some x →
  correct_class acc < INT_MAX → wrong_class acc < INT_MAX → x < INT_MAX →
  let difference := float_sub (predict svm row) (float_of_int n) in
  test_one svm testing_data testing_classifications tsample acc =
    Some (if SFleb FLT_EPSILON (SFabs difference)
          then {| correct_class := correct_class acc;
                  wrong_class := wrong_class acc + 1;
                  false_positives := <[Z.to_nat (n - 1) := x + 1]> (false_positives acc) |}
          else {| correct_class := correct_class acc + 1;
                  wrong_class := wrong_class acc;
                  false_positives := false_positives acc |})
  ∧ ∀ v, valid_binary flt_prec flt_emax difference = true →
         SF2Q difference = Some v →
         (SFleb FLT_EPSILON (SFabs difference) = true ↔ (1 # 2 ^ 23 <= Qabs v)%Q).
Proof.
  intros Hts Hrow Hlabel Hn Hx Hc Hw Hxmax difference.
  split; [|intros v; apply SFleb_epsilon_value].
  unfold test_one, Mat_row.
  destruct (Z.leb_spec 0 tsample); [|lia]. rewrite Hrow, Hlabel. simpl.
  fold difference. fold (mismatch (predict svm row) (float_of_int n)).
  destruct (mismatch (predict svm row) (float_of_int n)) eqn:Hm.
  - unfold mismatch in Hm. fold difference in Hm. rewrite Hm. by apply tally_mismatch.
  - unfold mismatch in Hm. fold difference in Hm. rewrite Hm. by apply tally_match.
Qed.

Lemma test_one_tally_witness :
  let H := constant_backend (float_of_int 2) in
  let acc := {| correct_class := 4; wrong_class := 1; false_positives := [0; 0; 1] |} in
  test_one initial_params [[float_of_int 0]] [[float_of_int 1]] 0 acc
  = Some {| correct_class := 4; wrong_class := 2; false_positives := [1; 0; 1] |}.
Proof.
  intros H acc.
  refine (proj1 (test_one_tally initial_params [[float_of_int 0]] [[float_of_int 1]] 0 1 0
                   [float_of_int 0] acc _ _ _ _ _ _ _ _)).
  - lia.
  - reflexivity.
  - reflexivity.
  - unfold NUMBER_OF_CLASSES. lia.
  - reflexivity.
  - simpl. unfold INT_MAX. lia.
  - simpl. unfold INT_MAX. lia.
  - unfold INT_MAX. lia.
Defined.

(** C9, as the code has it. The counter of a mismatch is indexed at
    [(int) (label - 1)], computed in binary32. For every binary32 label and
    [NUMBER_OF_CLASSES] counters below INT_MAX, the increment
    [false_positives[(int) (label - 1)]++] stays inside the array exactly
    when the label is a number above 2^-25 and below 27, and the counter is
    then the one at the integer part of the label less one, or the first one
    for a label below 1. So for an integer label [n] (of magnitude below
    2^24, so that the float holds it exactly) the index is [n - 1] and the
    increment stays inside the array exactly when 1 <= n <= NUMBER_OF_CLASSES;
    a label that is not an integer can lie outside this range and still be
    counted inside the array. Zero, negative labels, labels from 27 on,
    infinities and NaN leave the array or make the cast undefined. *)
Theorem false_positive_index_bounds (label : spec_float) (counters : list Z) :
  valid_binary flt_prec flt_emax label = true →
  length counters = Z.to_nat NUMBER_OF_CLASSES →
  Forall (λ v, v < INT_MAX) counters →
  (is_Some (false_positive_index label ≫= array_incr counters)
   ↔ ∃ q, SF2Q label = Some q ∧ (1 # 2 ^ 25 < q)%Q ∧ (q < 27)%Q)
  ∧ (∀ q, SF2Q label = Some q → (1 # 2 ^ 25 < q)%Q → (q < 27)%Q →
       false_positive_index label = Some (Z.max 0 (Qfloor q - 1)))
  ∧ (∀ n, label = float_of_int n → Z.abs n < 16777215 →
       false_positive_index label = Some (n - 1)
       ∧ (1 ≤ n ≤ NUMBER_OF_CLASSES ↔ 0 ≤ n - 1 ≤ NUMBER_OF_CLASSES - 1)
       ∧ (1 ≤ n ≤ NUMBER_OF_CLASSES ↔
          is_Some (false_positive_index label ≫= array_incr counters))
       ∧ (¬ 1 ≤ n ≤ NUMBER_OF_CLASSES ↔
          false_positive_index label ≫= array_incr counters = None)).
Proof.
  intros Hv Hlen Hmax.
  destruct (false_positive_index_range label Hv) as [Hrange Hvalue].
  split; [|split; [exact Hvalue|]].
  - rewrite <- Hrange.
    destruct (false_positive_index label) as [i|]; cbn [mbind option_bind].
    + rewrite array_incr_is_Some by done. split.
      * intros Hi. by exists i.
      * by intros (? & [= <-] & Hi).
    + split; [by intros [? ?]|by intros (? & ? & _)].
  - intros n -> Hn.
    assert (Hidx : false_positive_index (float_of_int n) = Some (n - 1))
      by (apply false_positive_index_int; lia).
    rewrite Hidx. cbn [mbind option_bind].
    pose proof (array_incr_is_Some counters (n - 1) Hlen Hmax) as Hin.
    split; [done|]. split; [unfold NUMBER_OF_CLASSES; lia|].
    split; [rewrite Hin; unfold NUMBER_OF_CLASSES; lia|]. split.
    + intros Hr. apply array_incr_None. unfold NUMBER_OF_CLASSES in *. lia.
    + intros Hnone Hr.
      assert (Hsome : is_Some (array_incr counters (n - 1)))
        by (apply Hin; unfold NUMBER_OF_CLASSES in *; lia).
      rewrite Hnone in Hsome. by destruct Hsome.
Qed.

Lemma false_positive_index_bounds_witness :
  let label := S754_finite false 13893632 (-19) in
  let counters := replicate (Z.to_nat NUMBER_OF_CLASSES) 0 in
  is_Some (false_positive_index label ≫= array_incr counters)
  ∧ false_positive_index label = Some 25.
Proof.
  intros label counters.
  destruct (false_positive_index_bounds label counters) as (Hin & Hvalue & _).
  - reflexivity.
  - reflexivity.
  - apply Forall_replicate. unfold INT_MAX. lia.
  - split.
    + apply Hin. exists (13893632 # 2 ^ 19)%Q. split; [reflexivity|]. split; reflexivity.
    + apply (Hvalue (13893632 # 2 ^ 19)%Q); reflexivity.
Defined.

(** C9, as the specification states it, fails for labels that are not
    integers: 0.5 and 26.5 are binary32 numbers outside the range from 1 to
    NUMBER_OF_CLASSES, and for both the increment stays inside the array, at
    the counters 0 and 25. *)
Lemma fractional_label_inside_the_array :
  let half := S754_finite false 8388608 (-24) in
  let top := S754_finite false 13893632 (-19) in
  let counters := replicate (Z.to_nat NUMBER_OF_CLASSES) 0 in
  (valid_binary flt_prec flt_emax half = true
   ∧ (∃ q, SF2Q half = Some q ∧ (q == 1 # 2)%Q ∧ (q < 1)%Q)
   ∧ false_positive_index half ≫= array_incr counters
     = Some (<[0%nat := 1]> counters))
  ∧ (valid_binary flt_prec flt_emax top = true
     ∧ (∃ q, SF2Q top = Some q ∧ (q == 53 # 2)%Q ∧ (inject_Z NUMBER_OF_CLASSES < q)%Q)
     ∧ false_positive_index top ≫= array_incr counters
       = Some (<[25%nat := 1]> counters)).
Proof.
  intros half top counters. split.
  - split; [reflexivity|]. split; [|reflexivity].
    exists (8388608 # 2 ^ 24)%Q. split; [reflexivity|]. split; reflexivity.
  - split; [reflexivity|]. split; [|reflexivity].
    exists (13893632 # 2 ^ 19)%Q. split; [reflexivity|]. split; reflexivity.
Qed.

(** ** The cells in scanning order *)

Lemma scan_values_app a : ∀ b f t,
  scan_values (a + b) f t =
    let '(vs1, (f1, t1)) := scan_values a f t in
    let '(vs2, st) := scan_values b f1 t1 in
    (vs1 ++ vs2, st).
Proof.
  induction a as [|a IH]; intros b f t; simpl.
  - by destruct (scan_values b f t).
  - destruct (fscanf_f f t) as [f' t']. rewrite IH.
    destruct (scan_values a f' t') as [vs1 [f1 t1]].
    by destruct (scan_values b f1 t1).
Qed.

Local Opaque ATTRIBUTES_PER_SAMPLE.

Lemma cells_scan_lines n : ∀ f t,
  cells (scan_lines n f t).1
  = (scan_values (n * S (Z.to_nat ATTRIBUTES_PER_SAMPLE)) f t).1
  ∧ (scan_lines n f t).2
    = (scan_values (n * S (Z.to_nat ATTRIBUTES_PER_SAMPLE)) f t).2.
Proof.
  induction n as [|n IH]; intros f t; [done|].
  replace (S n * S (Z.to_nat ATTRIBUTES_PER_SAMPLE))%nat
    with ((Z.to_nat ATTRIBUTES_PER_SAMPLE + 1) + n * S (Z.to_nat ATTRIBUTES_PER_SAMPLE))%nat
    by lia.
  rewrite !scan_values_app. simpl. unfold scan_line.
  destruct (scan_values (Z.to_nat ATTRIBUTES_PER_SAMPLE) f t) as [vs [f1 t1]].
  destruct (fscanf_f f1 t1) as [f2 t2]. specialize (IH f2 t2).
  destruct (scan_lines n f2 t2) as [rows st].
  destruct (scan_values _ f2 t2) as [vs2 st2]. simpl in *.
  destruct IH as [<- <-]. split; [|done].
  reflexivity.
Qed.

Local Transparent ATTRIBUTES_PER_SAMPLE.

Lemma scan_values_numbers vs : ∀ k rest t,
  dry rest →
  (scan_values k ((Num <$> vs) ++ rest) t).1
  = take k (vs ++ replicate (k - length vs) (default t (last vs))).
Proof.
  induction vs as [|v vs IH]; intros k rest t Hrest.
  - simpl. rewrite scan_values_dry by done. simpl.
    by rewrite Nat.sub_0_r, take_replicate, Nat.min_id.
  - destruct k as [|k]; [done|]. simpl.
    specialize (IH k rest v Hrest). unfold fmap in IH.
    destruct (scan_values k _ v) as [vs' st]. simpl in *. rewrite IH.
    do 4 f_equal. rewrite (last_cons v vs). by destruct (last vs).
Qed.

Lemma scan_values_scanned f : ∀ k t,
  (scan_values k f t).1
  = take k (scanned f t
            ++ replicate (k - length (scanned f t)) (default t (last (scanned f t)))).
Proof.
  assert (Hstuck : ∀ g k t, dry g →
            (scan_values k g t).1 = take k ([] ++ replicate (k - 0) t)).
  { intros g k t Hg. rewrite scan_values_dry by done. simpl.
    by rewrite Nat.sub_0_r, take_replicate, Nat.min_id. }
  induction f as [|[v| |] f IH]; intros k t.
  - by apply Hstuck.
  - destruct k as [|k]; [done|]. cbn [scan_values fscanf_f scanned length].
    specialize (IH k v). destruct (scan_values k f v) as [vs' st].
    cbn [fst] in *. rewrite IH. cbn [app take]. do 4 f_equal.
    rewrite (last_cons v (scanned f v)). by destruct (last (scanned f v)).
  - destruct k as [|k]; [done|]. cbn [scan_values fscanf_f scanned length].
    specialize (IH k t). destruct (scan_values k f t) as [vs' st].
    cbn [fst] in *. rewrite IH. cbn [app take]. do 4 f_equal.
    rewrite (last_cons t (scanned f t)). by destruct (last (scanned f t)).
  - by apply Hstuck.
Qed.

Lemma scanned_numbers vs : ∀ rest t,
  dry rest → scanned ((Num <$> vs) ++ rest) t = vs.
Proof.
  induction vs as [|v vs IH]; intros rest t Hrest.
  - by destruct rest as [|[]].
  - cbn [fmap list_fmap app scanned]. f_equal. by apply IH.
Qed.

Lemma scan_lines_shape n : ∀ f t,
  Forall (λ r, length r.1 = Z.to_nat ATTRIBUTES_PER_SAMPLE) (scan_lines n f t).1.
Proof.
  induction n as [|n IH]; intros f t; simpl; [done|].
  destruct (scan_line f t) as [[vs lbl] [f' t']] eqn:El. specialize (IH f' t').
  destruct (scan_lines n f' t') as [rows st]. simpl in *.
  apply Forall_cons. split; [|done]. by eapply scan_line_length.
Qed.

Lemma open_handles_open_close filename :
  open_handles [Fopen filename true; Fclose filename] = [].
Proof. unfold open_handles. simpl. by rewrite decide_True. Qed.

(** ** A file that ends after some complete lines *)

Lemma scan_lines_app a : ∀ b f t,
  scan_lines (a + b) f t =
    let '(rows1, (f1, t1)) := scan_lines a f t in
    let '(rows2, st) := scan_lines b f1 t1 in
    (rows1 ++ rows2, st).
Proof.
  induction a as [|a IH]; intros b f t; simpl.
  - by destruct (scan_lines b f t).
  - destruct (scan_line f t) as [row [f' t']]. rewrite IH.
    destruct (scan_lines a f' t') as [rows1 [f1 t1]].
    by destruct (scan_lines b f1 t1).
Qed.

Lemma scan_lines_encode_tmp rows : ∀ f t,
  Forall (λ r, length r.1 = Z.to_nat ATTRIBUTES_PER_SAMPLE) rows →
  scan_lines (length rows) (encode rows ++ f) t
  = (rows, (f, default t (last (snd <$> rows)))).
Proof.
  induction rows as [|r rows IH]; intros f t Hall; [done|].
  apply Forall_cons in Hall as [Hr Hall].
  change (scan_lines (length (r :: rows)) (encode (r :: rows) ++ f) t)
    with (let '(row, (f', tmp')) := scan_line ((encode_row r ++ encode rows) ++ f) t in
          let '(rows', st) := scan_lines (length rows) f' tmp' in (row :: rows', st)).
  rewrite <- app_assoc, scan_line_encode, IH by done.
  do 2 f_equal. rewrite fmap_cons, last_cons. by destruct (last (snd <$> rows)).
Qed.

Lemma loaded_truncated good rest n t :
  Forall (λ r, length r.1 = Z.to_nat ATTRIBUTES_PER_SAMPLE) good →
  dry rest → (length good ≤ Z.to_nat n)%nat →
  loaded (encode good ++ rest) n t
  = good ++ replicate (Z.to_nat n - length good)
              (let stale := default t (last (snd <$> good)) in
               (replicate (Z.to_nat ATTRIBUTES_PER_SAMPLE) stale, stale)).
Proof.
  intros Hgood Hrest Hlen. unfold loaded.
  replace (Z.to_nat n) with (length good + (Z.to_nat n - length good))%nat at 1 by lia.
  rewrite scan_lines_app, scan_lines_encode_tmp by done.
  by rewrite scan_lines_dry.
Qed.

Lemma main_events_loaded `{SvmBackend} fs ind argv1 argv2 content1 content2 :
  fs !! argv1 = Some content1 → fs !! argv2 = Some content2 →
  run_events (main fs ind argv1 argv2) =
    let training := loaded content1 NUMBER_OF_TRAINING_SAMPLES (ind_tmp_training ind) in
    [Fopen argv1 true; Fclose argv1; Fopen argv2 true; Fclose argv2;
     TrainAuto (fst <$> training) (column (snd <$> training)) initial_params 10].
Proof.
  intros Hfs1 Hfs2. rewrite (main_loaded _ _ _ _ content1 content2) by done.
  cbv zeta. unfold train_stage.
  change (USE_OPENCV_GRID_SEARCH_AUTOTRAIN =? 0) with false. cbv iota.
  by destruct (evaluate _ _ _ _ ≫= _).
Qed.

(** C5. For a file that holds exactly expected_rows lines, each with
    ATTRIBUTES_PER_SAMPLE features and an integer label between 1 and
    NUMBER_OF_CLASSES, and matrices allocated for expected_rows samples (as
    main allocates them): read_data_from_csv returns 1; the feature matrix
    has expected_rows rows of ATTRIBUTES_PER_SAMPLE columns, row i holding
    the features of line i in their order; row i of the label matrix holds
    the label of line i, an integer between 1 and NUMBER_OF_CLASSES; and the
    file that was opened has been closed. *)
Theorem read_data_from_csv_conforming (fs : gmap string (list item)) (filename : string)
    (rows : list (list spec_float * spec_float)) (data classes : Mat)
    (expected_rows : Z) (tmp0 : spec_float) :
  fs !! filename = Some (encode rows) →
  length rows = Z.to_nat expected_rows →
  Forall sample_ok rows →
  Mat_shape data (Z.to_nat expected_rows) (Z.to_nat ATTRIBUTES_PER_SAMPLE) →
  Mat_shape classes (Z.to_nat expected_rows) 1 →
  ∃ events data' classes',
    read_data_from_csv fs filename data classes expected_rows tmp0
    = (events, Some (1, data', classes'))
    ∧ Mat_shape data' (Z.to_nat expected_rows) (Z.to_nat ATTRIBUTES_PER_SAMPLE)
    ∧ Mat_shape classes' (Z.to_nat expected_rows) 1
    ∧ (∀ i r, rows !! i = Some r →
         data' !! i = Some r.1 ∧ classes' !! i = Some [r.2]
         ∧ ∀ j, Mat_at data' (Z.of_nat i) (Z.of_nat j) = r.1 !! j)
    ∧ Forall (λ c, ∃ n, 1 ≤ n ≤ NUMBER_OF_CLASSES ∧ c = [float_of_int n]) classes'
    ∧ events = [Fopen filename true; Fclose filename]
    ∧ open_handles events = [].
Proof.
  intros Hfs Hlen Hrows Hdata Hclasses.
  assert (Hwidth : Forall (λ r, length r.1 = Z.to_nat ATTRIBUTES_PER_SAMPLE) rows).
  { eapply Forall_impl; [exact Hrows|]. by intros r [? _]. }
  exists [Fopen filename true; Fclose filename], (fst <$> rows), (column (snd <$> rows)).
  rewrite (read_data_from_csv_open _ _ (encode rows)) by done. unfold loaded.
  rewrite <- Hlen, <- (app_nil_r (encode rows)), scan_lines_encode_tmp by done.
  cbn [fst snd]. split; [reflexivity|].
  split; [split; [by rewrite length_fmap|by apply Forall_fmap]|].
  split.
  { unfold column. split; [by rewrite !length_fmap|].
    rewrite <- list_fmap_compose. by apply Forall_fmap, Forall_true. }
  split.
  { intros i r Hr. unfold column. rewrite !list_lookup_fmap, Hr. simpl.
    repeat split. intros j. unfold Mat_at.
    destruct (Z.leb_spec 0 (Z.of_nat i)); [|lia].
    destruct (Z.leb_spec 0 (Z.of_nat j)); [|lia]. simpl.
    by rewrite !Nat2Z.id, list_lookup_fmap, Hr. }
  split.
  { unfold column. rewrite <- list_fmap_compose. apply Forall_fmap.
    eapply Forall_impl; [exact Hrows|]. intros [vs l] [_ (n & Hn & Heq)].
    simpl in *. subst l. eauto. }
  split; [reflexivity|apply open_handles_open_close].
Qed.

Lemma read_data_from_csv_conforming_witness :
  ∃ events data' classes',
    read_data_from_csv two_lines "two.csv"
      (Mat_create 2 ATTRIBUTES_PER_SAMPLE S754_nan) (Mat_create 2 1 S754_nan) 2 S754_nan
    = (events, Some (1, data', classes'))
    ∧ classes' !! 1%nat = Some [float_of_int 26]
    ∧ open_handles events = [].
Proof.
  destruct (read_data_from_csv_conforming two_lines "two.csv"
              [example_row 1; example_row 26]
              (Mat_create 2 ATTRIBUTES_PER_SAMPLE S754_nan) (Mat_create 2 1 S754_nan)
              2 S754_nan)
    as (events & data' & classes' & Hrun & _ & _ & Hcells & _ & _ & Hclosed).
  - apply lookup_singleton_eq.
  - reflexivity.
  - repeat constructor; (by exists 1) || (by exists 26).
  - apply Mat_create_shape.
  - apply (Mat_create_shape 2 1).
  - exists events, data', classes'. split; [exact Hrun|]. split; [|exact Hclosed].
    by destruct (Hcells 1%nat (example_row 26) eq_refl) as (_ & Hc & _).
Defined.

(** C4, as the code has it. For every file that can be opened, whatever it
    holds (in particular fewer lines than expected_rows), and matrices
    allocated for expected_rows samples: read_data_from_csv returns 1 and
    reports no error; all expected_rows rows are written; in scanning order
    the cells receive the values that the scans leave in [tmp] (each number
    of the file in turn, and the value before it once more where a failed
    conversion consumes the beginning of a number), and once the stream is
    at its end or stuck at a character that cannot begin a number every
    further cell receives the value scanned last (what [tmp] happened to
    hold, if nothing was scanned). In particular, for a file that holds the
    numbers [vs] and then ends, the cells are [vs] followed by copies of the
    last of them. *)
Theorem read_data_from_csv_truncated (fs : gmap string (list item)) (filename : string)
    (content : list item) (data classes : Mat)
    (expected_rows : Z) (tmp0 : spec_float) :
  fs !! filename = Some content →
  Mat_shape data (Z.to_nat expected_rows) (Z.to_nat ATTRIBUTES_PER_SAMPLE) →
  Mat_shape classes (Z.to_nat expected_rows) 1 →
  ∃ rows,
    read_data_from_csv fs filename data classes expected_rows tmp0
    = ([Fopen filename true; Fclose filename],
       Some (1, fst <$> rows, column (snd <$> rows)))
    ∧ length rows = Z.to_nat expected_rows
    ∧ Forall (λ r, length r.1 = Z.to_nat ATTRIBUTES_PER_SAMPLE) rows
    ∧ let total := (Z.to_nat expected_rows * S (Z.to_nat ATTRIBUTES_PER_SAMPLE))%nat in
      (let vs := scanned content tmp0 in
       cells rows
       = take total (vs ++ replicate (total - length vs) (default tmp0 (last vs))))
      ∧ ∀ vs rest, content = (Num <$> vs) ++ rest → dry rest →
          cells rows
          = take total (vs ++ replicate (total - length vs) (default tmp0 (last vs))).
Proof.
  intros Hfs Hdata Hclasses.
  exists (loaded content expected_rows tmp0).
  split; [by apply read_data_from_csv_open|].
  split; [apply scan_lines_length|]. split; [apply scan_lines_shape|].
  cbv zeta. unfold loaded. rewrite (proj1 (cells_scan_lines _ _ _)).
  split; [apply scan_values_scanned|].
  intros vs rest -> Hrest. by apply scan_values_numbers.
Qed.

Lemma read_data_from_csv_truncated_witness :
  ∃ rows,
    read_data_from_csv truncated_files "train.csv"
      (Mat_create 3 ATTRIBUTES_PER_SAMPLE S754_nan) (Mat_create 3 1 S754_nan) 3 S754_nan
    = ([Fopen "train.csv" true; Fclose "train.csv"],
       Some (1, fst <$> rows, column (snd <$> rows)))
    ∧ length rows = 3%nat.
Proof.
  destruct (read_data_from_csv_truncated truncated_files "train.csv"
              (encode [example_row 3])
              (Mat_create 3 ATTRIBUTES_PER_SAMPLE S754_nan) (Mat_create 3 1 S754_nan)
              3 S754_nan)
    as (rows & Hrun & Hlen & _).
  - vm_compute. reflexivity.
  - apply Mat_create_shape.
  - apply (Mat_create_shape 3 1).
  - exists rows. split; [exact Hrun|exact Hlen].
Defined.

(** C4, as the specification states it, fails: a training file that ends
    after its first line is read with return value 1, the remaining 6237
    rows are filled with the last value scanned, and main trains on the
    result. *)
Lemma truncated_training_file_accepted :
  let H := constant_backend (float_of_int 3) in
  let ind := example_ind S754_nan in
  let stale := (replicate (Z.to_nat ATTRIBUTES_PER_SAMPLE) (float_of_int 3), float_of_int 3) in
  let rows := [example_row 3]
              ++ replicate (Z.to_nat NUMBER_OF_TRAINING_SAMPLES - 1) stale in
  read_data_from_csv truncated_files "train.csv"
    (Mat_create NUMBER_OF_TRAINING_SAMPLES ATTRIBUTES_PER_SAMPLE (ind_cell ind))
    (Mat_create NUMBER_OF_TRAINING_SAMPLES 1 (ind_cell ind))
    NUMBER_OF_TRAINING_SAMPLES (ind_tmp_training ind)
  = ([Fopen "train.csv" true; Fclose "train.csv"],
     Some (1, fst <$> rows, column (snd <$> rows)))
  ∧ TrainAuto (fst <$> rows) (column (snd <$> rows)) initial_params 10
    ∈ run_events (main truncated_files ind "train.csv" "test.csv").
Proof.
  intros H ind stale rows.
  assert (Htrain : truncated_files !! "train.csv" = Some (encode [example_row 3] ++ []))
    by (vm_compute; reflexivity).
  assert (Htest : truncated_files !! "test.csv" = Some (encode [example_row 3] ++ []))
    by (vm_compute; reflexivity).
  assert (Hrows : loaded (encode [example_row 3] ++ []) NUMBER_OF_TRAINING_SAMPLES
                    (ind_tmp_training ind) = rows).
  { rewrite loaded_truncated;
      [ | apply Forall_cons; split; [reflexivity|apply Forall_nil_2] | exact I
        | apply Nat.leb_le; vm_compute; reflexivity ].
    unfold rows, stale. do 2 f_equal. }
  split.
  - rewrite (read_data_from_csv_open _ _ _ _ _ _ _ Htrain)
      by apply Mat_create_shape.
    rewrite Hrows. reflexivity.
  - pose proof (main_events_loaded truncated_files ind "train.csv" "test.csv"
                  _ _ Htrain Htest) as Hev.
    cbv zeta in Hev. rewrite Hrows in Hev. rewrite Hev.
    do 4 apply list_elem_of_further. apply list_elem_of_here.
Qed.

(** ** The summary *)

Lemma print_classes_loop (class_labels counters : list Z) :
  length class_labels = Z.to_nat NUMBER_OF_CLASSES →
  length counters = Z.to_nat NUMBER_OF_CLASSES →
  ∃ lines,
    for_loop 0 NUMBER_OF_CLASSES (print_class class_labels counters) [] = Some lines
    ∧ cl_label <$> lines = class_labels
    ∧ cl_false_positives <$> lines = counters
    ∧ Forall (λ l, cl_percentage l = percentage (cl_false_positives l)) lines.
Proof.
  intros Hcl Hfp.
  destruct (for_loop_inv
    (λ j out, cl_label <$> out = take (Z.to_nat j) class_labels
              ∧ cl_false_positives <$> out = take (Z.to_nat j) counters
              ∧ Forall (λ l, cl_percentage l = percentage (cl_false_positives l)) out)
    (print_class class_labels counters) 0 NUMBER_OF_CLASSES [])
    as (lines & Hrun & Hl & Hc & Hp); [done|done| |].
  - intros j out Hj (Hl & Hc & Hp). unfold print_class.
    destruct (lookup_lt_is_Some_2 class_labels (Z.to_nat j)) as [c Hcj]; [lia|].
    destruct (lookup_lt_is_Some_2 counters (Z.to_nat j)) as [n Hnj]; [lia|].
    rewrite Hcj, Hnj. simpl. eexists. split; [done|].
    replace (Z.to_nat (j + 1)) with (S (Z.to_nat j)) by lia.
    rewrite !fmap_app, Hl, Hc, (take_S_r _ _ c), (take_S_r _ _ n) by done.
    repeat split. apply Forall_app. split; [done|]. by apply Forall_singleton.
  - exists lines. rewrite Hl, Hc, !take_ge by lia. done.
Qed.

Lemma summarize_Some params support_vectors acc class_labels :
  length class_labels = Z.to_nat NUMBER_OF_CLASSES →
  length (false_positives acc) = Z.to_nat NUMBER_OF_CLASSES →
  ∃ lines,
    summarize params support_vectors acc class_labels
    = Some {| rep_params := params;
              rep_support_vectors := support_vectors;
              rep_correct := correct_class acc;
              rep_correct_pct := percentage (correct_class acc);
              rep_wrong := wrong_class acc;
              rep_wrong_pct := percentage (wrong_class acc);
              rep_classes := lines |}
    ∧ cl_label <$> lines = class_labels
    ∧ cl_false_positives <$> lines = false_positives acc
    ∧ Forall (λ l, cl_percentage l = percentage (cl_false_positives l)) lines.
Proof.
  intros Hcl Hfp.
  destruct (print_classes_loop class_labels (false_positives acc) Hcl Hfp)
    as (lines & Hrun & Hl). unfold summarize. rewrite Hrun. by exists lines.
Qed.

(** Labels that are integers between 1 and NUMBER_OF_CLASSES. *)
Lemma labels_of_floats (ls : list spec_float) :
  Forall (λ l, ∃ n, 1 ≤ n ≤ NUMBER_OF_CLASSES ∧ l = float_of_int n) ls →
  ∃ ns, ls = float_of_int <$> ns ∧ Forall (λ n, 1 ≤ n ≤ NUMBER_OF_CLASSES) ns.
Proof.
  induction 1 as [|l ls (n & Hn & ->) _ (ns & -> & Hns)].
  - by exists [].
  - exists (n :: ns). split; [done|]. by apply Forall_cons.
Qed.

Lemma evaluate_completes `{SvmBackend} svm (testing : list (list spec_float * spec_float)) ind :
  length testing = Z.to_nat NUMBER_OF_TESTING_SAMPLES →
  Forall (λ s, ∃ n, 1 ≤ n ≤ NUMBER_OF_CLASSES ∧ s.2 = float_of_int n) testing →
  ∃ acc,
    evaluate svm (fst <$> testing) (column (snd <$> testing)) ind
    = Some (acc, seqZ 65 NUMBER_OF_CLASSES)
    ∧ counts_inv NUMBER_OF_TESTING_SAMPLES acc.
Proof.
  intros Hlen Hlabels.
  destruct (labels_of_floats (snd <$> testing)) as (ns & Hns & Hrange).
  { by apply Forall_fmap. }
  destruct (test_loop_inv svm (fst <$> testing) ns) with
      (k := NUMBER_OF_TESTING_SAMPLES)
      (fp := replicate (Z.to_nat NUMBER_OF_CLASSES) 0) as (acc & Hacc & Hinv);
    [by rewrite length_fmap| |done|done|done|].
  { rewrite <- Hlen, <- (length_fmap snd testing), Hns. by rewrite length_fmap. }
  exists acc. split; [|done]. by rewrite evaluate_loops, Hns, Hacc.
Qed.

Lemma main_outcome_loaded `{SvmBackend} fs ind argv1 argv2 content1 content2 :
  fs !! argv1 = Some content1 → fs !! argv2 = Some content2 →
  let r := main fs ind argv1 argv2 in
  ((run_exit r = Some 0 ∧ is_Some (run_report r))
   ∨ (run_exit r = None ∧ run_report r = None))
  ∧ (Forall (λ s, ∃ n, 1 ≤ n ≤ NUMBER_OF_CLASSES ∧ s.2 = float_of_int n)
       (loaded content2 NUMBER_OF_TESTING_SAMPLES (ind_tmp_testing ind)) →
     run_exit r = Some 0).
Proof.
  intros Hfs1 Hfs2 r. unfold r.
  rewrite (main_loaded _ _ _ _ content1 content2) by done. cbv zeta.
  destruct (train_stage _ _) as [[ev3 svm] params]. split.
  - destruct (evaluate _ _ _ _ ≫= _); [left|right]; done.
  - intros Hlabels.
    destruct (evaluate_completes svm
                (loaded content2 NUMBER_OF_TESTING_SAMPLES (ind_tmp_testing ind)) ind)
      as (acc & -> & Hinv); [apply scan_lines_length|done|].
    simpl.
    destruct (summarize_Some params (get_support_vector_count svm) acc
                (seqZ 65 NUMBER_OF_CLASSES)) as (lines & -> & _); [done| |done].
    by destruct Hinv as (_ & _ & _ & _ & ? & _).
Qed.

(** C3. Whatever the two paths are: if both files can be opened, main
    returns 0 with a report whenever the evaluation completes (it does when
    the labels read from the testing file are integers between 1 and
    NUMBER_OF_CLASSES; otherwise the run may end in the undefined
    out-of-bounds write); if either file cannot be opened, main returns -1,
    reports nothing and no training call is made, and read_data_from_csv
    returns 0 for that file, leaving the matrices as they were. *)
Theorem main_exit_code `{SvmBackend} (fs : gmap string (list item)) (ind : indeterminate)
    (argv1 argv2 : string) :
  let r := main fs ind argv1 argv2 in
  match fs !! argv1, fs !! argv2 with
  | Some _, Some testing =>
      ((run_exit r = Some 0 ∧ is_Some (run_report r))
       ∨ (run_exit r = None ∧ run_report r = None))
      ∧ (Forall (λ s, ∃ n, 1 ≤ n ≤ NUMBER_OF_CLASSES ∧ s.2 = float_of_int n)
           (loaded testing NUMBER_OF_TESTING_SAMPLES (ind_tmp_testing ind)) →
         run_exit r = Some 0)
  | Some _, None =>
      run_exit r = Some (-1) ∧ run_report r = None
      ∧ Forall (λ e, is_training e = false) (run_events r)
      ∧ ∀ data classes n tmp,
          (read_data_from_csv fs argv2 data classes n tmp).2 = Some (0, data, classes)
  | None, _ =>
      run_exit r = Some (-1) ∧ run_report r = None
      ∧ Forall (λ e, is_training e = false) (run_events r)
      ∧ ∀ data classes n tmp,
          (read_data_from_csv fs argv1 data classes n tmp).2 = Some (0, data, classes)
  end.
Proof.
  intros r. unfold r.
  destruct (fs !! argv1) as [content1|] eqn:Hfs1;
    [destruct (fs !! argv2) as [content2|] eqn:Hfs2|].
  - by apply (main_outcome_loaded _ _ _ _ content1 content2).
  - rewrite (main_testing_missing _ _ _ _ content1) by done. simpl.
    repeat split; [by repeat constructor|].
    intros data classes n tmp. by rewrite read_data_from_csv_missing.
  - rewrite main_training_missing by done. simpl.
    repeat split; [by repeat constructor|].
    intros data classes n tmp. by rewrite read_data_from_csv_missing.
Qed.

(** C10. If the training file cannot be opened, the run consists of the
    failed fopen of the training file and its error message: the testing
    file is not opened (whether it exists or not), nothing is trained or
    evaluated, and main returns -1. *)
Theorem main_short_circuit `{SvmBackend} (fs : gmap string (list item))
    (ind : indeterminate) (argv1 argv2 : string) :
  fs !! argv1 = None →
  let r := main fs ind argv1 argv2 in
  run_events r = [Fopen argv1 false; CannotRead argv1]
  ∧ (argv1 ≠ argv2 → ∀ ok, Fopen argv2 ok ∉ run_events r)
  ∧ Forall (λ e, is_training e = false) (run_events r)
  ∧ run_report r = None
  ∧ run_exit r = Some (-1).
Proof.
  intros Hfs r. unfold r. rewrite main_training_missing by done. simpl.
  split; [done|]. split; [|split; [by repeat constructor|done]].
  intros Hne ok Hin. apply elem_of_cons in Hin as [Heq|Hin].
  - by inversion Heq.
  - apply list_elem_of_singleton in Hin. discriminate.
Qed.

Lemma main_short_circuit_witness :
  let H := constant_backend (float_of_int 3) in
  let r := main testing_file_only (example_ind S754_nan) "train.csv" "test.csv" in
  run_events r = [Fopen "train.csv" false; CannotRead "train.csv"]
  ∧ run_exit r = Some (-1).
Proof.
  intros H r.
  destruct (main_short_circuit testing_file_only (example_ind S754_nan)
              "train.csv" "test.csv") as (Hev & _ & _ & _ & Hexit).
  - vm_compute. reflexivity.
  - split; [exact Hev|exact Hexit].
Defined.

(** ** Percentages *)

Lemma for_loop_post {St : Type} (Inv : Z → St → Prop) (body : Z → St → option St)
    lo hi s s' :
  lo ≤ hi → Inv lo s →
  (∀ j t t', lo ≤ j < hi → Inv j t → body j t = Some t' → Inv (j + 1) t') →
  for_loop lo hi body s = Some s' → Inv hi s'.
Proof.
  intros Hle H0 Hstep. unfold for_loop.
  assert (Hgen : ∀ n i t, lo ≤ i → i + Z.of_nat n ≤ hi → Inv i t →
            for_iter n i body t = Some s' → Inv (i + Z.of_nat n) s').
  { induction n as [|n IH]; intros i t Hi Hn Ht; simpl.
    - intros [= <-]. by rewrite Z.add_0_r.
    - destruct (body i t) as [t'|] eqn:Hb; simpl; [|done]. intros Hrun.
      replace (i + Z.of_nat (S n)) with (i + 1 + Z.of_nat n) by lia.
      apply (IH (i + 1) t'); [lia|lia| |done]. apply (Hstep i t); [lia|done|done]. }
  intros Hrun.
  replace hi with (lo + Z.of_nat (Z.to_nat (hi - lo))) by lia.
  apply (Hgen _ lo s); [lia|lia|done|done].
Qed.

Lemma percentage_checked c :
  0 ≤ c ≤ NUMBER_OF_TESTING_SAMPLES → percentage_check c = true.
Proof.
  unfold NUMBER_OF_TESTING_SAMPLES. intros Hc.
  apply (forallb_seqZ percentage_check 0 1560); [by vm_compute|lia].
Qed.

Lemma percentage_Q_sum c w :
  c + w = NUMBER_OF_TESTING_SAMPLES →
  (percentage_Q c + percentage_Q w == 100)%Q.
Proof.
  intros Hsum. unfold percentage_Q.
  replace w with (NUMBER_OF_TESTING_SAMPLES - c) by lia.
  unfold NUMBER_OF_TESTING_SAMPLES. unfold Qeq, Qplus, Qmult, Qdiv, Qinv, inject_Z.
  simpl. lia.
Qed.

Lemma class_lines_zip (lines : list class_line) : ∀ (labels counters : list Z),
  cl_label <$> lines = labels →
  cl_false_positives <$> lines = counters →
  Forall (λ l, cl_percentage l = percentage (cl_false_positives l)) lines →
  lines = zip_with (λ c n, {| cl_label := c; cl_false_positives := n;
                              cl_percentage := percentage n |}) labels counters.
Proof.
  induction lines as [|[c n p] lines IH]; intros labels counters <- <- Hp; [done|].
  apply Forall_cons in Hp as [Hp Hps]. cbn in Hp. subst p.
  cbn [fmap list_fmap zip_with cl_label cl_false_positives]. f_equal.
  by apply IH.
Qed.

(** C6. The summary that main prints from the counts, the 26 counters and
    the 26 class letters: the percentage next to the correct count and to
    the wrong count is [(double) count * 100 / NUMBER_OF_TESTING_SAMPLES];
    there is one line per class, and line i shows letter i, counter i of
    false_positives and [(double) counter * 100 / NUMBER_OF_TESTING_SAMPLES]
    of this counter. When the two counts are non-negative and add up to the
    number of test samples (as they do after the evaluation): over the
    rationals the two quotients add up to exactly 100; each double is within
    2^-47 of its exact quotient, the two doubles add up to 100 within 2^-47,
    and added in double arithmetic they give 100.0. *)
Theorem summarize_percentages (params : option CvSVMParams) (support_vectors : Z)
    (acc : accumulator) (class_labels : list Z) :
  length class_labels = Z.to_nat NUMBER_OF_CLASSES →
  length (false_positives acc) = Z.to_nat NUMBER_OF_CLASSES →
  0 ≤ correct_class acc → 0 ≤ wrong_class acc →
  correct_class acc + wrong_class acc = NUMBER_OF_TESTING_SAMPLES →
  ∃ rep,
    summarize params support_vectors acc class_labels = Some rep
    ∧ rep_correct rep = correct_class acc ∧ rep_wrong rep = wrong_class acc
    ∧ rep_correct_pct rep = percentage (rep_correct rep)
    ∧ rep_wrong_pct rep = percentage (rep_wrong rep)
    ∧ length (rep_classes rep) = Z.to_nat NUMBER_OF_CLASSES
    ∧ rep_classes rep
      = zip_with (λ c n, {| cl_label := c; cl_false_positives := n;
                            cl_percentage := percentage n |})
                 class_labels (false_positives acc)
    ∧ Forall (λ l, cl_percentage l = percentage (cl_false_positives l)) (rep_classes rep)
    ∧ (percentage_Q (rep_correct rep) + percentage_Q (rep_wrong rep) == 100)%Q
    ∧ (∃ pc pw,
         SF2Q (rep_correct_pct rep) = Some pc ∧ SF2Q (rep_wrong_pct rep) = Some pw
         ∧ (Qabs (pc - percentage_Q (rep_correct rep)) <= 1 # 2 ^ 47)%Q
         ∧ (Qabs (pw - percentage_Q (rep_wrong rep)) <= 1 # 2 ^ 47)%Q
         ∧ (Qabs (pc + pw - 100) <= 1 # 2 ^ 47)%Q)
    ∧ SFadd dbl_prec dbl_emax (rep_correct_pct rep) (rep_wrong_pct rep) = double_of_int 100.
Proof.
  intros Hcl Hfp Hc Hw Hsum.
  destruct (summarize_Some params support_vectors acc class_labels Hcl Hfp)
    as (lines & Hrep & Hl & Hn & Hp).
  eexists. split; [exact Hrep|].
  cbn [rep_correct rep_wrong rep_correct_pct rep_wrong_pct rep_classes].
  split; [done|]. split; [done|]. split; [done|]. split; [done|].
  split; [by rewrite <- Hcl, <- Hl, length_fmap|].
  split; [by apply class_lines_zip|]. split; [done|].
  split; [by apply percentage_Q_sum|].
  pose proof (percentage_checked (correct_class acc) ltac:(lia)) as Hcheck.
  unfold percentage_check in Hcheck.
  replace (NUMBER_OF_TESTING_SAMPLES - correct_class acc) with (wrong_class acc)
    in Hcheck by lia.
  destruct (SF2Q (percentage (correct_class acc))) as [pc|]; [|done].
  destruct (SF2Q (percentage (wrong_class acc))) as [pw|]; [|done].
  apply andb_prop in Hcheck as [Hcheck Hadd].
  apply andb_prop in Hcheck as [Hcheck Hboth].
  apply andb_prop in Hcheck as [Hpc Hpw].
  split.
  - exists pc, pw. repeat split; try done; by apply Qle_bool_iff.
  - by apply bool_decide_eq_true in Hadd.
Qed.

Lemma summarize_percentages_witness :
  let acc := {| correct_class := 1000; wrong_class := 559;
                false_positives := <[2%nat := 559]> (replicate 26 0) |} in
  ∃ rep,
    summarize None 0 acc (seqZ 65 26) = Some rep
    ∧ rep_correct_pct rep = percentage 1000
    ∧ rep_classes rep !! 2%nat
      = Some {| cl_label := 67; cl_false_positives := 559;
                cl_percentage := percentage 559 |}
    ∧ SFadd dbl_prec dbl_emax (rep_correct_pct rep) (rep_wrong_pct rep) = double_of_int 100.
Proof.
  intros acc.
  destruct (summarize_percentages None 0 acc (seqZ 65 26))
    as (rep & Hrep & Hc & _ & Hpc & _ & _ & Hlines & _ & _ & _ & Hadd).
  - reflexivity.
  - reflexivity.
  - simpl. lia.
  - simpl. lia.
  - reflexivity.
  - exists rep. split; [exact Hrep|]. split; [by rewrite Hpc, Hc|].
    split; [by rewrite Hlines|exact Hadd].
Defined.

(** ** Grid search *)

Lemma better_spec (score : spec_float → Q) (c0 c1 : spec_float) :
  (better score c0 c1 = c0 ∨ better score c0 c1 = c1)
  ∧ (score (better score c0 c1) <= score c0)%Q
  ∧ (score (better score c0 c1) <= score c1)%Q.
Proof.
  unfold better. destruct (Qlt_le_dec (score c1) (score c0)).
  - split; [by right|]. split; [by apply Qlt_le_weak|apply Qle_refl].
  - split; [by left|]. split; [apply Qle_refl|done].
Qed.

Lemma foldl_better (score : spec_float → Q) (cs : list spec_float) : ∀ c0,
  let winner := foldl (better score) c0 cs in
  winner ∈ c0 :: cs ∧ ∀ c, c ∈ c0 :: cs → (score winner <= score c)%Q.
Proof.
  induction cs as [|c1 cs IH]; intros c0; simpl.
  - split; [apply list_elem_of_here|].
    intros c Hc. apply list_elem_of_singleton in Hc as ->. apply Qle_refl.
  - destruct (IH (better score c0 c1)) as [Hin Hmin].
    destruct (better_spec score c0 c1) as (Hb & Hb0 & Hb1).
    pose proof (Hmin (better score c0 c1) ltac:(apply list_elem_of_here)) as Hwb.
    split.
    + apply elem_of_cons in Hin as [Hw|Hin].
      * rewrite Hw. destruct Hb as [->| ->].
        -- apply list_elem_of_here.
        -- apply list_elem_of_further, list_elem_of_here.
      * by do 2 apply list_elem_of_further.
    + intros c Hc.
      apply elem_of_cons in Hc as [->|Hc]; [by eapply Qle_trans|].
      apply elem_of_cons in Hc as [->|Hc]; [by eapply Qle_trans|].
      apply Hmin. by apply list_elem_of_further.
Qed.

Lemma train_stage_calls `{SvmBackend} (training_data training_classifications : Mat) :
  train_stage training_data training_classifications
  = (let svm := train_auto training_data training_classifications initial_params 10 in
     ([TrainAuto training_data training_classifications initial_params 10],
      svm, Some (get_params svm))).
Proof. reflexivity. Qed.

(** C7. With grid search active (USE_OPENCV_GRID_SEARCH_AUTOTRAIN = 1) and
    the trainer of the specification behind the interface: main makes one
    training call, a cross-validated search with k = 10 folds, started from
    the LINEAR kernel and C = 10; the search varies C only, so the kernel and
    every other parameter of the effective configuration are the initial
    ones; C is the grid value of lowest cross-validated error (the initial
    C when the grid is empty); the parameters printed are those read back
    from the trained model; and the support-vector count of the model is not
    negative. *)
Theorem train_stage_grid_search
    (optimize : Mat → Mat → CvSVMParams →
                list (list spec_float) * (list spec_float → spec_float))
    (C_grid : list spec_float) (training_data training_classifications : Mat) :
  let backend := spec_backend optimize C_grid in
  let score c :=
    cv_error optimize 10 training_data training_classifications (with_C initial_params c) in
  let '(events, svm, printed) :=
    @train_stage backend training_data training_classifications in
  events = [TrainAuto training_data training_classifications initial_params 10]
  ∧ USE_OPENCV_GRID_SEARCH_AUTOTRAIN ≠ 0
  ∧ svm = grid_search optimize C_grid training_data training_classifications
            initial_params 10
  ∧ printed = Some (@get_params backend svm)
  ∧ p_kernel_type (@get_params backend svm) = LINEAR
  ∧ @get_params backend svm = with_C initial_params (p_C (@get_params backend svm))
  ∧ match C_grid with
    | [] => p_C (@get_params backend svm) = p_C initial_params
    | _ => p_C (@get_params backend svm) ∈ C_grid
           ∧ ∀ c, c ∈ C_grid → (score (p_C (@get_params backend svm)) <= score c)%Q
    end
  ∧ 0 ≤ @get_support_vector_count backend svm.
Proof.
  intros backend score. rewrite train_stage_calls. cbv zeta.
  split; [done|]. split; [done|]. split; [done|]. split; [done|].
  assert (Hcfg : ∀ config,
            tm_config (fit optimize training_data training_classifications config) = config).
  { intros config. unfold fit. by destruct (optimize _ _ _). }
  change (@get_params backend) with tm_config.
  change (@train_auto backend training_data training_classifications initial_params 10)
    with (grid_search optimize C_grid training_data training_classifications
            initial_params 10).
  unfold grid_search.
  destruct C_grid as [|c0 cs].
  - rewrite Hcfg. repeat split. simpl. lia.
  - rewrite Hcfg. cbn [p_C p_kernel_type with_C initial_params].
    split; [done|]. split; [done|]. split; [|simpl; lia].
    apply (foldl_better score cs c0).
Qed.

(** ** Runs that differ only in what uninitialised memory held *)

Lemma loaded_tmp content n t1 t2 :
  (∃ v rest, content = Num v :: rest) →
  loaded content n t1 = loaded content n t2.
Proof. intros (v & rest & ->). apply scan_lines_tmp. Qed.

Lemma for_iter_ext {St : Type} (body1 body2 : Z → St → option St) n :
  (∀ i s, body1 i s = body2 i s) →
  ∀ i s, for_iter n i body1 s = for_iter n i body2 s.
Proof.
  intros Hext. induction n as [|n IH]; intros i s; simpl; [done|].
  rewrite Hext. destruct (body2 i s); simpl; [apply IH|done].
Qed.

Lemma evaluate_predictions `{SvmBackend} svm1 svm2 testing_data testing_classifications
    ind1 ind2 :
  (∀ row, predict svm1 row = predict svm2 row) →
  evaluate svm1 testing_data testing_classifications ind1
  = evaluate svm2 testing_data testing_classifications ind2.
Proof.
  intros Hpredict. rewrite !evaluate_loops. unfold for_loop.
  rewrite (for_iter_ext (test_one svm1 testing_data testing_classifications)
                        (test_one svm2 testing_data testing_classifications)); [done|].
  intros i s. unfold test_one. destruct (Mat_row testing_data i); simpl; [|done].
  by rewrite Hpredict.
Qed.

(** C8, as the code has it. Two runs on the same files, each of which either
    cannot be opened or begins with a number (so that [tmp] is assigned
    before it is first copied into a matrix), with the same deterministic
    classifier behind the interface, are the same run whatever the
    uninitialised memory held: same events, same exit code, same report, and
    so the same counts. A prediction is the value of [predict] on the trained
    model and the features of the sample: the evaluation depends on the model
    only through these values. *)
Theorem main_deterministic `{SvmBackend} (fs : gmap string (list item))
    (ind1 ind2 : indeterminate) (argv1 argv2 : string) :
  opens_on_number fs argv1 →
  opens_on_number fs argv2 →
  main fs ind1 argv1 argv2 = main fs ind2 argv1 argv2
  ∧ counts (main fs ind1 argv1 argv2) = counts (main fs ind2 argv1 argv2)
  ∧ ∀ svm1 svm2 testing_data testing_classifications,
      (∀ row, predict svm1 row = predict svm2 row) →
      evaluate svm1 testing_data testing_classifications ind1
      = evaluate svm2 testing_data testing_classifications ind2.
Proof.
  unfold opens_on_number. intros H1 H2.
  assert (Hmain : main fs ind1 argv1 argv2 = main fs ind2 argv1 argv2).
  { destruct (fs !! argv1) as [content1|] eqn:Hfs1;
      [|by rewrite !main_training_missing].
    destruct (fs !! argv2) as [content2|] eqn:Hfs2;
      [|by rewrite !(main_testing_missing _ _ _ _ content1)].
    rewrite !(main_loaded _ _ _ _ content1 content2) by done. cbv zeta.
    rewrite (loaded_tmp content1 _ (ind_tmp_training ind1) (ind_tmp_training ind2)),
            (loaded_tmp content2 _ (ind_tmp_testing ind1) (ind_tmp_testing ind2)).
    - destruct (train_stage _ _) as [[ev3 svm] params].
      by rewrite (evaluate_predictions svm svm _ _ ind1 ind2).
    - destruct content2 as [|[v| |] rest]; try done. by exists v, rest.
    - destruct content1 as [|[v| |] rest]; try done. by exists v, rest. }
  split; [done|]. split; [by rewrite Hmain|].
  intros. by apply evaluate_predictions.
Qed.

Lemma main_deterministic_witness :
  let H := constant_backend (float_of_int 1) in
  main truncated_files (example_ind (float_of_int 1)) "train.csv" "test.csv"
  = main truncated_files (example_ind (float_of_int 2)) "train.csv" "test.csv".
Proof.
  intros H.
  refine (proj1 (main_deterministic truncated_files (example_ind (float_of_int 1))
                   (example_ind (float_of_int 2)) "train.csv" "test.csv" _ _)).
  - vm_compute. exact I.
  - vm_compute. exact I.
Defined.

Lemma main_empty_files `{SvmBackend} tmp :
  main empty_files (example_ind tmp) "train.csv" "test.csv" =
    let training :=
      replicate (Z.to_nat NUMBER_OF_TRAINING_SAMPLES)
        (replicate (Z.to_nat ATTRIBUTES_PER_SAMPLE) tmp, tmp) in
    let testing :=
      replicate (Z.to_nat NUMBER_OF_TESTING_SAMPLES)
        (replicate (Z.to_nat ATTRIBUTES_PER_SAMPLE) tmp, tmp) in
    let files := [Fopen "train.csv" true; Fclose "train.csv";
                  Fopen "test.csv" true; Fclose "test.csv"] in
    let '(ev3, svm, params) :=
      train_stage (fst <$> training) (column (snd <$> training)) in
    match evaluate svm (fst <$> testing) (column (snd <$> testing)) (example_ind tmp)
            ≫= λ '(acc, class_labels),
                summarize params (get_support_vector_count svm) acc class_labels with
    | None => undefined_run (files ++ ev3)
    | Some rep =>
        {| run_events := files ++ ev3; run_exit := Some 0; run_report := Some rep |}
    end.
Proof.
  rewrite (main_loaded _ _ _ _ [] []) by (vm_compute; reflexivity).
  unfold loaded. by rewrite !scan_lines_dry.
Qed.

(** C8, as the specification states it, fails: on a training file and a
    testing file that are both empty, the labels compared with the
    predictions are what [tmp] happened to hold, and two runs in which it
    held 1 and 2 report different counts for a classifier that always
    answers 1. *)
Lemma runs_on_empty_files_differ :
  let H := constant_backend (float_of_int 1) in
  let run1 := main empty_files (example_ind (float_of_int 1)) "train.csv" "test.csv" in
  let run2 := main empty_files (example_ind (float_of_int 2)) "train.csv" "test.csv" in
  counts run1 = Some (1559, 0, replicate 26 0)
  ∧ counts run2 = Some (0, 1559, <[1%nat := 1559]> (replicate 26 0))
  ∧ counts run1 ≠ counts run2.
Proof.
  intros H run1 run2.
  assert (H1 : counts run1 = Some (1559, 0, replicate 26 0)).
  { unfold run1. rewrite main_empty_files. vm_compute. reflexivity. }
  assert (H2 : counts run2 = Some (0, 1559, <[1%nat := 1559]> (replicate 26 0))).
  { unfold run2. rewrite main_empty_files. vm_compute. reflexivity. }
  split; [exact H1|]. split; [exact H2|]. rewrite H1, H2. discriminate.
Qed.

(** * Further properties of read_data_from_csv *)

(** X1. Only the first n_samples lines of a file are read: when the file
    begins with n_samples complete lines, the matrices receive exactly these
    lines, whatever follows them in the file, whatever values the labels have
    and whatever [tmp] held. *)
Theorem read_data_from_csv_ignores_rest (fs : gmap string (list item)) (filename : string)
    (rows : list (list spec_float * spec_float)) (extra : list item)
    (data classes : Mat) (n_samples : Z) (tmp0 : spec_float) :
  fs !! filename = Some (encode rows ++ extra) →
  length rows = Z.to_nat n_samples →
  Forall (λ r, length r.1 = Z.to_nat ATTRIBUTES_PER_SAMPLE) rows →
  Mat_shape data (Z.to_nat n_samples) (Z.to_nat ATTRIBUTES_PER_SAMPLE) →
  Mat_shape classes (Z.to_nat n_samples) 1 →
  read_data_from_csv fs filename data classes n_samples tmp0
  = ([Fopen filename true; Fclose filename],
     Some (1, fst <$> rows, column (snd <$> rows))).
Proof.
  intros Hfs Hlen Hrows Hdata Hclasses.
  rewrite (read_data_from_csv_open _ _ (encode rows ++ extra)) by done.
  unfold loaded. by rewrite <- Hlen, scan_lines_encode_tmp.
Qed.

Lemma read_data_from_csv_ignores_rest_witness :
  read_data_from_csv
    {[ "long.csv"%string := encode [example_row 1; example_row 26] ++ [Junk; Num S754_nan] ]}
    "long.csv" (Mat_create 2 ATTRIBUTES_PER_SAMPLE S754_nan) (Mat_create 2 1 S754_nan)
    2 S754_nan
  = ([Fopen "long.csv" true; Fclose "long.csv"],
     Some (1, fst <$> [example_row 1; example_row 26],
              column (snd <$> [example_row 1; example_row 26]))).
Proof.
  apply read_data_from_csv_ignores_rest with (extra := [Junk; Num S754_nan]).
  - apply lookup_singleton_eq.
  - reflexivity.
  - repeat constructor.
  - apply Mat_create_shape.
  - apply (Mat_create_shape 2 1).
Defined.

(** X2. The call writes the first n_samples rows of the two matrices and no
    other row: with matrices of at least n_samples rows, the rows from
    n_samples on are left as they were, and the first n_samples rows hold
    what was scanned, whatever they held before. With n_samples <= 0 nothing
    is written. *)
Theorem read_data_from_csv_frame (fs : gmap string (list item)) (filename : string)
    (content : list item) (data classes : Mat) (n_samples : Z) (tmp0 : spec_float) :
  fs !! filename = Some content →
  (Z.to_nat n_samples ≤ length data)%nat →
  (Z.to_nat n_samples ≤ length classes)%nat →
  Forall (λ r, length r = Z.to_nat ATTRIBUTES_PER_SAMPLE) data →
  Forall (λ r, length r = 1%nat) classes →
  read_data_from_csv fs filename data classes n_samples tmp0
  = ([Fopen filename true; Fclose filename],
     Some (1,
           (fst <$> loaded content n_samples tmp0) ++ drop (Z.to_nat n_samples) data,
           column (snd <$> loaded content n_samples tmp0)
             ++ drop (Z.to_nat n_samples) classes)).
Proof.
  intros Hfs Hd Hc Hda Hca. unfold read_data_from_csv, for_loop, loaded. rewrite Hfs.
  destruct (scan_lines (Z.to_nat n_samples) content tmp0) as [rows [f' t']] eqn:Es.
  rewrite Z.sub_0_r.
  rewrite (read_lines_scan _ 0 _ rows f' t') by (simpl; done || lia).
  simpl. unfold column. by rewrite <- list_fmap_compose.
Qed.

Lemma read_data_from_csv_frame_witness :
  let nine := float_of_int 9 in
  ∃ rows,
    read_data_from_csv two_lines "two.csv"
      (Mat_create 3 ATTRIBUTES_PER_SAMPLE nine) (Mat_create 3 1 nine) 1 S754_nan
    = ([Fopen "two.csv" true; Fclose "two.csv"],
       Some (1, (fst <$> rows) ++ replicate 2 (replicate (Z.to_nat ATTRIBUTES_PER_SAMPLE) nine),
                column (snd <$> rows) ++ replicate 2 [nine]))
    ∧ length rows = 1%nat.
Proof.
  intros nine.
  exists (loaded (encode [example_row 1; example_row 26]) 1 S754_nan).
  split; [|apply scan_lines_length].
  apply (read_data_from_csv_frame two_lines "two.csv"
           (encode [example_row 1; example_row 26])
           (Mat_create 3 ATTRIBUTES_PER_SAMPLE nine) (Mat_create 3 1 nine) 1 S754_nan).
  - apply lookup_singleton_eq.
  - vm_compute. lia.
  - vm_compute. lia.
  - apply Forall_replicate. apply length_replicate.
  - apply Forall_replicate. reflexivity.
Defined.

Lemma Mat_set_no_row (m : Mat) i j v :
  (length m ≤ Z.to_nat i)%nat → Mat_set m i j v = None.
Proof.
  intros Hi. unfold Mat_set. destruct ((0 <=? i) && (0 <=? j)); [|done].
  by rewrite lookup_ge_None_2.
Qed.

Lemma read_attribute_no_row line st :
  (length (rd_data st) ≤ Z.to_nat line)%nat → read_attribute line 0 st = None.
Proof.
  intros Hline. unfold read_attribute.
  change (0 <? ATTRIBUTES_PER_SAMPLE) with true. cbv iota.
  destruct (fscanf_f (rd_f st) (rd_tmp st)) as [f' tmp'].
  by rewrite Mat_set_no_row.
Qed.

Lemma read_line_no_row line st :
  (length (rd_data st) ≤ Z.to_nat line)%nat → read_line line st = None.
Proof.
  intros Hline. unfold read_line, for_loop.
  replace (Z.to_nat (ATTRIBUTES_PER_SAMPLE + 1 - 0))
    with (S (Z.to_nat ATTRIBUTES_PER_SAMPLE)) by reflexivity.
  cbn [for_iter]. by rewrite read_attribute_no_row.
Qed.

(** X3. The caller must provide the rows: when the file can be opened and
    the data matrix has fewer than n_samples rows, the call writes outside
    the matrix (undefined behaviour) at the first missing row, before the
    file is closed. *)
Theorem read_data_from_csv_too_few_rows (fs : gmap string (list item)) (filename : string)
    (content : list item) (data classes : Mat) (n_samples : Z) (tmp0 : spec_float) :
  fs !! filename = Some content →
  (length data < Z.to_nat n_samples)%nat →
  (length data ≤ length classes)%nat →
  Forall (λ r, length r = Z.to_nat ATTRIBUTES_PER_SAMPLE) data →
  Forall (λ r, length r = 1%nat) classes →
  read_data_from_csv fs filename data classes n_samples tmp0
  = ([Fopen filename true], None).
Proof.
  intros Hfs Hd Hc Hda Hca. unfold read_data_from_csv, for_loop. rewrite Hfs.
  replace (Z.to_nat (n_samples - 0))
    with (length data + S (Z.to_nat n_samples - length data - 1))%nat by lia.
  rewrite for_iter_app.
  destruct (scan_lines (length data) content tmp0) as [rows [f' t']] eqn:Es.
  rewrite (read_lines_scan _ 0 _ rows f' t') by (simpl; done || lia).
  cbn [mbind option_bind for_iter].
  rewrite read_line_no_row; [done|].
  cbn [rd_data]. rewrite drop_ge, app_nil_r by (simpl; lia).
  simpl. rewrite length_fmap.
  pose proof (scan_lines_length (length data) content tmp0) as Hl.
  rewrite Es in Hl. simpl in Hl. lia.
Qed.

Lemma read_data_from_csv_too_few_rows_witness :
  read_data_from_csv two_lines "two.csv"
    (Mat_create 1 ATTRIBUTES_PER_SAMPLE S754_nan) (Mat_create 2 1 S754_nan) 2 S754_nan
  = ([Fopen "two.csv" true], None).
Proof.
  apply (read_data_from_csv_too_few_rows two_lines "two.csv"
           (encode [example_row 1; example_row 26])).
  - apply lookup_singleton_eq.
  - vm_compute. lia.
  - vm_compute. lia.
  - apply Forall_replicate. apply length_replicate.
  - apply Forall_replicate. reflexivity.
Defined.

(** * Further properties of the evaluation *)

Lemma insert_fmap_seqZ (f g : Z → Z) (n i : Z) :
  0 ≤ i < n → (∀ j, j ≠ i → g j = f j) →
  <[Z.to_nat i := g i]> (f <$> seqZ 0 n) = g <$> seqZ 0 n.
Proof.
  intros Hi Hfg. apply list_eq. intros j.
  destruct (decide (Z.of_nat j < n)) as [Hj|Hj].
  - destruct (decide (j = Z.to_nat i)) as [->|Hne].
    + rewrite list_lookup_insert_eq by (rewrite length_fmap, length_seqZ; lia).
      rewrite list_lookup_fmap, lookup_seqZ_lt by lia. simpl. f_equal. f_equal. lia.
    + rewrite list_lookup_insert_ne by done.
      rewrite !list_lookup_fmap, lookup_seqZ_lt by lia. simpl. f_equal.
      symmetry. apply Hfg. lia.
  - rewrite list_lookup_insert_ne by lia.
    by rewrite !list_lookup_fmap, lookup_seqZ_ge by lia.
Qed.

Section Tallies.
Context `{SvmBackend}.
Variable svm : CvSVM.

Lemma tallies_nil :
  tallies svm [] = {| correct_class := 0; wrong_class := 0;
                      false_positives := replicate (Z.to_nat NUMBER_OF_CLASSES) 0 |}.
Proof. reflexivity. Qed.

Lemma count_snoc {A : Type} (P : A → Prop) `{∀ x, Decision (P x)} (l : list A) (x : A) :
  Z.of_nat (length (filter P (l ++ [x])))
  = Z.of_nat (length (filter P l)) + (if decide (P x) then 1 else 0).
Proof.
  rewrite filter_app, length_app, Nat2Z.inj_add. f_equal.
  rewrite filter_cons, filter_nil. by case_decide.
Qed.

Lemma misses_at_snoc samples s i :
  misses_at svm (samples ++ [s]) i
  = misses_at svm samples i
    + (if decide (missed svm s = true ∧ false_positive_index s.2 = Some i) then 1 else 0).
Proof. unfold misses_at. by rewrite count_snoc. Qed.

Lemma tallies_snoc samples s :
  tallies svm (samples ++ [s])
  = {| correct_class := correct_class (tallies svm samples)
                        + (if missed svm s then 0 else 1);
       wrong_class := wrong_class (tallies svm samples)
                      + (if missed svm s then 1 else 0);
       false_positives := misses_at svm (samples ++ [s]) <$> seqZ 0 NUMBER_OF_CLASSES |}.
Proof.
  unfold tallies. cbn [correct_class wrong_class]. rewrite !count_snoc.
  by destruct (missed svm s).
Qed.

Lemma tallies_bounds samples :
  0 ≤ correct_class (tallies svm samples) ≤ Z.of_nat (length samples)
  ∧ 0 ≤ wrong_class (tallies svm samples) ≤ Z.of_nat (length samples)
  ∧ ∀ i, 0 ≤ misses_at svm samples i ≤ Z.of_nat (length samples).
Proof.
  unfold tallies, misses_at. cbn [correct_class wrong_class].
  pose proof (length_filter (λ s, missed svm s = false) samples).
  pose proof (length_filter (λ s, missed svm s = true) samples).
  split; [lia|]. split; [lia|]. intros i.
  pose proof (length_filter
                (λ s, missed svm s = true ∧ false_positive_index s.2 = Some i) samples).
  lia.
Qed.

(** One trip of the loop, from the counts of the samples before it. *)
Lemma tally_tallies samples s :
  Z.of_nat (length samples) < INT_MAX →
  tally (predict svm s.1) s.2 (tallies svm samples)
  = if countable svm s then Some (tallies svm (samples ++ [s])) else None.
Proof.
  intros Hlen. destruct (tallies_bounds samples) as (Hc & Hw & Hm).
  rewrite tallies_snoc. unfold tally, countable. fold (missed svm s).
  destruct (missed svm s) eqn:Hmiss; cbn [negb orb].
  - rewrite int_incr_Some by lia. cbn [mbind option_bind].
    destruct (false_positive_index s.2) as [i|] eqn:Hi; [|done].
    cbn [mbind option_bind].
    destruct (Z.leb_spec 0 i) as [Hi0|Hi0]; cbn [andb];
      [destruct (Z.ltb_spec i NUMBER_OF_CLASSES) as [Hi1|Hi1]|].
    + rewrite (array_incr_Some _ _ (misses_at svm samples i)); [|done| |].
      2: { cbn [false_positives tallies].
           rewrite list_lookup_fmap, lookup_seqZ_lt by lia. simpl. do 2 f_equal. lia. }
      2: { specialize (Hm i). lia. }
      cbn [mbind option_bind]. rewrite Z.add_0_r. do 2 f_equal.
      cbn [false_positives tallies].
      replace (misses_at svm samples i + 1) with (misses_at svm (samples ++ [s]) i)
        by (rewrite misses_at_snoc, decide_True by done; lia).
      apply insert_fmap_seqZ; [lia|]. intros j Hj.
      rewrite misses_at_snoc, decide_False; [lia|]. intros [_ Hj']. congruence.
    + rewrite array_incr_None; [done|]. right.
      cbn [false_positives tallies]. rewrite length_fmap, length_seqZ. lia.
    + rewrite array_incr_None; [done|]. by left.
  - rewrite int_incr_Some by lia. cbn [mbind option_bind]. rewrite Z.add_0_r.
    do 2 f_equal. cbn [false_positives tallies].
    apply list_fmap_ext. intros _ j _.
    rewrite misses_at_snoc, decide_False; [lia|]. intros [Hj _]. congruence.
Qed.

Lemma test_loop_tallies samples k :
  (k ≤ length samples)%nat → Z.of_nat (length samples) < INT_MAX →
  for_loop 0 (Z.of_nat k)
    (test_one svm (fst <$> samples) (column (snd <$> samples)))
    (tallies svm [])
  = if forallb (countable svm) (take k samples)
    then Some (tallies svm (take k samples)) else None.
Proof.
  intros Hk Hmax. induction k as [|k IH].
  - by rewrite for_loop_empty.
  - rewrite Nat2Z.inj_succ, <- Z.add_1_r, for_loop_snoc, IH by lia.
    destruct (lookup_lt_is_Some_2 samples k) as [s Hs]; [lia|].
    rewrite (take_S_r _ _ s), forallb_app by done. cbn [forallb].
    destruct (forallb (countable svm) (take k samples)); [|done].
    cbn [mbind option_bind andb]. rewrite andb_true_r.
    unfold test_one, Mat_row.
    destruct (Z.leb_spec 0 (Z.of_nat k)); [|lia].
    rewrite Mat_at_column, Nat2Z.id, !list_lookup_fmap, Hs by lia.
    cbn [fmap option_fmap option_map mbind option_bind].
    apply tally_tallies. rewrite length_take. lia.
Qed.
End Tallies.

Lemma evaluate_loop_tallies `{SvmBackend} (svm : CvSVM)
    (samples : list (list spec_float * spec_float)) (ind : indeterminate) :
  length samples = Z.to_nat NUMBER_OF_TESTING_SAMPLES →
  evaluate svm (fst <$> samples) (column (snd <$> samples)) ind
  = if forallb (countable svm) samples
    then Some (tallies svm samples, seqZ 65 NUMBER_OF_CLASSES)
    else None.
Proof.
  intros Hlen. rewrite evaluate_loops.
  change {| correct_class := 0; wrong_class := 0;
            false_positives := replicate (Z.to_nat NUMBER_OF_CLASSES) 0 |}
    with (tallies svm []).
  replace NUMBER_OF_TESTING_SAMPLES with (Z.of_nat (length samples)) at 1
    by (rewrite Hlen; reflexivity).
  rewrite test_loop_tallies, firstn_all; [|lia|rewrite Hlen; reflexivity].
  by destruct (forallb (countable svm) samples).
Qed.

(** X4. What the evaluation computes, for any test set of
    NUMBER_OF_TESTING_SAMPLES samples and any labels: it is defined exactly
    when every missed sample has its counter inside the array (the cast
    [(int) (label - 1)] is defined and lies between 0 and
    NUMBER_OF_CLASSES - 1); then correct_class is the number of samples whose
    prediction matches the label, wrong_class the number of missed samples,
    and counter i the number of missed samples whose label gives index i;
    the class letters are A to Z. What the uninitialised arrays held plays no
    part. *)
Theorem evaluate_tallies `{SvmBackend} (svm : CvSVM)
    (samples : list (list spec_float * spec_float)) (ind : indeterminate) :
  length samples = Z.to_nat NUMBER_OF_TESTING_SAMPLES →
  evaluate svm (fst <$> samples) (column (snd <$> samples)) ind
  = if forallb (countable svm) samples
    then Some (tallies svm samples, seqZ 65 NUMBER_OF_CLASSES)
    else None.
Proof. apply evaluate_loop_tallies. Qed.

Lemma evaluate_tallies_witness :
  let H := constant_backend (float_of_int 1) in
  let samples := replicate 1559 ([] : list spec_float, float_of_int 2) in
  evaluate initial_params (fst <$> samples) (column (snd <$> samples))
    (example_ind S754_nan)
  = Some ({| correct_class := 0; wrong_class := 1559;
             false_positives := <[1%nat := 1559]> (replicate 26 0) |},
          seqZ 65 26).
Proof.
  intros H samples.
  rewrite (@evaluate_tallies H initial_params samples (example_ind S754_nan)).
  - vm_compute. reflexivity.
  - reflexivity.
Defined.

Lemma forallb_Permutation {A : Type} (f : A → bool) (l l' : list A) :
  l ≡ₚ l' → forallb f l = forallb f l'.
Proof.
  induction 1 as [|x l l' _ IH|x y l|l l' l'' _ IH1 _ IH2]; simpl.
  - done.
  - by rewrite IH.
  - by rewrite !andb_assoc, (andb_comm (f y)).
  - by rewrite IH1.
Qed.

Lemma tallies_Permutation `{SvmBackend} svm (l l' : list (list spec_float * spec_float)) :
  l ≡ₚ l' → tallies svm l = tallies svm l'.
Proof.
  intros Hperm. unfold tallies, misses_at. f_equal.
  - by rewrite Hperm.
  - by rewrite Hperm.
  - apply list_fmap_ext. intros _ i _. by rewrite Hperm.
Qed.

(** X5. The order of the test samples does not matter: two test sets that
    hold the same samples in a different order are evaluated to the same
    counts (or both leave the array of counters). *)
Theorem evaluate_Permutation `{SvmBackend} (svm : CvSVM)
    (samples samples' : list (list spec_float * spec_float)) (ind ind' : indeterminate) :
  length samples = Z.to_nat NUMBER_OF_TESTING_SAMPLES →
  samples ≡ₚ samples' →
  evaluate svm (fst <$> samples) (column (snd <$> samples)) ind
  = evaluate svm (fst <$> samples') (column (snd <$> samples')) ind'.
Proof.
  intros Hlen Hperm.
  rewrite !evaluate_loop_tallies by (done || by rewrite <- Hperm).
  by rewrite (forallb_Permutation _ _ _ Hperm), (tallies_Permutation _ _ _ Hperm).
Qed.

Lemma evaluate_Permutation_witness :
  let H := constant_backend (float_of_int 1) in
  let rest := replicate 1557 ([] : list spec_float, float_of_int 2) in
  let a := ([] : list spec_float, float_of_int 1) in
  let b := ([] : list spec_float, float_of_int 3) in
  evaluate initial_params (fst <$> a :: b :: rest) (column (snd <$> a :: b :: rest))
    (example_ind S754_nan)
  = evaluate initial_params (fst <$> b :: a :: rest) (column (snd <$> b :: a :: rest))
      (example_ind S754_nan).
Proof.
  intros H rest a b.
  apply (@evaluate_Permutation H initial_params (a :: b :: rest) (b :: a :: rest)).
  - reflexivity.
  - apply perm_swap.
Defined.

Lemma mismatch_same x : mismatch x x = false.
Proof.
  unfold mismatch, float_sub, SFsub. destruct x as [[]|[]| |s m e]; try reflexivity.
  rewrite Z.min_id. unfold shl_align. rewrite Z.sub_diag. cbv beta iota zeta.
  cbn [fst]. rewrite ?Z.sub_diag. reflexivity.
Qed.

Lemma mismatch_nan x : mismatch x S754_nan = false ∧ mismatch S754_nan x = false.
Proof. split; by destruct x as [[]|[]| |]. Qed.

(** X6. A classifier that answers the label of every test sample is
    reported as always correct, whatever the labels are (integers or not,
    inside 1..NUMBER_OF_CLASSES or not): correct_class is the number of test
    samples, wrong_class and every false-positive counter are 0, and the
    evaluation never leaves the array of counters. *)
Theorem evaluate_perfect `{SvmBackend} (svm : CvSVM)
    (samples : list (list spec_float * spec_float)) (ind : indeterminate) :
  length samples = Z.to_nat NUMBER_OF_TESTING_SAMPLES →
  Forall (λ s, predict svm s.1 = s.2) samples →
  evaluate svm (fst <$> samples) (column (snd <$> samples)) ind
  = Some ({| correct_class := NUMBER_OF_TESTING_SAMPLES; wrong_class := 0;
             false_positives := replicate (Z.to_nat NUMBER_OF_CLASSES) 0 |},
          seqZ 65 NUMBER_OF_CLASSES).
Proof.
  intros Hlen Hall.
  assert (Hmiss : Forall (λ s, missed svm s = false) samples).
  { eapply Forall_impl; [exact Hall|]. intros s Hs. unfold missed.
    rewrite Hs. apply mismatch_same. }
  rewrite evaluate_loop_tallies by done.
  replace (forallb (countable svm) samples) with true.
  2: { symmetry. apply forallb_forall. intros s Hs. apply list_elem_of_In in Hs.
       unfold countable. by rewrite (proj1 (Forall_forall _ _) Hmiss s Hs). }
  do 2 f_equal. unfold tallies, misses_at.
  assert (Hnone : ∀ P : list spec_float * spec_float → Prop, ∀ Hdec : ∀ s, Decision (P s),
            (∀ s, P s → missed svm s = true) → filter P samples = []).
  { intros P Hdec HP. clear Hlen Hall. induction Hmiss as [|s l Hs _ IH]; [done|].
    rewrite filter_cons, decide_False; [done|]. intros HPs. apply HP in HPs. congruence. }
  f_equal.
  - assert (Hfull : filter (λ s, missed svm s = false) samples = samples).
    { clear Hlen Hall Hnone. induction Hmiss as [|s l Hs _ IH]; [done|].
      by rewrite filter_cons, decide_True, IH. }
    rewrite Hfull, Hlen. reflexivity.
  - by rewrite Hnone.
  - transitivity ((λ _ : Z, 0) <$> seqZ 0 NUMBER_OF_CLASSES); [|reflexivity].
    apply list_fmap_ext. intros _ i _. rewrite Hnone; [done|]. by intros s [? _].
Qed.

Lemma evaluate_perfect_witness :
  let H := constant_backend (float_of_int 40) in
  let samples := replicate 1559 ([] : list spec_float, float_of_int 40) in
  evaluate initial_params (fst <$> samples) (column (snd <$> samples))
    (example_ind S754_nan)
  = Some ({| correct_class := 1559; wrong_class := 0;
             false_positives := replicate 26 0 |}, seqZ 65 26).
Proof.
  intros H samples.
  apply (@evaluate_perfect H initial_params samples (example_ind S754_nan)).
  - reflexivity.
  - apply Forall_replicate. reflexivity.
Defined.

(** X7. A prediction or a label that is not a number is tallied as correct:
    the comparison [fabs(result - label) >= FLT_EPSILON] is false as soon as
    one of the two is a NaN, so correct_class is incremented and no counter
    of false positives is touched. *)
Theorem tally_nan (result label : spec_float) (acc : accumulator) :
  result = S754_nan ∨ label = S754_nan →
  correct_class acc < INT_MAX →
  tally result label acc
  = Some {| correct_class := correct_class acc + 1;
            wrong_class := wrong_class acc;
            false_positives := false_positives acc |}.
Proof.
  intros Hnan Hc. apply tally_match; [|done].
  destruct Hnan as [-> | ->]; apply mismatch_nan.
Qed.

Lemma tally_nan_witness :
  tally (float_of_int 5) S754_nan
    {| correct_class := 2; wrong_class := 7; false_positives := [3; 4] |}
  = Some {| correct_class := 3; wrong_class := 7; false_positives := [3; 4] |}.
Proof.
  apply (tally_nan (float_of_int 5) S754_nan
           {| correct_class := 2; wrong_class := 7; false_positives := [3; 4] |}).
  - by right.
  - simpl. unfold INT_MAX. lia.
Defined.

(** * Further properties of main *)

Lemma print_classes_lines (class_labels counters : list Z) :
  length class_labels = Z.to_nat NUMBER_OF_CLASSES →
  length counters = Z.to_nat NUMBER_OF_CLASSES →
  for_loop 0 NUMBER_OF_CLASSES (print_class class_labels counters) []
  = Some (zip_with (λ c n, {| cl_label := c; cl_false_positives := n;
                              cl_percentage := percentage n |})
            class_labels counters).
Proof.
  intros Hcl Hfp.
  destruct (for_loop_inv
    (λ j out, out = zip_with (λ c n, {| cl_label := c; cl_false_positives := n;
                                        cl_percentage := percentage n |})
                      (take (Z.to_nat j) class_labels) (take (Z.to_nat j) counters))
    (print_class class_labels counters) 0 NUMBER_OF_CLASSES [])
    as (lines & Hrun & Hlines); [done|done| |].
  - intros j out Hj ->. unfold print_class.
    destruct (lookup_lt_is_Some_2 class_labels (Z.to_nat j)) as [c Hcj]; [lia|].
    destruct (lookup_lt_is_Some_2 counters (Z.to_nat j)) as [n Hnj]; [lia|].
    rewrite Hcj, Hnj. simpl. eexists. split; [done|].
    replace (Z.to_nat (j + 1)) with (S (Z.to_nat j)) by lia.
    rewrite (take_S_r _ _ c), (take_S_r _ _ n) by done.
    rewrite zip_with_app; [done|]. rewrite !length_take. lia.
  - rewrite Hrun, Hlines. by rewrite !take_ge by lia.
Qed.

Lemma summarize_tallies `{SvmBackend} (svm : CvSVM)
    (testing : list (list spec_float * spec_float)) :
  summarize (Some (get_params svm)) (get_support_vector_count svm)
    (tallies svm testing) (seqZ 65 NUMBER_OF_CLASSES)
  = Some (report_of svm testing).
Proof.
  unfold summarize. rewrite print_classes_lines.
  - cbn [mbind option_bind false_positives tallies]. unfold report_of.
    generalize (misses_at svm testing). intros f. reflexivity.
  - reflexivity.
  - cbn [false_positives tallies]. by rewrite length_fmap.
Qed.

(** X8. What main does when both files can be opened: it reads the two
    files (the training file first, each closed before anything else
    happens), trains once by cross-validated search on what the training file
    gave, and evaluates what the testing file gave. If every missed test
    sample has its counter inside the array, main returns 0 and its summary
    holds the number of matches, the number of misses and, for the letters A
    to Z in this order, the misses counted at each index with the
    percentages of these counts; otherwise the run leaves the array
    (undefined behaviour) and nothing is reported. *)
Theorem main_report `{SvmBackend} (fs : gmap string (list item)) (ind : indeterminate)
    (argv1 argv2 : string) (content1 content2 : list item) :
  fs !! argv1 = Some content1 →
  fs !! argv2 = Some content2 →
  let training := loaded content1 NUMBER_OF_TRAINING_SAMPLES (ind_tmp_training ind) in
  let testing := loaded content2 NUMBER_OF_TESTING_SAMPLES (ind_tmp_testing ind) in
  let svm := train_auto (fst <$> training) (column (snd <$> training)) initial_params 10 in
  main fs ind argv1 argv2
  = {| run_events :=
         [Fopen argv1 true; Fclose argv1; Fopen argv2 true; Fclose argv2;
          TrainAuto (fst <$> training) (column (snd <$> training)) initial_params 10];
       run_exit := if forallb (countable svm) testing then Some 0 else None;
       run_report :=
         if forallb (countable svm) testing then Some (report_of svm testing) else None |}.
Proof.
  intros Hfs1 Hfs2 training testing svm.
  rewrite (main_loaded _ _ _ _ content1 content2) by done. cbv zeta.
  rewrite train_stage_calls. cbv beta iota zeta. fold training testing svm.
  rewrite evaluate_loop_tallies by apply scan_lines_length.
  destruct (forallb (countable svm) testing); [|reflexivity].
  cbn [mbind option_bind]. by rewrite summarize_tallies.
Qed.

Lemma main_report_witness :
  let H := constant_backend (float_of_int 3) in
  run_exit (main truncated_files (example_ind S754_nan) "train.csv" "test.csv") = Some 0.
Proof.
  intros H.
  rewrite (@main_report H truncated_files (example_ind S754_nan) "train.csv" "test.csv"
             (encode [example_row 3] ++ []) (encode [example_row 3] ++ [])).
  - cbn [run_exit]. rewrite loaded_truncated.
    + vm_compute. reflexivity.
    + apply Forall_cons. split; [reflexivity|apply Forall_nil_2].
    + exact I.
    + apply Nat.leb_le. vm_compute. reflexivity.
  - vm_compute. reflexivity.
  - vm_compute. reflexivity.
Defined.

Lemma tally_counts_post result label acc acc' k :
  counts_inv k acc → tally result label acc = Some acc' → counts_inv (k + 1) acc'.
Proof.
  intros (Hsum & Hc & Hw & Hfp & Hlen & Hpos). unfold tally, array_incr, int_incr.
  destruct (mismatch result label).
  - destruct (Z.ltb_spec (wrong_class acc) INT_MAX); cbn [mbind option_bind]; [|done].
    destruct (false_positive_index label) as [i|]; cbn [mbind option_bind]; [|done].
    destruct (Z.leb_spec 0 i); [|done].
    destruct (false_positives acc !! Z.to_nat i) as [x|] eqn:Hx;
      cbn [mbind option_bind]; [|done].
    destruct (Z.ltb_spec x INT_MAX); cbn [mbind option_bind]; [|done].
    intros [= <-]. unfold counts_inv. cbn [correct_class wrong_class false_positives].
    pose proof (sum_Z_lookup_le _ _ _ Hpos Hx).
    rewrite (sum_Z_insert _ _ x) by done. rewrite length_insert.
    split; [lia|]. split; [lia|]. split; [lia|]. split; [lia|]. split; [done|].
    apply Forall_insert; [done|].
    assert (0 ≤ x) by (eapply (proj1 (Forall_lookup _ _) Hpos); exact Hx). lia.
  - destruct (Z.ltb_spec (correct_class acc) INT_MAX); cbn [mbind option_bind]; [|done].
    intros [= <-]. unfold counts_inv. cbn [correct_class wrong_class false_positives].
    split; [lia|]. split; [lia|]. done.
Qed.

Lemma evaluate_counts_post `{SvmBackend} svm testing_data testing_classifications ind
    acc class_labels :
  evaluate svm testing_data testing_classifications ind = Some (acc, class_labels) →
  counts_inv NUMBER_OF_TESTING_SAMPLES acc ∧ class_labels = seqZ 65 NUMBER_OF_CLASSES.
Proof.
  rewrite evaluate_loops.
  destruct (for_loop 0 NUMBER_OF_TESTING_SAMPLES _ _) as [acc0|] eqn:Hloop; [|done].
  cbn [mbind option_bind]. intros [= <- <-]. split; [|done].
  apply (for_loop_post counts_inv
           (test_one svm testing_data testing_classifications)
           0 NUMBER_OF_TESTING_SAMPLES
           {| correct_class := 0; wrong_class := 0;
              false_positives := replicate (Z.to_nat NUMBER_OF_CLASSES) 0 |} acc0);
    [done| | |done].
  - unfold counts_inv. cbn [correct_class wrong_class false_positives].
    repeat split; try done. by apply Forall_replicate.
  - intros j t t' _ Ht. unfold test_one.
    destruct (Mat_row testing_data j); [|done]. cbn [mbind option_bind].
    destruct (Mat_at testing_classifications j 0); [|done]. cbn [mbind option_bind].
    by apply tally_counts_post.
Qed.

(** X9. Every summary that main prints is consistent, whatever the files
    hold and whatever the classifier answers: main then returns 0; the
    correct and the wrong count are not negative and add up to
    NUMBER_OF_TESTING_SAMPLES; there is one line for each of the letters A to
    Z, in this order; the per-class counts lie between 0 and the wrong count
    and add up to it. *)
Theorem main_report_totals `{SvmBackend} (fs : gmap string (list item))
    (ind : indeterminate) (argv1 argv2 : string) (rep : report) :
  run_report (main fs ind argv1 argv2) = Some rep →
  run_exit (main fs ind argv1 argv2) = Some 0
  ∧ rep_correct rep + rep_wrong rep = NUMBER_OF_TESTING_SAMPLES
  ∧ 0 ≤ rep_correct rep ∧ 0 ≤ rep_wrong rep
  ∧ cl_label <$> rep_classes rep = seqZ 65 NUMBER_OF_CLASSES
  ∧ sum_Z (cl_false_positives <$> rep_classes rep) = rep_wrong rep
  ∧ Forall (λ n, 0 ≤ n ≤ rep_wrong rep) (cl_false_positives <$> rep_classes rep).
Proof.
  destruct (fs !! argv1) as [content1|] eqn:Hfs1;
    [|by rewrite main_training_missing].
  destruct (fs !! argv2) as [content2|] eqn:Hfs2;
    [|by rewrite (main_testing_missing _ _ _ _ content1)].
  rewrite (main_loaded _ _ _ _ content1 content2) by done. cbv zeta.
  destruct (train_stage _ _) as [[ev3 svm] params].
  destruct (evaluate svm _ _ ind) as [[acc class_labels]|] eqn:Heval; [|done].
  apply evaluate_counts_post in Heval as [(Hsum & Hc & Hw & Hfp & Hlen & Hpos) ->].
  cbn [mbind option_bind].
  destruct (summarize_Some params (get_support_vector_count svm) acc
              (seqZ 65 NUMBER_OF_CLASSES)) as (lines & -> & Hl & Hn & _); [done|done|].
  cbn [run_report run_exit]. intros [= <-].
  cbn [rep_correct rep_wrong rep_classes]. rewrite Hl, Hn.
  repeat split; try done.
  apply Forall_forall. intros n Hn'. apply list_elem_of_lookup in Hn' as [i Hi].
  pose proof (sum_Z_lookup_le _ _ _ Hpos Hi). lia.
Qed.

Lemma main_report_totals_witness :
  let H := constant_backend (float_of_int 1) in
  ∃ rep,
    run_report (main truncated_files (example_ind S754_nan) "train.csv" "test.csv")
    = Some rep
    ∧ rep_correct rep + rep_wrong rep = NUMBER_OF_TESTING_SAMPLES.
Proof.
  intros H.
  pose proof (@main_outcome_loaded H truncated_files (example_ind S754_nan)
                "train.csv" "test.csv"
                (encode [example_row 3] ++ []) (encode [example_row 3] ++ [])
                ltac:(vm_compute; reflexivity) ltac:(vm_compute; reflexivity))
    as Hmain.
  cbv zeta in Hmain. destruct Hmain as [Hcases Hexit].
  assert (Hzero : run_exit (main truncated_files (example_ind S754_nan)
                              "train.csv" "test.csv") = Some 0).
  { apply Hexit.
    rewrite loaded_truncated;
      [ | apply Forall_cons; split; [reflexivity|apply Forall_nil_2] | exact I
        | apply Nat.leb_le; vm_compute; reflexivity ].
    apply Forall_app. split.
    - apply Forall_cons. split; [|apply Forall_nil_2]. exists 3. split; [|reflexivity].
      unfold NUMBER_OF_CLASSES. lia.
    - apply Forall_replicate. exists 3. split; [|reflexivity].
      unfold NUMBER_OF_CLASSES. lia. }
  destruct Hcases as [[_ [rep Hrep]]|[Hnone _]].
  - exists rep. split; [exact Hrep|].
    exact (proj1 (proj2 (@main_report_totals H truncated_files (example_ind S754_nan)
                           "train.csv" "test.csv" rep Hrep))).
  - rewrite Hzero in Hnone. discriminate Hnone.
Defined.

(** X10. main never holds two files at once and leaves none open: after any
    number of its events at most one file is open, and at the end of the run
    every file that was opened has been closed again, whether the files
    exist or not. *)
Theorem main_closes_files `{SvmBackend} (fs : gmap string (list item))
    (ind : indeterminate) (argv1 argv2 : string) :
  open_handles (run_events (main fs ind argv1 argv2)) = []
  ∧ ∀ k, (length (open_handles (take k (run_events (main fs ind argv1 argv2)))) ≤ 1)%nat.
Proof.
  assert (Hev : ∃ training,
    run_events (main fs ind argv1 argv2) = [Fopen argv1 false; CannotRead argv1]
    ∨ run_events (main fs ind argv1 argv2)
      = [Fopen argv1 true; Fclose argv1; Fopen argv2 false; CannotRead argv2]
    ∨ run_events (main fs ind argv1 argv2)
      = [Fopen argv1 true; Fclose argv1; Fopen argv2 true; Fclose argv2; training]
      ∧ track_handle [] training = []).
  { destruct (fs !! argv1) as [content1|] eqn:Hfs1.
    - destruct (fs !! argv2) as [content2|] eqn:Hfs2.
      + pose proof (main_events_loaded fs ind argv1 argv2 content1 content2 Hfs1 Hfs2)
          as Hrun.
        cbv zeta in Hrun. eexists. right. right. split; [exact Hrun|reflexivity].
      + exists (CannotRead argv1). right. left.
        by rewrite (main_testing_missing _ _ _ _ content1).
    - exists (CannotRead argv1). left. by rewrite main_training_missing. }
  destruct Hev as (training & [->|[->|[-> Htrain]]]).
  - split; [reflexivity|]. intros [|[|[|k]]]; cbn; lia.
  - split.
    + unfold open_handles. cbn [foldl track_handle close_handle].
      by rewrite decide_True.
    + intros [|[|[|[|[|k]]]]]; unfold open_handles;
        cbn [take foldl track_handle close_handle]; rewrite ?decide_True by done;
        cbn [length]; lia.
  - split.
    + unfold open_handles. cbn [foldl track_handle close_handle].
      rewrite !decide_True by done. exact Htrain.
    + intros [|[|[|[|[|[|k]]]]]]; unfold open_handles;
        cbn [take foldl track_handle close_handle]; rewrite ?decide_True by done;
        rewrite ?Htrain; cbn [length]; lia.
Qed.

Lemma percentage_step c :
  0 ≤ c < NUMBER_OF_TESTING_SAMPLES → percentage_step_check c = true.
Proof.
  unfold NUMBER_OF_TESTING_SAMPLES. intros Hc.
  apply (forallb_seqZ percentage_step_check 0 1559); [by vm_compute|lia].
Qed.

(** X11. The percentage [(double) count*100/NUMBER_OF_TESTING_SAMPLES] is
    strictly increasing in the count: for counts c < d between 0 and
    NUMBER_OF_TESTING_SAMPLES both doubles are numbers, they lie between 0
    and 100, and the one of c is strictly below the one of d; the rounding
    of the double arithmetic never makes two different counts print the same
    double. *)
Theorem percentage_increasing (c d : Z) :
  0 ≤ c → c < d → d ≤ NUMBER_OF_TESTING_SAMPLES →
  ∃ p q, SF2Q (percentage c) = Some p ∧ SF2Q (percentage d) = Some q
         ∧ (0 <= p)%Q ∧ (p < q)%Q ∧ (q <= 100)%Q.
Proof.
  intros Hc Hcd Hd.
  replace d with (c + 1 + Z.of_nat (Z.to_nat (d - c - 1))) in * by lia.
  generalize dependent (Z.to_nat (d - c - 1)). clear d.
  induction n as [|n IH]; intros Hcd Hd.
  - rewrite Z.add_0_r in *.
    pose proof (percentage_step c ltac:(lia)) as Hstep.
    unfold percentage_step_check in Hstep.
    destruct (SF2Q (percentage c)) as [p|]; [|done].
    destruct (SF2Q (percentage (c + 1))) as [q|]; [|done].
    apply andb_prop in Hstep as [Hstep Hq]. apply andb_prop in Hstep as [Hlt Hp].
    exists p, q. split; [done|]. split; [done|].
    apply Qle_bool_iff in Hp, Hq. split; [done|]. split; [|done].
    apply Qnot_le_lt. intros Hle. apply Qle_bool_iff in Hle. by rewrite Hle in Hlt.
  - destruct IH as (p & q' & Hp & Hq' & Hp0 & Hlt & _); [lia|lia|].
    pose proof (percentage_step (c + 1 + Z.of_nat n) ltac:(lia)) as Hstep.
    unfold percentage_step_check in Hstep. rewrite Hq' in Hstep.
    replace (c + 1 + Z.of_nat n + 1) with (c + 1 + Z.of_nat (S n)) in Hstep by lia.
    destruct (SF2Q (percentage (c + 1 + Z.of_nat (S n)))) as [q|]; [|done].
    apply andb_prop in Hstep as [Hstep Hq]. apply andb_prop in Hstep as [Hlt' _].
    exists p, q. split; [done|]. split; [done|].
    apply Qle_bool_iff in Hq. split; [done|]. split; [|done].
    apply Qlt_trans with q'; [done|].
    apply Qnot_le_lt. intros Hle. apply Qle_bool_iff in Hle. by rewrite Hle in Hlt'.
Qed.

Lemma percentage_increasing_witness :
  ∃ p q, SF2Q (percentage 3) = Some p ∧ SF2Q (percentage 1559) = Some q
         ∧ (0 <= p)%Q ∧ (p < q)%Q ∧ (q <= 100)%Q.
Proof.
  apply (percentage_increasing 3 1559); unfold NUMBER_OF_TESTING_SAMPLES; lia.
Defined.
